(** * Tab5duino: subsystem lifecycle and LVGL glue, embedded in Rocq

    Shallow embedding of
      - [src/Tab5duino.h], [src/src/Tab5duino.cpp]: the framework controller;
      - [src/framework/libraries/LVGL/lvgl_tab5duino.{h,cpp}]: LVGL integration;
      - [src/framework/cores/tab5duino/hal/touch_hal.h]: [touch_point_is_valid];
      - [src/framework/cores/tab5duino/hal/display_hal.h]: the colour
        conversions;
      - [src/Arduino.h], [src/framework/cores/tab5duino/Arduino.cpp]: [main],
        GPIO, shifting, interrupts, [map], [random] and the bit macros.

    The C globals become an explicit state that every function threads
    through.  Each call out of the repository (ESP-IDF, FreeRTOS, LVGL, the
    HAL drivers, the weak user hooks) takes its answer from a platform
    record and leaves an [event] in the trace of the call, so that the order
    and the number of such calls can be stated.  The two tasks ([loop_task],
    [lvgl_task]) never return and run beside their creator: each is given by
    the prefixes of its run, which a theorem places between the calls it
    speaks of.  Not modelled: log output ([ESP_LOGx]) and heap release
    outside the allocator handed to LVGL. *)

From Stdlib Require Import ZArith Lia Bool.
From stdpp Require Import base list.

(** ** ESP-IDF status codes ([esp_err.h], outside the repository) *)

Module Esp.
Abbreviation esp_err_t := Z (only parsing).
Definition ESP_OK : esp_err_t := 0%Z.
Definition ESP_FAIL : esp_err_t := (-1)%Z.
Definition ESP_ERR_NO_MEM : esp_err_t := 0x101%Z.
Definition ESP_ERR_INVALID_ARG : esp_err_t := 0x102%Z.
Definition ESP_ERR_INVALID_STATE : esp_err_t := 0x103%Z.
Definition ESP_ERR_NOT_SUPPORTED : esp_err_t := 0x106%Z.
Definition ESP_ERR_TIMEOUT : esp_err_t := 0x107%Z.

(** [ret == ESP_OK] *)
Definition is_ok (r : esp_err_t) : bool := (r =? ESP_OK)%Z.
End Esp.
Export Esp.

(** A C pointer of which only null-ness and identity matter. *)
Abbreviation ptr := (option nat) (only parsing).

Definition non_null (q : ptr) : bool :=
  match q with Some _ => true | None => false end.

(** Truncation to [uint16_t]. *)
Definition to_uint16 (v : Z) : Z := (v mod 65536)%Z.

(** ** Subsystem identifiers and states ([Tab5duino.h]) *)

Inductive tab5_subsystem_state_t :=
| TAB5_SUBSYSTEM_UNINITIALIZED
| TAB5_SUBSYSTEM_INITIALIZING
| TAB5_SUBSYSTEM_READY
| TAB5_SUBSYSTEM_ERROR.

#[global] Instance tab5_subsystem_state_eq_dec : EqDecision tab5_subsystem_state_t.
Proof. solve_decision. Defined.

(** The zero value of the enum is the array's default. *)
#[global] Instance tab5_subsystem_state_inhabited : Inhabited tab5_subsystem_state_t :=
  populate TAB5_SUBSYSTEM_UNINITIALIZED.

Definition is_uninitialized (st : tab5_subsystem_state_t) : bool :=
  match st with TAB5_SUBSYSTEM_UNINITIALIZED => true | _ => false end.

(** [tab5_subsystem_t] is an enum without negative enumerators; a value of
    that type is an unsigned number, possibly outside the enumerators. *)
Abbreviation tab5_subsystem_t := nat (only parsing).
Definition TAB5_SUBSYSTEM_DISPLAY : tab5_subsystem_t := 0.
Definition TAB5_SUBSYSTEM_TOUCH : tab5_subsystem_t := 1.
Definition TAB5_SUBSYSTEM_IMU : tab5_subsystem_t := 2.
Definition TAB5_SUBSYSTEM_AUDIO : tab5_subsystem_t := 3.
Definition TAB5_SUBSYSTEM_POWER : tab5_subsystem_t := 4.
Definition TAB5_SUBSYSTEM_USB : tab5_subsystem_t := 5.
Definition TAB5_SUBSYSTEM_WIFI : tab5_subsystem_t := 6.
Definition TAB5_SUBSYSTEM_LVGL : tab5_subsystem_t := 7.
Definition TAB5_SUBSYSTEM_COUNT : nat := 8.

(** ** Trace of calls that leave the repository *)

Inductive event :=
(* Tab5duino.cpp *)
| EvUsbSerialInstall
| EvUsbSerialUninstall
| EvTransition (s : tab5_subsystem_t) (st : tab5_subsystem_state_t)
    (* [subsystem_states[s] = st] in tab5duino_(de)init_subsystem *)
| EvOnFrameworkInit
| EvOnFrameworkReady
| EvOnSubsystemError (s : tab5_subsystem_t) (err : esp_err_t)
| EvOnLvglReady
| EvTaskCreate (stack priority core : Z)
| EvTaskDelete (h : nat)
| EvSetup                      (* the user's [setup()], called by [loop_task] *)
| EvLoop                       (* the user's [loop()] *)
(* lvgl_tab5duino.cpp *)
| EvLvInit
| EvDisplayHalInit | EvDisplayHalStart | EvDisplayHalStop | EvDisplayHalDeinit
| EvTouchHalInit | EvTouchHalStart | EvTouchHalStop | EvTouchHalDeinit
| EvTimerCreate | EvTimerStartPeriodic (period_us : Z) | EvTimerStop | EvTimerDelete
| EvLvglTaskCreate (stack priority core : Z)
| EvLvglTaskDelete
| EvReadyCallback
| EvPpaBlend (x y width height : Z)
| EvDrawBitmap (x y width height : Z)
| EvFlushReady.

#[global] Instance event_eq_dec : EqDecision event.
Proof. solve_decision. Defined.

Definition is_transition (e : event) : bool :=
  match e with EvTransition _ _ => true | _ => false end.

(** ** State and trace monad *)

Definition M (S A : Type) : Type := S -> A * S * list event.

Definition M_ret {S A} (a : A) : M S A := fun s => (a, s, []).

Definition M_bind {S A B} (k : A -> M S B) (m : M S A) : M S B :=
  fun s =>
    let '(a, s1, e1) := m s in
    let '(b, s2, e2) := k a s1 in
    (b, s2, e1 ++ e2).

(** stdpp's monad notations: [x ← m; k], [m;; k], [mret a]. *)
#[global] Instance M_MRet {S} : MRet (M S) := @M_ret S.
#[global] Instance M_MBind {S} : MBind (M S) := @M_bind S.

Definition mget {S} : M S S := fun s => (s, s, []).
Definition mput {S} (s' : S) : M S unit := fun _ => (tt, s', []).
Definition emit {S} (e : event) : M S unit := fun s => (tt, s, [e]).

(** [if (c) { m }] *)
Definition when {S} (c : bool) (m : M S unit) : M S unit :=
  if c then m else mret tt.

(** Result, final state and trace of a run. *)
Definition result {S A} (r : A * S * list event) : A := fst (fst r).
Definition final {S A} (r : A * S * list event) : S := snd (fst r).
Definition events {S A} (r : A * S * list event) : list event := snd r.

(** ** Touch HAL ([touch_hal.h]) *)

Module TouchHal.
Definition TOUCH_MAX_POINTS : nat := 10.
Definition TOUCH_COORD_MAX_X : Z := 1280.
Definition TOUCH_COORD_MAX_Y : Z := 720.

Record touch_point_t := {
  x : Z;             (* uint16_t *)
  y : Z;             (* uint16_t *)
  pressure : Z;      (* uint8_t, 0 means no touch *)
  size : Z;          (* uint8_t *)
  id : Z;            (* uint8_t *)
  is_valid : bool
}.

(** [point && point->is_valid && point->pressure > 0]; the callers in
    the repository pass the address of an array element, never null. *)
Definition touch_point_is_valid (point : touch_point_t) : bool :=
  is_valid point && (0 <? pressure point)%Z.
End TouchHal.

(** ** LVGL integration ([lvgl_tab5duino.h], [lvgl_tab5duino.cpp]) *)

Module Lvgl.
Import TouchHal.

Record lvgl_tab5_config_t := {
  enable_ppa_acceleration : bool;
  enable_vsync : bool;
  enable_double_buffer : bool;
  buffer_lines : Z;
  rotation : Z;
  enable_multi_touch : bool;
  enable_gestures : bool;
  touch_threshold : Z;
  gesture_threshold : Z;
  task_priority : Z;
  task_stack_size : Z;
  task_core : Z;
  tick_period_ms : Z;
  use_psram_buffers : bool;
  psram_cache_size : Z
}.

Definition LVGL_TAB5_CONFIG_DEFAULT : lvgl_tab5_config_t := {|
  enable_ppa_acceleration := true;      (* LVGL_TAB5_USE_PPA_ACCELERATION 1 *)
  enable_vsync := true;                 (* LVGL_TAB5_USE_VSYNC 1 *)
  enable_double_buffer := true;
  buffer_lines := 120;
  rotation := 0;
  enable_multi_touch := true;
  enable_gestures := true;
  touch_threshold := 10;
  gesture_threshold := 50;
  task_priority := 2;
  task_stack_size := 8 * 1024;
  task_core := 1;
  tick_period_ms := 5;
  use_psram_buffers := true;            (* LVGL_TAB5_USE_PSRAM_BUFFERS 1 *)
  psram_cache_size := 2 * 1024 * 1024
|}.

Record lvgl_tab5_context_t := {
  display : ptr;
  touchpad : ptr;
  draw_buffer : ptr;
  buffer1 : ptr;
  buffer2 : ptr;
  display_hal : ptr;
  touch_hal : ptr;
  lvgl_task : ptr;
  lvgl_mutex : ptr;
  initialized : bool
}.

Record lvgl_tab5_handle_s := {
  context : lvgl_tab5_context_t;
  config : lvgl_tab5_config_t;
  ready_callback : bool;     (* non-null *)
  error_callback : bool;     (* non-null *)
  frame_count : Z;
  last_perf_time : Z;
  fps_average : Z;
  cpu_usage : Z;
  started : bool
}.

(** Field assignments [h->context.f = v], [h->f = v]. *)
Definition set_context (f : lvgl_tab5_context_t -> lvgl_tab5_context_t)
    (h : lvgl_tab5_handle_s) : lvgl_tab5_handle_s :=
  {| context := f (context h); config := config h;
     ready_callback := ready_callback h; error_callback := error_callback h;
     frame_count := frame_count h; last_perf_time := last_perf_time h;
     fps_average := fps_average h; cpu_usage := cpu_usage h;
     started := started h |}.

Definition set_display v c :=
  {| display := v; touchpad := touchpad c; draw_buffer := draw_buffer c;
     buffer1 := buffer1 c; buffer2 := buffer2 c; display_hal := display_hal c;
     touch_hal := touch_hal c; lvgl_task := lvgl_task c;
     lvgl_mutex := lvgl_mutex c; initialized := initialized c |}.
Definition set_touchpad v c :=
  {| display := display c; touchpad := v; draw_buffer := draw_buffer c;
     buffer1 := buffer1 c; buffer2 := buffer2 c; display_hal := display_hal c;
     touch_hal := touch_hal c; lvgl_task := lvgl_task c;
     lvgl_mutex := lvgl_mutex c; initialized := initialized c |}.
Definition set_draw_buffer v c :=
  {| display := display c; touchpad := touchpad c; draw_buffer := v;
     buffer1 := buffer1 c; buffer2 := buffer2 c; display_hal := display_hal c;
     touch_hal := touch_hal c; lvgl_task := lvgl_task c;
     lvgl_mutex := lvgl_mutex c; initialized := initialized c |}.
Definition set_buffer1 v c :=
  {| display := display c; touchpad := touchpad c; draw_buffer := draw_buffer c;
     buffer1 := v; buffer2 := buffer2 c; display_hal := display_hal c;
     touch_hal := touch_hal c; lvgl_task := lvgl_task c;
     lvgl_mutex := lvgl_mutex c; initialized := initialized c |}.
Definition set_buffer2 v c :=
  {| display := display c; touchpad := touchpad c; draw_buffer := draw_buffer c;
     buffer1 := buffer1 c; buffer2 := v; display_hal := display_hal c;
     touch_hal := touch_hal c; lvgl_task := lvgl_task c;
     lvgl_mutex := lvgl_mutex c; initialized := initialized c |}.
Definition set_display_hal v c :=
  {| display := display c; touchpad := touchpad c; draw_buffer := draw_buffer c;
     buffer1 := buffer1 c; buffer2 := buffer2 c; display_hal := v;
     touch_hal := touch_hal c; lvgl_task := lvgl_task c;
     lvgl_mutex := lvgl_mutex c; initialized := initialized c |}.
Definition set_touch_hal v c :=
  {| display := display c; touchpad := touchpad c; draw_buffer := draw_buffer c;
     buffer1 := buffer1 c; buffer2 := buffer2 c; display_hal := display_hal c;
     touch_hal := v; lvgl_task := lvgl_task c;
     lvgl_mutex := lvgl_mutex c; initialized := initialized c |}.
Definition set_lvgl_task v c :=
  {| display := display c; touchpad := touchpad c; draw_buffer := draw_buffer c;
     buffer1 := buffer1 c; buffer2 := buffer2 c; display_hal := display_hal c;
     touch_hal := touch_hal c; lvgl_task := v;
     lvgl_mutex := lvgl_mutex c; initialized := initialized c |}.
Definition set_lvgl_mutex v c :=
  {| display := display c; touchpad := touchpad c; draw_buffer := draw_buffer c;
     buffer1 := buffer1 c; buffer2 := buffer2 c; display_hal := display_hal c;
     touch_hal := touch_hal c; lvgl_task := lvgl_task c;
     lvgl_mutex := v; initialized := initialized c |}.
Definition set_initialized v c :=
  {| display := display c; touchpad := touchpad c; draw_buffer := draw_buffer c;
     buffer1 := buffer1 c; buffer2 := buffer2 c; display_hal := display_hal c;
     touch_hal := touch_hal c; lvgl_task := lvgl_task c;
     lvgl_mutex := lvgl_mutex c; initialized := v |}.

Definition set_started (v : bool) (h : lvgl_tab5_handle_s) :=
  {| context := context h; config := config h;
     ready_callback := ready_callback h; error_callback := error_callback h;
     frame_count := frame_count h; last_perf_time := last_perf_time h;
     fps_average := fps_average h; cpu_usage := cpu_usage h;
     started := v |}.
Definition set_last_perf_time (v : Z) (h : lvgl_tab5_handle_s) :=
  {| context := context h; config := config h;
     ready_callback := ready_callback h; error_callback := error_callback h;
     frame_count := frame_count h; last_perf_time := v;
     fps_average := fps_average h; cpu_usage := cpu_usage h;
     started := started h |}.
Definition set_frame_count (v : Z) (h : lvgl_tab5_handle_s) :=
  {| context := context h; config := config h;
     ready_callback := ready_callback h; error_callback := error_callback h;
     frame_count := v; last_perf_time := last_perf_time h;
     fps_average := fps_average h; cpu_usage := cpu_usage h;
     started := started h |}.
Definition set_fps_average (v : Z) (h : lvgl_tab5_handle_s) :=
  {| context := context h; config := config h;
     ready_callback := ready_callback h; error_callback := error_callback h;
     frame_count := frame_count h; last_perf_time := last_perf_time h;
     fps_average := v; cpu_usage := cpu_usage h;
     started := started h |}.

(** The handle right after [calloc(1, sizeof(struct lvgl_tab5_handle_s))]
    and the copy of the configuration. *)
Definition calloc_handle_s (cfg : lvgl_tab5_config_t) : lvgl_tab5_handle_s := {|
  context := {| display := None; touchpad := None; draw_buffer := None;
                buffer1 := None; buffer2 := None; display_hal := None;
                touch_hal := None; lvgl_task := None; lvgl_mutex := None;
                initialized := false |};
  config := cfg;
  ready_callback := false; error_callback := false;
  frame_count := 0; last_perf_time := 0; fps_average := 0; cpu_usage := 0;
  started := false
|}.

(** Answers of the calls that leave the file. *)
Record lvgl_platform := {
  calloc_handle : bool;                     (* calloc returned non-null *)
  xSemaphoreCreateMutex : ptr;
  display_hal_init : esp_err_t * ptr;       (* status, *handle *)
  touch_hal_init : esp_err_t * ptr;
  esp_psram_is_initialized : bool;
  heap_caps_malloc_buffer1 : bool -> ptr;   (* argument: MALLOC_CAP_SPIRAM asked *)
  heap_caps_malloc_buffer2 : bool -> ptr;
  malloc_draw_buffer : ptr;
  lv_disp_drv_register : ptr;
  lv_indev_drv_register : ptr;
  esp_timer_create : esp_err_t * ptr;       (* status, *out_handle *)
  display_hal_start : esp_err_t;
  touch_hal_start : esp_err_t;
  esp_timer_start_periodic : esp_err_t;
  xTaskCreatePinnedToCore : ptr;            (* Some task: pdPASS *)
  esp_timer_get_time : Z;
  display_hal_ppa_blend : esp_err_t;
  touch_hal_read_points : esp_err_t * list touch_point_t * nat;
                                            (* status, points[], *count *)
  lv_coord_of_uint16 : Z -> Z               (* conversion uint16_t -> lv_coord_t *)
}.

(** The file's mutable global: [static esp_timer_handle_t lvgl_tick_timer]. *)
Abbreviation lvgl_globals := (option nat) (only parsing).

Definition lvgl_tab5_stop (handle : option lvgl_tab5_handle_s)
    : M lvgl_globals (esp_err_t * option lvgl_tab5_handle_s) :=
  match handle with
  | None => mret (ESP_ERR_INVALID_ARG, None)
  | Some h =>
      if negb (started h) then mret (ESP_OK, Some h)
      else
        when (non_null (lvgl_task (context h))) (emit EvLvglTaskDelete);;
        let h := set_context (set_lvgl_task None) h in
        lvgl_tick_timer ← mget;
        when (non_null lvgl_tick_timer) (emit EvTimerStop);;
        emit EvDisplayHalStop;;
        emit EvTouchHalStop;;
        mret (ESP_OK, Some (set_started false h))
  end.

(** After the call the handle is freed: nothing of it is returned. *)
Definition lvgl_tab5_deinit (handle : option lvgl_tab5_handle_s)
    : M lvgl_globals unit :=
  match handle with
  | None => mret tt
  | Some h =>
      lvgl_tab5_stop (Some h);;
      lvgl_tick_timer ← mget;
      when (non_null lvgl_tick_timer) (emit EvTimerDelete;; mput None);;
      when (non_null (display_hal (context h))) (emit EvDisplayHalDeinit);;
      when (non_null (touch_hal (context h))) (emit EvTouchHalDeinit)
  end.

(** [cleanup:] of [lvgl_tab5_init]; [h] is non-null there. *)
Definition cleanup (h : lvgl_tab5_handle_s) (ret : esp_err_t)
    : M lvgl_globals (esp_err_t * option lvgl_tab5_handle_s) :=
  lvgl_tab5_deinit (Some h);;
  mret (ret, None).

(** [cfg] is the argument [config] ([None]: null); [handle_out] says
    whether the out-pointer [handle] is non-null; the second component of the result is [*handle] after the call. *)
Definition lvgl_tab5_init (p : lvgl_platform)
    (cfg : option lvgl_tab5_config_t) (handle_out : bool)
    : M lvgl_globals (esp_err_t * option lvgl_tab5_handle_s) :=
  if negb handle_out then mret (ESP_ERR_INVALID_ARG, None)
  else if negb (calloc_handle p) then mret (ESP_ERR_NO_MEM, None)
  else
    let h := calloc_handle_s (default LVGL_TAB5_CONFIG_DEFAULT cfg) in
    emit EvLvInit;;
    let h := set_context (set_lvgl_mutex (xSemaphoreCreateMutex p)) h in
    if negb (non_null (lvgl_mutex (context h))) then cleanup h ESP_ERR_NO_MEM
    else
    emit EvDisplayHalInit;;
    let h := set_context (set_display_hal (snd (display_hal_init p))) h in
    if negb (is_ok (fst (display_hal_init p)))
    then cleanup h (fst (display_hal_init p))
    else
    emit EvTouchHalInit;;
    let h := set_context (set_touch_hal (snd (touch_hal_init p))) h in
    if negb (is_ok (fst (touch_hal_init p)))
    then cleanup h (fst (touch_hal_init p))
    else
    let in_psram := use_psram_buffers (config h) && esp_psram_is_initialized p in
    let h := set_context (set_buffer1 (heap_caps_malloc_buffer1 p in_psram)) h in
    let h := if enable_double_buffer (config h)
             then set_context (set_buffer2 (heap_caps_malloc_buffer2 p in_psram)) h
             else h in
    if negb (non_null (buffer1 (context h)))
       || (enable_double_buffer (config h) && negb (non_null (buffer2 (context h))))
    then cleanup h ESP_ERR_NO_MEM
    else
    let h := set_context (set_draw_buffer (malloc_draw_buffer p)) h in
    if negb (non_null (draw_buffer (context h))) then cleanup h ESP_ERR_NO_MEM
    else
    let h := set_context (set_display (lv_disp_drv_register p)) h in
    if negb (non_null (display (context h))) then cleanup h ESP_FAIL
    else
    let h := set_context (set_touchpad (lv_indev_drv_register p)) h in
    if negb (non_null (touchpad (context h))) then cleanup h ESP_FAIL
    else
    emit EvTimerCreate;;
    mput (snd (esp_timer_create p));;
    if negb (is_ok (fst (esp_timer_create p)))
    then cleanup h (fst (esp_timer_create p))
    else mret (ESP_OK, Some (set_context (set_initialized true) h)).

(** The second component of the result is the pointee of [handle] after
    the call.  The task it creates, [lvgl_task_turns] below, runs beside
    the caller from the creation on and writes the counters of the handle. *)
Definition lvgl_tab5_start (p : lvgl_platform)
    (handle : option lvgl_tab5_handle_s)
    : M lvgl_globals (esp_err_t * option lvgl_tab5_handle_s) :=
  match handle with
  | None => mret (ESP_ERR_INVALID_STATE, None)
  | Some h =>
      if negb (initialized (context h)) then mret (ESP_ERR_INVALID_STATE, Some h)
      else if started h then mret (ESP_OK, Some h)   (* "LVGL already started" *)
      else
        emit EvDisplayHalStart;;
        if negb (is_ok (display_hal_start p))
        then mret (display_hal_start p, Some h)
        else
        emit EvTouchHalStart;;
        if negb (is_ok (touch_hal_start p))
        then mret (touch_hal_start p, Some h)
        else
        emit (EvTimerStartPeriodic (tick_period_ms (config h) * 1000));;
        if negb (is_ok (esp_timer_start_periodic p))
        then mret (esp_timer_start_periodic p, Some h)
        else
        emit (EvLvglTaskCreate (task_stack_size (config h))
                               (task_priority (config h))
                               (task_core (config h)));;
        match xTaskCreatePinnedToCore p with
        | None =>
            emit EvTimerStop;;
            mret (ESP_ERR_NO_MEM, Some h)
        | Some task =>
            let h := set_context (set_lvgl_task (Some task)) h in
            let h := set_started true h in
            let h := set_last_perf_time (esp_timer_get_time p) h in
            when (ready_callback h) (emit EvReadyCallback);;
            mret (ESP_OK, Some h)
        end
  end.

(** [lv_area_t]: corners in [lv_coord_t]. *)
Record lv_area_t := { x1 : Z; y1 : Z; x2 : Z; y2 : Z }.

(** [handle] is [disp_drv->user_data]. *)
Definition display_flush_cb {S} (p : lvgl_platform)
    (handle : option lvgl_tab5_handle_s) (area : lv_area_t) : M S unit :=
  match handle with
  | None => emit EvFlushReady
  | Some h =>
      if negb (non_null (display_hal (context h))) then emit EvFlushReady
      else
        let width := to_uint16 (x2 area - x1 area + 1) in
        let height := to_uint16 (y2 area - y1 area + 1) in
        (if enable_ppa_acceleration (config h) then
           emit (EvPpaBlend (to_uint16 (x1 area)) (to_uint16 (y1 area)) width height);;
           when (negb (is_ok (display_hal_ppa_blend p)))
             (emit (EvDrawBitmap (to_uint16 (x1 area)) (to_uint16 (y1 area))
                                 width height))
         else
           emit (EvDrawBitmap (to_uint16 (x1 area)) (to_uint16 (y1 area))
                              width height));;
        emit EvFlushReady
  end.

Inductive lv_indev_state_t := LV_INDEV_STATE_REL | LV_INDEV_STATE_PR.

(** The fields of [lv_indev_data_t] the callback writes. *)
Record lv_indev_data_t := {
  point : Z * Z;
  state : lv_indev_state_t
}.

(** [data->state = LV_INDEV_STATE_REL]: the point is left as it was. *)
Definition set_released (data : lv_indev_data_t) : lv_indev_data_t :=
  {| point := point data; state := LV_INDEV_STATE_REL |}.

(** [for (i; i < point_count; i++) if (touch_point_is_valid(&points[i])) ...]
    with [n] iterations left.  [None]: the loop read past the array;
    [Some None]: the loop ended without a valid point. *)
Fixpoint first_valid_point (points : list touch_point_t) (i n : nat)
    : option (option touch_point_t) :=
  match n with
  | O => Some None
  | S n' =>
      match points !! i with
      | None => None
      | Some pt =>
          if touch_point_is_valid pt then Some (Some pt)
          else first_valid_point points (S i) n'
      end
  end.

(** [handle] is [indev_drv->user_data]; the result is [*data] after the
    call, [None] when the loop indexes [points] out of its bounds. *)
Definition touchpad_read_cb (p : lvgl_platform)
    (handle : option lvgl_tab5_handle_s) (data : lv_indev_data_t)
    : option lv_indev_data_t :=
  match handle with
  | None => Some (set_released data)
  | Some h =>
      if negb (non_null (touch_hal (context h))) then Some (set_released data)
      else
        let '(ret, points, point_count) := touch_hal_read_points p in
        if negb (is_ok ret) || (point_count =? 0) then Some (set_released data)
        else
          match first_valid_point points 0 point_count with
          | None => None
          | Some (Some pt) =>
              Some {| point := (lv_coord_of_uint16 p (TouchHal.x pt),
                                lv_coord_of_uint16 p (TouchHal.y pt));
                      state := LV_INDEV_STATE_PR |}
          | Some None => Some (set_released data)
          end
  end.
(** [handle && handle->context.initialized && handle->started] *)
Definition lvgl_tab5_is_ready (handle : option lvgl_tab5_handle_s) : bool :=
  match handle with
  | None => false
  | Some h => initialized (context h) && started h
  end.

(** *** Locking ([lvgl_tab5_lock] and the calls made under it)

    The calls on the LVGL mutex and the LVGL calls made under it, in order.
    [EvSemaphoreTake] carries the timeout in milliseconds as the caller gave
    it, and the answer of [xSemaphoreTake]. *)
Inductive lock_event :=
| EvSemaphoreTake (timeout_ms : Z) (taken : bool)
| EvSemaphoreGive
| EvObjInvalidate            (* lv_obj_invalidate(lv_scr_act()) *)
| EvObjCreate                (* lv_obj_create(NULL) *)
| EvScrLoad (screen : nat)   (* lv_scr_load(screen) *)
| EvTimerHandler.            (* lv_timer_handler(), in [lvgl_task] *)

(** [xSemaphoreTake] is the answer of the scheduler: [true] for [pdTRUE]. *)
Definition lvgl_tab5_lock (xSemaphoreTake : bool)
    (handle : option lvgl_tab5_handle_s) (timeout_ms : Z)
    : bool * list lock_event :=
  match handle with
  | None => (false, [])
  | Some h =>
      if negb (non_null (lvgl_mutex (context h))) then (false, [])
      else (xSemaphoreTake, [EvSemaphoreTake timeout_ms xSemaphoreTake])
  end.

Definition lvgl_tab5_unlock (handle : option lvgl_tab5_handle_s)
    : list lock_event :=
  match handle with
  | None => []
  | Some h => if non_null (lvgl_mutex (context h)) then [EvSemaphoreGive] else []
  end.

Definition lvgl_tab5_refresh_display (xSemaphoreTake : bool)
    (handle : option lvgl_tab5_handle_s) : esp_err_t * list lock_event :=
  match handle with
  | None => (ESP_ERR_INVALID_STATE, [])
  | Some h =>
      if negb (non_null (display (context h))) then (ESP_ERR_INVALID_STATE, [])
      else
        let '(locked, e) := lvgl_tab5_lock xSemaphoreTake handle 1000 in
        if locked
        then (ESP_OK, e ++ [EvObjInvalidate] ++ lvgl_tab5_unlock handle)
        else (ESP_ERR_TIMEOUT, e)
  end.

(** [lv_obj_create] is the answer of LVGL: the new screen, or null. *)
Definition lvgl_tab5_create_screen (xSemaphoreTake : bool) (lv_obj_create : ptr)
    (handle : option lvgl_tab5_handle_s) : ptr * list lock_event :=
  match handle with
  | None => (None, [])
  | Some h =>
      let '(locked, e) := lvgl_tab5_lock xSemaphoreTake handle 1000 in
      if negb locked then (None, e)
      else (lv_obj_create, e ++ [EvObjCreate] ++ lvgl_tab5_unlock handle)
  end.

Definition lvgl_tab5_load_screen (xSemaphoreTake : bool)
    (handle : option lvgl_tab5_handle_s) (screen : ptr)
    : esp_err_t * list lock_event :=
  match handle, screen with
  | Some h, Some scr =>
      let '(locked, e) := lvgl_tab5_lock xSemaphoreTake handle 1000 in
      if locked
      then (ESP_OK, e ++ [EvScrLoad scr] ++ lvgl_tab5_unlock handle)
      else (ESP_ERR_TIMEOUT, e)
  | _, _ => (ESP_ERR_INVALID_ARG, [])
  end.

(** The mutex discipline of a trace, read from left to right with [held]
    telling whether the mutex is held: it is taken only when free, given
    only when held, LVGL is called only while it is held, and it is free at
    the end. *)
Fixpoint lock_discipline (held : bool) (evs : list lock_event) : bool :=
  match evs with
  | [] => negb held
  | EvSemaphoreTake _ taken :: evs' => negb held && lock_discipline taken evs'
  | EvSemaphoreGive :: evs' => held && lock_discipline false evs'
  | _ :: evs' => held && lock_discipline held evs'
  end.

(** The LVGL calls of a trace. *)
Definition lvgl_calls (evs : list lock_event) : list lock_event :=
  List.filter (fun e => match e with
                        | EvObjInvalidate | EvObjCreate | EvScrLoad _
                        | EvTimerHandler => true
                        | _ => false
                        end) evs.

(** The number of calls of [xSemaphoreTake] in a trace. *)
Definition takes (evs : list lock_event) : nat :=
  length (List.filter (fun e => match e with
                                | EvSemaphoreTake _ _ => true
                                | _ => false
                                end) evs).

(** *** The LVGL task ([lvgl_task])

    The task takes the mutex directly, without timeout. *)
Definition portMAX_DELAY : Z := 0xFFFFFFFF.

(** Truncation to [uint64_t]. *)
Definition to_uint64 (v : Z) : Z := (v mod 2 ^ 64)%Z.

(** One turn of the [while (1)] of [lvgl_task] on the handle it was given.
    [xSemaphoreTake] is the answer of the scheduler and [now] that of
    [esp_timer_get_time()] in this turn; the delay that ends the turn
    ([vTaskDelay]) leaves no trace. *)
Definition lvgl_task_turn (xSemaphoreTake : bool) (now : Z)
    (h : lvgl_tab5_handle_s) : lvgl_tab5_handle_s * list lock_event :=
  if xSemaphoreTake then
    let h := set_frame_count (to_uint64 (frame_count h + 1)) h in
    let now := to_uint64 now in
    let h := if (1000000 <=? to_uint64 (now - last_perf_time h))%Z
             then set_last_perf_time now
                    (set_frame_count 0
                       (set_fps_average (to_uint16 (frame_count h)) h))
             else h in
    (h, [EvSemaphoreTake portMAX_DELAY true; EvTimerHandler; EvSemaphoreGive])
  else (h, [EvSemaphoreTake portMAX_DELAY false]).

(** The function [lvgl_task] (the name is that of the context's field
    here) never returns: this is its run over the turns for which [answers]
    holds the scheduler's and the timer's answers. *)
Fixpoint lvgl_task_turns (answers : list (bool * Z)) (h : lvgl_tab5_handle_s)
    : lvgl_tab5_handle_s * list lock_event :=
  match answers with
  | [] => (h, [])
  | (taken, now) :: rest =>
      let '(h1, e1) := lvgl_task_turn taken now h in
      let '(h2, e2) := lvgl_task_turns rest h1 in
      (h2, e1 ++ e2)
  end.

(** *** The allocator handed to LVGL ([tab5duino_lvgl_malloc] and friends) *)

Inductive heap_event :=
| EvHeapCapsMalloc (spiram : bool) (size : Z)
    (* heap_caps_malloc(size, MALLOC_CAP_SPIRAM or MALLOC_CAP_INTERNAL, | 8BIT) *)
| EvMemcpy (dst src : nat) (n : Z)
| EvFree (block : nat).

(** Answers of the heap: whether PSRAM is up, and the block (or null) that
    [heap_caps_malloc] returns for a capability and a size. *)
Record heap_platform := {
  psram_is_initialized : bool;
  heap_caps_malloc : bool -> Z -> ptr
}.

Definition tab5duino_lvgl_malloc (hp : heap_platform) (size : Z)
    : ptr * list heap_event :=
  if psram_is_initialized hp then
    match heap_caps_malloc hp true size with
    | Some b => (Some b, [EvHeapCapsMalloc true size])
    | None =>
        (heap_caps_malloc hp false size,
         [EvHeapCapsMalloc true size; EvHeapCapsMalloc false size])
    end
  else (heap_caps_malloc hp false size, [EvHeapCapsMalloc false size]).

Definition tab5duino_lvgl_free (block : ptr) : list heap_event :=
  match block with
  | Some b => [EvFree b]
  | None => []
  end.

Definition tab5duino_lvgl_realloc (hp : heap_platform) (block : ptr) (size : Z)
    : ptr * list heap_event :=
  match block with
  | None => tab5duino_lvgl_malloc hp size
  | Some old =>
      if (size =? 0)%Z then (None, tab5duino_lvgl_free block)
      else
        let '(new_ptr, e) := tab5duino_lvgl_malloc hp size in
        match new_ptr with
        | Some new => (new_ptr, e ++ [EvMemcpy new old size] ++ tab5duino_lvgl_free block)
        | None => (new_ptr, e)
        end
  end.

(** *** The C++ wrapper ([class LVGLTab5duino]) *)

Record LVGLTab5duino := {
  handle_ : option lvgl_tab5_handle_s;
  initialized_ : bool
}.

(** The constructor. *)
Definition LVGLTab5duino_new : LVGLTab5duino :=
  {| handle_ := None; initialized_ := false |}.

(** A method runs on the object and on the file's global. *)
Definition get_this : M (LVGLTab5duino * lvgl_globals) LVGLTab5duino :=
  fun s => (fst s, s, []).
Definition put_this (this : LVGLTab5duino) : M (LVGLTab5duino * lvgl_globals) unit :=
  fun s => (tt, (this, snd s), []).
Definition call_c {A} (m : M lvgl_globals A) : M (LVGLTab5duino * lvgl_globals) A :=
  fun s => let '(a, t, e) := m (snd s) in (a, (fst s, t), e).

Definition LVGLTab5duino_begin (p : lvgl_platform) (cfg : option lvgl_tab5_config_t)
    : M (LVGLTab5duino * lvgl_globals) esp_err_t :=
  this ← get_this;
  if initialized_ this then mret ESP_OK
  else
    '(ret, h) ← call_c (lvgl_tab5_init p cfg true);
    put_this {| handle_ := h;
                initialized_ := if is_ok ret then true else initialized_ this |};;
    mret ret.

Definition LVGLTab5duino_start (p : lvgl_platform)
    : M (LVGLTab5duino * lvgl_globals) esp_err_t :=
  this ← get_this;
  if negb (initialized_ this) then mret ESP_ERR_INVALID_STATE
  else
    '(ret, h) ← call_c (lvgl_tab5_start p (handle_ this));
    put_this {| handle_ := h; initialized_ := initialized_ this |};;
    mret ret.

Definition LVGLTab5duino_stop : M (LVGLTab5duino * lvgl_globals) esp_err_t :=
  this ← get_this;
  if negb (initialized_ this) then mret ESP_ERR_INVALID_STATE
  else
    '(ret, h) ← call_c (lvgl_tab5_stop (handle_ this));
    put_this {| handle_ := h; initialized_ := initialized_ this |};;
    mret ret.

Definition LVGLTab5duino_end : M (LVGLTab5duino * lvgl_globals) unit :=
  this ← get_this;
  when (initialized_ this)
    (call_c (lvgl_tab5_deinit (handle_ this));;
     put_this {| handle_ := None; initialized_ := false |}).

Definition LVGLTab5duino_isReady (this : LVGLTab5duino) : bool :=
  if initialized_ this then lvgl_tab5_is_ready (handle_ this) else false.
End Lvgl.

(** ** Framework controller ([Tab5duino.h], [Tab5duino.cpp]) *)

Module Controller.

Record tab5duino_config_t := {
  auto_init_display : bool;
  auto_init_touch : bool;
  auto_init_imu : bool;
  auto_init_audio : bool;
  auto_init_lvgl : bool;
  enable_psram : bool;
  enable_usb_serial : bool;
  loop_stack_size : Z;
  loop_task_priority : Z;
  loop_task_core : Z
}.

Definition TAB5DUINO_CONFIG_DEFAULT : tab5duino_config_t := {|
  auto_init_display := true;
  auto_init_touch := true;
  auto_init_imu := true;
  auto_init_audio := false;
  auto_init_lvgl := true;
  enable_psram := true;
  enable_usb_serial := true;
  loop_stack_size := 8192;
  loop_task_priority := 1;
  loop_task_core := 1
|}.

Record tab5duino_instance_t := {
  config : tab5duino_config_t;
  subsystem_states : list tab5_subsystem_state_t;   (* [TAB5_SUBSYSTEM_COUNT] *)
  loop_task_handle : ptr;
  framework_initialized : bool;
  user_setup_called : bool;
  boot_time_us : Z
}.

(** The instance as [= {0}] and [memset(.., 0, ..)] leave it. *)
Definition instance_zero : tab5duino_instance_t := {|
  config := {| auto_init_display := false; auto_init_touch := false;
               auto_init_imu := false; auto_init_audio := false;
               auto_init_lvgl := false; enable_psram := false;
               enable_usb_serial := false; loop_stack_size := 0;
               loop_task_priority := 0; loop_task_core := 0 |};
  subsystem_states := replicate TAB5_SUBSYSTEM_COUNT TAB5_SUBSYSTEM_UNINITIALIZED;
  loop_task_handle := None;
  framework_initialized := false;
  user_setup_called := false;
  boot_time_us := 0
|}.

(** The array type fixes the number of entries. *)
Definition instance_wf (i : tab5duino_instance_t) : Prop :=
  length (subsystem_states i) = TAB5_SUBSYSTEM_COUNT.

Definition set_config v i :=
  {| config := v; subsystem_states := subsystem_states i;
     loop_task_handle := loop_task_handle i;
     framework_initialized := framework_initialized i;
     user_setup_called := user_setup_called i; boot_time_us := boot_time_us i |}.
Definition set_subsystem_states v i :=
  {| config := config i; subsystem_states := v;
     loop_task_handle := loop_task_handle i;
     framework_initialized := framework_initialized i;
     user_setup_called := user_setup_called i; boot_time_us := boot_time_us i |}.
Definition set_loop_task_handle v i :=
  {| config := config i; subsystem_states := subsystem_states i;
     loop_task_handle := v;
     framework_initialized := framework_initialized i;
     user_setup_called := user_setup_called i; boot_time_us := boot_time_us i |}.
Definition set_framework_initialized v i :=
  {| config := config i; subsystem_states := subsystem_states i;
     loop_task_handle := loop_task_handle i;
     framework_initialized := v;
     user_setup_called := user_setup_called i; boot_time_us := boot_time_us i |}.
Definition set_boot_time_us v i :=
  {| config := config i; subsystem_states := subsystem_states i;
     loop_task_handle := loop_task_handle i;
     framework_initialized := framework_initialized i;
     user_setup_called := user_setup_called i; boot_time_us := v |}.
Definition set_user_setup_called v i :=
  {| config := config i; subsystem_states := subsystem_states i;
     loop_task_handle := loop_task_handle i;
     framework_initialized := framework_initialized i;
     user_setup_called := v; boot_time_us := boot_time_us i |}.

(** The mutable globals the controller reaches: its own instance, the
    [static lvgl_handle] of [tab5duino_init_subsystem] (pointer and
    pointee), and [lvgl_tick_timer] of lvgl_tab5duino.cpp. *)
Record world := {
  g_tab5duino_instance : tab5duino_instance_t;
  lvgl_handle : option Lvgl.lvgl_tab5_handle_s;
  lvgl_tick_timer : Lvgl.lvgl_globals
}.

(** The state at boot. *)
Definition world_boot : world :=
  {| g_tab5duino_instance := instance_zero; lvgl_handle := None;
     lvgl_tick_timer := None |}.

(** Answers of the calls that leave the file.  [driver_init s] stands for
    the driver calls of the dispatch in [tab5duino_init_subsystem]
    ([display_init()], [touch_init()], [imu_init()], [audio_init()],
    [power_init()], [usb_init()], [wifi_init()]); in the source they
    are placeholders in comments, which is [driver_init_placeholder]. *)
Record platform := {
  esp_timer_get_time : Z;
  xTaskCreatePinnedToCore : ptr;            (* Some task: pdPASS *)
  on_framework_init : bool;                 (* weak hook is bound *)
  on_framework_ready : bool;
  on_subsystem_error : bool;
  on_lvgl_ready : bool;
  driver_init : tab5_subsystem_t -> esp_err_t;
  lvgl : Lvgl.lvgl_platform
}.

Definition driver_init_placeholder : tab5_subsystem_t -> esp_err_t :=
  fun _ => ESP_OK.

(** The platforms of the source as it is written: in the dispatch of
    [tab5duino_init_subsystem] the driver calls of display, touch, IMU,
    audio, power, USB and WiFi are comments and [ret] stays [ESP_OK]. *)
Definition drivers_as_written (p : platform) : Prop :=
  forall s, driver_init p s = driver_init_placeholder s.

Definition modify_instance (f : tab5duino_instance_t -> tab5duino_instance_t)
    : M world unit :=
  fun w => (tt, {| g_tab5duino_instance := f (g_tab5duino_instance w);
                   lvgl_handle := lvgl_handle w;
                   lvgl_tick_timer := lvgl_tick_timer w |}, []).

Definition set_lvgl_handle (h : option Lvgl.lvgl_tab5_handle_s) : M world unit :=
  fun w => (tt, {| g_tab5duino_instance := g_tab5duino_instance w;
                   lvgl_handle := h;
                   lvgl_tick_timer := lvgl_tick_timer w |}, []).

(** A call into lvgl_tab5duino.cpp runs on that file's global. *)
Definition call_lvgl {A} (m : M Lvgl.lvgl_globals A) : M world A :=
  fun w =>
    let '(a, t, e) := m (lvgl_tick_timer w) in
    (a, {| g_tab5duino_instance := g_tab5duino_instance w;
           lvgl_handle := lvgl_handle w;
           lvgl_tick_timer := t |}, e).

(** [g_tab5duino_instance.subsystem_states[subsystem]] *)
Definition get_state (subsystem : tab5_subsystem_t) : M world tab5_subsystem_state_t :=
  fun w => (subsystem_states (g_tab5duino_instance w) !!! subsystem, w, []).

(** [g_tab5duino_instance.subsystem_states[subsystem] = st] *)
Definition set_state (subsystem : tab5_subsystem_t) (st : tab5_subsystem_state_t)
    : M world unit :=
  modify_instance (fun i => set_subsystem_states (<[subsystem := st]> (subsystem_states i)) i).

(** The [switch (subsystem)] of [tab5duino_init_subsystem]. *)
Definition subsystem_bringup (p : platform) (subsystem : tab5_subsystem_t)
    : M world esp_err_t :=
  match subsystem with
  | 0 | 1 | 2 | 3 | 4 | 5 | 6 => mret (driver_init p subsystem)
  | 7 =>
      '(ret, h) ← call_lvgl (Lvgl.lvgl_tab5_init (lvgl p)
                               (Some Lvgl.LVGL_TAB5_CONFIG_DEFAULT) true);
      set_lvgl_handle h;;
      if is_ok ret then
        '(ret, h) ← call_lvgl (Lvgl.lvgl_tab5_start (lvgl p) h);
        set_lvgl_handle h;;
        when (is_ok ret && on_lvgl_ready p) (emit EvOnLvglReady);;
        mret ret
      else mret ret
  | _ => mret ESP_ERR_NOT_SUPPORTED
  end.

Definition tab5duino_init_subsystem (p : platform) (subsystem : tab5_subsystem_t)
    : M world esp_err_t :=
  if TAB5_SUBSYSTEM_COUNT <=? subsystem then mret ESP_ERR_INVALID_ARG
  else
    st ← get_state subsystem;
    if negb (is_uninitialized st) then mret ESP_OK
    else
      set_state subsystem TAB5_SUBSYSTEM_INITIALIZING;;
      emit (EvTransition subsystem TAB5_SUBSYSTEM_INITIALIZING);;
      ret ← subsystem_bringup p subsystem;
      (if is_ok ret then
         set_state subsystem TAB5_SUBSYSTEM_READY;;
         emit (EvTransition subsystem TAB5_SUBSYSTEM_READY)
       else
         set_state subsystem TAB5_SUBSYSTEM_ERROR;;
         emit (EvTransition subsystem TAB5_SUBSYSTEM_ERROR);;
         when (on_subsystem_error p) (emit (EvOnSubsystemError subsystem ret)));;
      mret ret.

Definition tab5duino_deinit_subsystem (subsystem : tab5_subsystem_t)
    : M world esp_err_t :=
  if TAB5_SUBSYSTEM_COUNT <=? subsystem then mret ESP_ERR_INVALID_ARG
  else
    st ← get_state subsystem;
    if is_uninitialized st then mret ESP_OK
    else
      (* the switch holds placeholders in comments only *)
      set_state subsystem TAB5_SUBSYSTEM_UNINITIALIZED;;
      emit (EvTransition subsystem TAB5_SUBSYSTEM_UNINITIALIZED);;
      mret ESP_OK.

Definition tab5duino_get_subsystem_state (w : world) (subsystem : tab5_subsystem_t)
    : tab5_subsystem_state_t :=
  if TAB5_SUBSYSTEM_COUNT <=? subsystem then TAB5_SUBSYSTEM_ERROR
  else subsystem_states (g_tab5duino_instance w) !!! subsystem.

(** [if (g_tab5duino_instance.config.flag) ret = tab5duino_init_subsystem(s);]
    with [ret] still [ESP_OK] when the flag is clear. *)
Definition init_if (flag : tab5duino_config_t -> bool) (p : platform)
    (subsystem : tab5_subsystem_t) : M world esp_err_t :=
  w ← mget;
  if flag (config (g_tab5duino_instance w))
  then tab5duino_init_subsystem p subsystem
  else mret ESP_OK.

Definition init_hardware_subsystems (p : platform) : M world esp_err_t :=
  ret ← init_if auto_init_display p TAB5_SUBSYSTEM_DISPLAY;
  if negb (is_ok ret) then mret ret else
  ret ← init_if auto_init_touch p TAB5_SUBSYSTEM_TOUCH;
  if negb (is_ok ret) then mret ret else
  ret ← init_if auto_init_imu p TAB5_SUBSYSTEM_IMU;
  if negb (is_ok ret) then mret ret else
  ret ← init_if auto_init_audio p TAB5_SUBSYSTEM_AUDIO;
  if negb (is_ok ret) then mret ret else
  (* Always initialize power management *)
  ret ← tab5duino_init_subsystem p TAB5_SUBSYSTEM_POWER;
  if negb (is_ok ret) then mret ret else
  ret ← init_if auto_init_lvgl p TAB5_SUBSYSTEM_LVGL;
  if negb (is_ok ret) then mret ret else
  mret ESP_OK.

(** [for (i = n - 1; i >= 0; i--)] of [deinit_hardware_subsystems]. *)
Fixpoint deinit_loop (n : nat) : M world unit :=
  match n with
  | O => mret tt
  | S i =>
      st ← get_state i;
      when (negb (is_uninitialized st)) (tab5duino_deinit_subsystem i;; mret tt);;
      deinit_loop i
  end.

Definition deinit_hardware_subsystems : M world unit :=
  deinit_loop TAB5_SUBSYSTEM_COUNT.

(** [for (i = 0; i < TAB5_SUBSYSTEM_COUNT; i++) subsystem_states[i] = UNINITIALIZED] *)
Definition reset_subsystem_states (l : list tab5_subsystem_state_t)
    : list tab5_subsystem_state_t :=
  foldl (fun acc i => <[i := TAB5_SUBSYSTEM_UNINITIALIZED]> acc) l
        (seq 0 TAB5_SUBSYSTEM_COUNT).

(** [cfg] is the argument [config] ([None]: null). *)
Definition tab5duino_init (p : platform) (cfg : option tab5duino_config_t)
    : M world esp_err_t :=
  w ← mget;
  if framework_initialized (g_tab5duino_instance w) then mret ESP_OK
  else
    modify_instance (set_config (default TAB5DUINO_CONFIG_DEFAULT cfg));;
    modify_instance (set_boot_time_us (esp_timer_get_time p));;
    modify_instance (fun i =>
      set_subsystem_states (reset_subsystem_states (subsystem_states i)) i);;
    (* PSRAM: the check only selects a log line *)
    w ← mget;
    when (enable_usb_serial (config (g_tab5duino_instance w)))
         (emit EvUsbSerialInstall);;       (* a failure is only logged *)
    ret ← init_hardware_subsystems p;
    if negb (is_ok ret) then mret ret
    else
      modify_instance (set_framework_initialized true);;
      when (on_framework_init p) (emit EvOnFrameworkInit);;
      mret ESP_OK.

(** A failed [xTaskCreatePinnedToCore] does not write the handle.  The task
    created, [loop_task] below, runs beside the caller from then on. *)
Definition tab5duino_start (p : platform) : M world esp_err_t :=
  w ← mget;
  let i := g_tab5duino_instance w in
  if negb (framework_initialized i) then mret ESP_ERR_INVALID_STATE
  else if non_null (loop_task_handle i) then mret ESP_OK
  else
    emit (EvTaskCreate (loop_stack_size (config i))
                       (loop_task_priority (config i))
                       (loop_task_core (config i)));;
    match xTaskCreatePinnedToCore p with
    | None => mret ESP_ERR_NO_MEM
    | Some task =>
        modify_instance (set_loop_task_handle (Some task));;
        when (on_framework_ready p) (emit EvOnFrameworkReady);;
        mret ESP_OK
    end.

Definition tab5duino_stop : M world esp_err_t :=
  w ← mget;
  match loop_task_handle (g_tab5duino_instance w) with
  | Some task =>
      emit (EvTaskDelete task);;
      modify_instance (set_loop_task_handle None);;
      mret ESP_OK
  | None => mret ESP_OK
  end.

Definition tab5duino_deinit : M world unit :=
  tab5duino_stop;;
  deinit_hardware_subsystems;;
  w ← mget;
  when (enable_usb_serial (config (g_tab5duino_instance w)))
       (emit EvUsbSerialUninstall);;
  modify_instance (fun _ => instance_zero).

(** [n] turns of the [while (1)] of [loop_task]: the user's [loop()], then
    [taskYIELD()], which leaves no trace. *)
Fixpoint loop_task_turns (n : nat) : M world unit :=
  match n with
  | O => mret tt
  | S n' => emit EvLoop;; loop_task_turns n'
  end.

(** [loop_task] never returns, and [vTaskDelete] ends it wherever it is:
    this is the run of its first [n] statements, that is the call of the
    user's [setup()], the write of [user_setup_called], and [loop()] over
    and over.  As for the hooks, the user's functions are calls that leave
    the controller's state alone. *)
Definition loop_task (n : nat) : M world unit :=
  match n with
  | 0 => mret tt
  | 1 => emit EvSetup
  | S (S turns) =>
      emit EvSetup;;
      modify_instance (set_user_setup_called true);;
      loop_task_turns turns
  end.

Definition tab5duino_get_boot_time_us (w : world) : Z :=
  boot_time_us (g_tab5duino_instance w).

Definition tab5duino_is_ready (w : world) : bool :=
  framework_initialized (g_tab5duino_instance w)
  && user_setup_called (g_tab5duino_instance w)
  && non_null (loop_task_handle (g_tab5duino_instance w)).

(** *** The C++ wrapper ([class Tab5duinoFramework]) *)

Record Tab5duinoFramework := { initialized : bool }.

(** The constructor. *)
Definition Tab5duinoFramework_new : Tab5duinoFramework :=
  {| initialized := false |}.

(** A method runs on the globals of the C interface and on the object. *)
Definition call_c {A} (m : M world A) : M (world * Tab5duinoFramework) A :=
  fun s => let '(a, w, e) := m (fst s) in (a, (w, snd s), e).
Definition get_this : M (world * Tab5duinoFramework) Tab5duinoFramework :=
  fun s => (snd s, s, []).
Definition put_this (this : Tab5duinoFramework)
    : M (world * Tab5duinoFramework) unit :=
  fun s => (tt, (fst s, this), []).

Definition Tab5duinoFramework_begin (p : platform) (cfg : option tab5duino_config_t)
    : M (world * Tab5duinoFramework) esp_err_t :=
  ret ← call_c (tab5duino_init p cfg);
  when (is_ok ret) (put_this {| initialized := true |});;
  mret ret.

Definition Tab5duinoFramework_start (p : platform)
    : M (world * Tab5duinoFramework) esp_err_t :=
  call_c (tab5duino_start p).

Definition Tab5duinoFramework_end : M (world * Tab5duinoFramework) unit :=
  this ← get_this;
  when (initialized this)
    (call_c tab5duino_deinit;;
     put_this {| initialized := false |}).

(** *** Program entry ([main] of Arduino.cpp) *)

Definition main (p : platform) : M world Z :=
  ret ← tab5duino_init p None;
  if negb (is_ok ret) then mret (-1)%Z
  else
    ret ← tab5duino_start p;
    if negb (is_ok ret) then mret (-1)%Z
    else mret 0%Z.

End Controller.

(** ** Checking a range of numbers one by one *)

(** [test] holds for the [n] numbers from [z] on. *)
Fixpoint all_from (z : Z) (n : nat) (test : Z -> bool) : bool :=
  match n with
  | O => true
  | S n' => test z && all_from (z + 1) n' test
  end.

(** [test] holds for every number from 0 up to [n], excluded. *)
Definition all_below (n : Z) (test : Z -> bool) : bool :=
  all_from 0 (Z.to_nat n) test.

(** ** Colour conversion ([display_hal.h]) *)

Module DisplayHal.

(** Truncation to [uint8_t]. *)
Definition to_uint8 (v : Z) : Z := (v mod 256)%Z.

(** [((r & 0xF8) << 8) | ((g & 0xFC) << 3) | (b >> 3)], returned as
    [uint16_t]; the arguments are [uint8_t]. *)
Definition display_rgb_to_rgb565 (r g b : Z) : Z :=
  to_uint16 (Z.lor (Z.lor (Z.shiftl (Z.land r 0xF8) 8)
                          (Z.shiftl (Z.land g 0xFC) 3))
                   (Z.shiftr b 3)).

(** The values stored through [r], [g] and [b]. *)
Definition display_rgb565_to_rgb (color : Z) : Z * Z * Z :=
  (to_uint8 (Z.land (Z.shiftr color 8) 0xF8),
   to_uint8 (Z.land (Z.shiftr color 3) 0xFC),
   to_uint8 (Z.land (Z.shiftl color 3) 0xF8)).

End DisplayHal.

(** ** Arduino compatibility layer ([Arduino.h], [Arduino.cpp]) *)

Module ArduinoCore.
Import DisplayHal.

(** *** Integer types of the target

    The target is the ESP32-P4, a 32-bit RISC-V: [int], [long] and
    [unsigned long] have 32 bits.  Signed overflow and division by zero are
    undefined in C: an operation that meets one has no result. *)
Definition LONG_MIN : Z := (- 2 ^ 31)%Z.
Definition LONG_MAX : Z := (2 ^ 31 - 1)%Z.
Definition ULONG_MAX : Z := (2 ^ 32 - 1)%Z.

Definition in_long (z : Z) : bool := ((LONG_MIN <=? z) && (z <=? LONG_MAX))%Z.
Definition in_ulong (z : Z) : bool := ((0 <=? z) && (z <=? ULONG_MAX))%Z.

(** The result of a signed operation whose exact value is [z]. *)
Definition long_of (z : Z) : option Z := if in_long z then Some z else None.

(** Conversion to [unsigned long], and from [unsigned long] to [long]. *)
Definition to_ulong (z : Z) : Z := (z mod 2 ^ 32)%Z.
Definition to_long (z : Z) : Z := ((z + 2 ^ 31) mod 2 ^ 32 - 2 ^ 31)%Z.

(** *** Macros of Arduino.h *)

Definition HIGH : Z := 1.
Definition LOW : Z := 0.
Definition LSBFIRST : Z := 0.
Definition MSBFIRST : Z := 1.

(** [((amt)<(low)?(low):((amt)>(high)?(high):(amt)))] *)
Definition constrain (amt low high : Z) : Z :=
  if (amt <? low)%Z then low else if (high <? amt)%Z then high else amt.

(** The bit macros on an [unsigned long] value; [bit] is below 32 (a shift
    by more is undefined).  [bitSet], [bitClear] and [bitWrite] give the
    value the macro assigns. *)
Definition bitRead (value bit : Z) : Z := Z.land (Z.shiftr value bit) 1.
Definition bitSet (value bit : Z) : Z :=
  to_ulong (Z.lor value (to_ulong (Z.shiftl 1 bit))).
Definition bitClear (value bit : Z) : Z :=
  to_ulong (Z.land value (to_ulong (Z.lnot (to_ulong (Z.shiftl 1 bit))))).
Definition bitWrite (value bit : Z) (bitvalue : bool) : Z :=
  if bitvalue then bitSet value bit else bitClear value bit.

(** [lowByte] and [highByte] of a [word] ([uint16_t]). *)
Definition lowByte (w : Z) : Z := to_uint8 (Z.land w 0xff).
Definition highByte (w : Z) : Z := to_uint8 (Z.shiftr w 8).

(** *** Mathematical functions *)

(** [(value - fromLow) * (toHigh - toLow) / (fromHigh - fromLow) + toLow]
    on [long]; [/] truncates towards zero.  [None]: the evaluation
    overflows or divides by zero. *)
Definition map (value fromLow fromHigh toLow toHigh : Z) : option Z :=
  a ← long_of (value - fromLow);
  b ← long_of (toHigh - toLow);
  m ← long_of (a * b);
  d ← long_of (fromHigh - fromLow);
  if (d =? 0)%Z then None
  else
    q ← long_of (Z.quot m d);
    long_of (q + toLow).

(** [long random(long max)]; [esp_random] is the answer of the hardware
    generator, a [uint32_t].  The remainder is taken on [unsigned long]. *)
Definition random_max (esp_random : Z) (max : Z) : Z :=
  if (max <=? 0)%Z then 0%Z
  else to_long (to_ulong esp_random mod to_ulong max).

(** [long random(long min, long max)]: the difference is taken on [long],
    the remainder and the sum on [unsigned long]. *)
Definition random_min_max (esp_random : Z) (min max : Z) : option Z :=
  if (max <=? min)%Z then Some min
  else
    d ← long_of (max - min);
    Some (to_long (to_ulong (to_ulong min + to_ulong esp_random mod to_ulong d))).

(** *** GPIO *)

(** The calls into the GPIO driver and the calls of user handlers. *)
Inductive gpio_event :=
| EvGpioConfig (pin : nat) (mode : Z)
| EvGpioSetLevel (pin : nat) (level : Z)
| EvGpioGetLevel (pin : nat)
| EvGpioSetIntrType (pin : nat) (intr_type : Z)
| EvGpioInstallIsrService
| EvGpioIsrHandlerAdd (pin : nat)
| EvGpioIsrHandlerRemove (pin : nat)
| EvHandlerCall (handler : nat).

(** What the driver headers fix and what the driver answers.  An answer
    may depend on everything that was called before. *)
Record gpio_platform := {
  GPIO_NUM_MAX : nat;
  GPIO_MODE_INPUT : Z;
  GPIO_MODE_OUTPUT : Z;
  GPIO_MODE_OUTPUT_OD : Z;
  GPIO_INTR_DISABLE : Z;
  gpio_config : list gpio_event -> nat -> Z -> esp_err_t;  (* history, pin, mode *)
  gpio_get_level : list gpio_event -> nat -> Z             (* history, pin *)
}.

(** The file's arrays, and the calls made so far. *)
Record gpio_state := {
  gpio_initialized : list bool;               (* [GPIO_NUM_MAX] *)
  interrupt_handlers : list (option nat);     (* [GPIO_NUM_MAX] *)
  history : list gpio_event
}.

(** The arrays have [GPIO_NUM_MAX] entries. *)
Definition gpio_state_wf (p : gpio_platform) (s : gpio_state) : Prop :=
  length (gpio_initialized s) = GPIO_NUM_MAX p
  /\ length (interrupt_handlers s) = GPIO_NUM_MAX p.

(** The state at boot. *)
Definition gpio_boot (p : gpio_platform) : gpio_state :=
  {| gpio_initialized := replicate (GPIO_NUM_MAX p) false;
     interrupt_handlers := replicate (GPIO_NUM_MAX p) None;
     history := [] |}.

(** A computation on the GPIO state; [None]: an array was indexed out of its
    bounds. *)
Definition G (A : Type) : Type := gpio_state -> option (A * gpio_state).

#[global] Instance G_MRet : MRet G := fun A a s => Some (a, s).
#[global] Instance G_MBind : MBind G := fun A B k m s =>
  match m s with
  | Some (a, s1) => k a s1
  | None => None
  end.

Definition gpio_get : G gpio_state := fun s => Some (s, s).

Definition gpio_emit (e : gpio_event) : G unit := fun s =>
  Some (tt, {| gpio_initialized := gpio_initialized s;
               interrupt_handlers := interrupt_handlers s;
               history := history s ++ [e] |}).

(** [gpio_initialized[pin]] *)
Definition read_initialized (pin : nat) : G bool := fun s =>
  match gpio_initialized s !! pin with
  | Some b => Some (b, s)
  | None => None
  end.

(** [gpio_initialized[pin] = true] *)
Definition write_initialized (pin : nat) : G unit := fun s =>
  if pin <? length (gpio_initialized s)
  then Some (tt, {| gpio_initialized := <[pin := true]> (gpio_initialized s);
                    interrupt_handlers := interrupt_handlers s;
                    history := history s |})
  else None.

(** [interrupt_handlers[pin] = handler] *)
Definition write_handler (pin : nat) (handler : option nat) : G unit := fun s =>
  if pin <? length (interrupt_handlers s)
  then Some (tt, {| gpio_initialized := gpio_initialized s;
                    interrupt_handlers := <[pin := handler]> (interrupt_handlers s);
                    history := history s |})
  else None.

(** [INPUT], [INPUT_PULLUP] and [INPUT_PULLDOWN] are all [GPIO_MODE_INPUT]
    in Arduino.h, so the three labels of the [switch] name one value; the
    event keeps the [config.mode] they agree on, and leaves out the pull
    resistors, on which they differ. *)
Definition pinMode (p : gpio_platform) (pin : nat) (mode : Z) : G unit :=
  if GPIO_NUM_MAX p <=? pin then mret tt
  else if negb ((mode =? GPIO_MODE_INPUT p) || (mode =? GPIO_MODE_OUTPUT p)
                || (mode =? GPIO_MODE_OUTPUT_OD p))%Z
  then mret tt
  else
    s ← gpio_get;
    gpio_emit (EvGpioConfig pin mode);;
    if negb (is_ok (gpio_config p (history s) pin mode)) then mret tt
    else write_initialized pin.

Definition digitalWrite (p : gpio_platform) (pin : nat) (val : Z) : G unit :=
  if GPIO_NUM_MAX p <=? pin then mret tt
  else
    init ← read_initialized pin;
    (if negb init then pinMode p pin (GPIO_MODE_OUTPUT p) else mret tt);;
    gpio_emit (EvGpioSetLevel pin (if (val =? 0)%Z then 0 else 1)%Z).

Definition digitalRead (p : gpio_platform) (pin : nat) : G Z :=
  if GPIO_NUM_MAX p <=? pin then mret LOW
  else
    init ← read_initialized pin;
    (if negb init then pinMode p pin (GPIO_MODE_INPUT p) else mret tt);;
    s ← gpio_get;
    gpio_emit (EvGpioGetLevel pin);;
    mret (gpio_get_level p (history s) pin).

(** The position of iteration [i]: [i] when [bitOrder == LSBFIRST], else
    [7 - i]. *)
Definition shift_position (bitOrder : Z) (i : nat) : Z :=
  if (bitOrder =? LSBFIRST)%Z then Z.of_nat i else (7 - Z.of_nat i)%Z.

(** [for (i; i < 8; ++i)] of [shiftIn], with [n] iterations left. *)
Fixpoint shiftIn_loop (p : gpio_platform) (dataPin clockPin : nat) (bitOrder : Z)
    (i n : nat) (value : Z) : G Z :=
  match n with
  | O => mret value
  | S n' =>
      digitalWrite p clockPin HIGH;;
      level ← digitalRead p dataPin;
      let value := to_uint8 (Z.lor value (Z.shiftl level (shift_position bitOrder i))) in
      digitalWrite p clockPin LOW;;
      shiftIn_loop p dataPin clockPin bitOrder (S i) n' value
  end.

Definition shiftIn (p : gpio_platform) (dataPin clockPin : nat) (bitOrder : Z) : G Z :=
  init ← read_initialized dataPin;
  (if negb init then pinMode p dataPin (GPIO_MODE_INPUT p) else mret tt);;
  init ← read_initialized clockPin;
  (if negb init then pinMode p clockPin (GPIO_MODE_OUTPUT p) else mret tt);;
  shiftIn_loop p dataPin clockPin bitOrder 0 8 0%Z.

(** [!!(val & (1 << k))] *)
Definition bit_of (val k : Z) : Z :=
  if (Z.land val (Z.shiftl 1 k) =? 0)%Z then 0%Z else 1%Z.

(** [for (i; i < 8; i++)] of [shiftOut], with [n] iterations left. *)
Fixpoint shiftOut_loop (p : gpio_platform) (dataPin clockPin : nat) (bitOrder : Z)
    (val : Z) (i n : nat) : G unit :=
  match n with
  | O => mret tt
  | S n' =>
      digitalWrite p dataPin (bit_of val (shift_position bitOrder i));;
      digitalWrite p clockPin HIGH;;
      digitalWrite p clockPin LOW;;
      shiftOut_loop p dataPin clockPin bitOrder val (S i) n'
  end.

Definition shiftOut (p : gpio_platform) (dataPin clockPin : nat) (bitOrder : Z)
    (val : Z) : G unit :=
  init ← read_initialized dataPin;
  (if negb init then pinMode p dataPin (GPIO_MODE_OUTPUT p) else mret tt);;
  init ← read_initialized clockPin;
  (if negb init then pinMode p clockPin (GPIO_MODE_OUTPUT p) else mret tt);;
  shiftOut_loop p dataPin clockPin bitOrder val 0 8.

(** *** Interrupts *)

(** [arg] is the pin the handler was added for. *)
Definition gpio_interrupt_handler (p : gpio_platform) (gpio_num : nat) : G unit :=
  if GPIO_NUM_MAX p <=? gpio_num then mret tt
  else fun s =>
    match interrupt_handlers s !! gpio_num with
    | None => None
    | Some None => Some (tt, s)
    | Some (Some handler) => gpio_emit (EvHandlerCall handler) s
    end.

Definition attachInterrupt (p : gpio_platform) (pin : nat) (handler : option nat)
    (mode : Z) : G unit :=
  if GPIO_NUM_MAX p <=? pin then mret tt
  else
    init ← read_initialized pin;
    (if negb init then pinMode p pin (GPIO_MODE_INPUT p) else mret tt);;
    write_handler pin handler;;
    gpio_emit (EvGpioSetIntrType pin mode);;
    gpio_emit EvGpioInstallIsrService;;
    gpio_emit (EvGpioIsrHandlerAdd pin).

Definition detachInterrupt (p : gpio_platform) (pin : nat) : G unit :=
  if GPIO_NUM_MAX p <=? pin then mret tt
  else
    gpio_emit (EvGpioIsrHandlerRemove pin);;
    write_handler pin None;;
    gpio_emit (EvGpioSetIntrType pin (GPIO_INTR_DISABLE p)).

(** *** Reading a GPIO history *)

(** The levels written to [pin], in order. *)
Definition levels_written (pin : nat) (evs : list gpio_event) : list Z :=
  omap (fun e => match e with
                 | EvGpioSetLevel q level => if q =? pin then Some level else None
                 | _ => None
                 end) evs.

(** The number of reads of the level of [pin]. *)
Definition reads_of (pin : nat) (evs : list gpio_event) : nat :=
  length (List.filter (fun e => match e with
                                | EvGpioGetLevel q => q =? pin
                                | _ => false
                                end) evs).

(** The pins configured, with the mode asked, in order. *)
Definition configurations (evs : list gpio_event) : list (nat * Z) :=
  omap (fun e => match e with EvGpioConfig q mode => Some (q, mode) | _ => None end) evs.

(** The handlers called, in order. *)
Definition handler_calls (evs : list gpio_event) : list nat :=
  omap (fun e => match e with EvHandlerCall h => Some h | _ => None end) evs.

(** The bits of [val] in the order [shiftOut] sends them. *)
Definition bits_in_order (bitOrder : Z) (val : Z) : list Z :=
  List.map (fun i => bit_of val (shift_position bitOrder i)) (seq 0 8).

(** The byte [shiftIn] assembles from the levels it reads, in order. *)
Definition assemble (bitOrder : Z) (levels : list Z) : Z :=
  foldl (fun value il =>
           to_uint8 (Z.lor value (Z.shiftl (snd il) (shift_position bitOrder (fst il)))))
        0%Z (zip (seq 0 (length levels)) levels).
End ArduinoCore.

(** ** Sample platforms and inputs *)

Import Controller.

(** Every call into LVGL, the HALs and the scheduler succeeds, except as the
    arguments say: whether [calloc] of the handle succeeds, what the touch
    poll answers, and the conversion to [lv_coord_t]. *)
Definition lvgl_platform_with (calloc_ok : bool)
    (poll : esp_err_t * list TouchHal.touch_point_t * nat) (coord : Z -> Z)
    : Lvgl.lvgl_platform := {|
  Lvgl.calloc_handle := calloc_ok;
  Lvgl.xSemaphoreCreateMutex := Some 1;
  Lvgl.display_hal_init := (ESP_OK, Some 2);
  Lvgl.touch_hal_init := (ESP_OK, Some 3);
  Lvgl.esp_psram_is_initialized := true;
  Lvgl.heap_caps_malloc_buffer1 := fun _ => Some 4;
  Lvgl.heap_caps_malloc_buffer2 := fun _ => Some 5;
  Lvgl.malloc_draw_buffer := Some 6;
  Lvgl.lv_disp_drv_register := Some 7;
  Lvgl.lv_indev_drv_register := Some 8;
  Lvgl.esp_timer_create := (ESP_OK, Some 9);
  Lvgl.display_hal_start := ESP_OK;
  Lvgl.touch_hal_start := ESP_OK;
  Lvgl.esp_timer_start_periodic := ESP_OK;
  Lvgl.xTaskCreatePinnedToCore := Some 10;
  Lvgl.esp_timer_get_time := 2000;
  Lvgl.display_hal_ppa_blend := ESP_OK;
  Lvgl.touch_hal_read_points := poll;
  Lvgl.lv_coord_of_uint16 := coord
|}.

Definition lvgl_platform_ok : Lvgl.lvgl_platform :=
  lvgl_platform_with true (ESP_OK, [], 0) (fun v => v).

(** All hooks bound; the arguments give the answer of the main task
    creation, the drivers and the LVGL platform. *)
Definition platform_with (task : option nat)
    (drivers : tab5_subsystem_t -> esp_err_t) (q : Lvgl.lvgl_platform)
    : platform := {|
  esp_timer_get_time := 1000;
  xTaskCreatePinnedToCore := task;
  on_framework_init := true;
  on_framework_ready := true;
  on_subsystem_error := true;
  on_lvgl_ready := true;
  driver_init := drivers;
  lvgl := q
|}.

(** The platform of the source as it is written: placeholder drivers, and
    every outside call succeeds. *)
Definition platform_ok : platform :=
  platform_with (Some 11) driver_init_placeholder lvgl_platform_ok.

(** The default configuration with the display left out of auto-init. *)
Definition config_no_display : tab5duino_config_t := {|
  auto_init_display := false;
  auto_init_touch := true;
  auto_init_imu := true;
  auto_init_audio := false;
  auto_init_lvgl := true;
  enable_psram := true;
  enable_usb_serial := true;
  loop_stack_size := 8192;
  loop_task_priority := 1;
  loop_task_core := 1
|}.

(** [lvgl_tab5_init] then [lvgl_tab5_start], from boot, all calls succeeding. *)
Definition lvgl_init_then_start
    : esp_err_t * option Lvgl.lvgl_tab5_handle_s * option nat * list event :=
  ('(_, h) ← Lvgl.lvgl_tab5_init lvgl_platform_ok None true;
   Lvgl.lvgl_tab5_start lvgl_platform_ok h) None.

(** The handle that run leaves: initialized and started. *)
Definition lvgl_handle_started : option Lvgl.lvgl_tab5_handle_s :=
  snd (result lvgl_init_then_start).

(** As [lvgl_platform_ok], but [calloc] of the LVGL handle fails. *)
Definition lvgl_platform_no_memory : Lvgl.lvgl_platform :=
  lvgl_platform_with false (ESP_OK, [], 0) (fun v => v).

(** The source as it is written, with the LVGL handle allocation failing. *)
Definition platform_lvgl_fails : platform :=
  platform_with (Some 11) driver_init_placeholder lvgl_platform_no_memory.

(** The main task cannot be created. *)
Definition platform_no_task : platform :=
  platform_with None driver_init_placeholder lvgl_platform_ok.

(** The framework after a successful [tab5duino_init] at boot, and after
    [tab5duino_start] on top of it. *)
Definition world_initialized : world :=
  final (tab5duino_init platform_ok None world_boot).
Definition world_started : world :=
  final (tab5duino_start platform_ok world_initialized).

(** A touch poll that reports three points: an unpressed one, a pressed one
    at (640, 360), and a further pressed one. *)
Definition sample_points : list TouchHal.touch_point_t :=
  [ {| TouchHal.x := 10; TouchHal.y := 20; TouchHal.pressure := 0;
       TouchHal.size := 1; TouchHal.id := 0; TouchHal.is_valid := true |};
    {| TouchHal.x := 640; TouchHal.y := 360; TouchHal.pressure := 80;
       TouchHal.size := 4; TouchHal.id := 1; TouchHal.is_valid := true |};
    {| TouchHal.x := 100; TouchHal.y := 200; TouchHal.pressure := 90;
       TouchHal.size := 4; TouchHal.id := 2; TouchHal.is_valid := true |} ]
  ++ replicate 7 {| TouchHal.x := 0; TouchHal.y := 0; TouchHal.pressure := 0;
                    TouchHal.size := 0; TouchHal.id := 0; TouchHal.is_valid := false |}.

(** The poll answers [sample_points]; [lv_coord_t] is [int16_t]. *)
Definition lvgl_platform_touch : Lvgl.lvgl_platform :=
  lvgl_platform_with true (ESP_OK, sample_points, 3)
    (fun v => ((v + 32768) mod 65536 - 32768)%Z).

(** A handle as a successful [lvgl_tab5_init] leaves it. *)
Definition sample_handle : Lvgl.lvgl_tab5_handle_s :=
  Lvgl.set_context
    (fun c => Lvgl.set_initialized true
                (Lvgl.set_touch_hal (Some 3) (Lvgl.set_display_hal (Some 2) c)))
    (Lvgl.calloc_handle_s Lvgl.LVGL_TAB5_CONFIG_DEFAULT).

Definition sample_data : Lvgl.lv_indev_data_t :=
  {| Lvgl.point := (0%Z, 0%Z); Lvgl.state := Lvgl.LV_INDEV_STATE_REL |}.

(** ** Reading a trace *)

(** The subsystem transitions of a trace, in order. *)
Definition transitions (evs : list event)
    : list (nat * tab5_subsystem_state_t) :=
  omap (fun e => match e with EvTransition s st => Some (s, st) | _ => None end) evs.

(** The calls of [on_subsystem_error] of a trace, in order. *)
Definition error_reports (evs : list event) : list (nat * esp_err_t) :=
  omap (fun e => match e with EvOnSubsystemError s err => Some (s, err) | _ => None end) evs.

(** The trace without the calls into LVGL, the HALs and the scheduler and
    without the framework hooks: transitions and error reports only. *)
Definition lifecycle (evs : list event) : list event :=
  omap (fun e => match e with
                 | EvTransition _ _ | EvOnSubsystemError _ _ => Some e
                 | _ => None
                 end) evs.

(** The subsystems whose bring-up was started, in order. *)
Definition init_order (evs : list event) : list nat :=
  omap (fun e => match e with
                 | EvTransition s TAB5_SUBSYSTEM_INITIALIZING => Some s
                 | _ => None
                 end) evs.

(** The subsystems that were torn down, in order. *)
Definition deinit_order (evs : list event) : list nat :=
  omap (fun e => match e with
                 | EvTransition s TAB5_SUBSYSTEM_UNINITIALIZED => Some s
                 | _ => None
                 end) evs.

(** ** The bring-up sequence as a list *)

(** The steps of [init_hardware_subsystems]: the configuration flag that
    guards the step (none for power) and the subsystem. *)
Definition bringup_steps : list ((tab5duino_config_t -> bool) * nat) :=
  [ (auto_init_display, TAB5_SUBSYSTEM_DISPLAY);
    (auto_init_touch, TAB5_SUBSYSTEM_TOUCH);
    (auto_init_imu, TAB5_SUBSYSTEM_IMU);
    (auto_init_audio, TAB5_SUBSYSTEM_AUDIO);
    (fun _ => true, TAB5_SUBSYSTEM_POWER);
    (auto_init_lvgl, TAB5_SUBSYSTEM_LVGL) ].

(** Guarded bring-up of the listed steps, stopping at the first failure. *)
Fixpoint run_steps (p : platform) (steps : list ((tab5duino_config_t -> bool) * nat))
    : M world esp_err_t :=
  match steps with
  | [] => mret ESP_OK
  | (flag, s) :: rest =>
      ret ← init_if flag p s;
      if negb (is_ok ret) then mret ret else run_steps p rest
  end.

(** The subsystems a configuration selects among some steps, in order. *)
Definition selected (cfg : tab5duino_config_t)
    (steps : list ((tab5duino_config_t -> bool) * nat)) : list nat :=
  map snd (List.filter (fun st => fst st cfg) steps).

(** The subsystems [init_hardware_subsystems] is to bring up, in its order. *)
Definition plan (cfg : tab5duino_config_t) : list nat :=
  selected cfg bringup_steps.

(** The status the bring-up of [s] ends with on platform [p]. *)
Definition bringup_status (p : platform) (s : nat) : esp_err_t :=
  result (subsystem_bringup p s world_boot).

(** The subsystems of a plan that get attempted: up to the first failure. *)
Fixpoint attempted (p : platform) (l : list nat) : list nat :=
  match l with
  | [] => []
  | s :: l' => if is_ok (bringup_status p s) then s :: attempted p l' else [s]
  end.

(** The status the whole sequence ends with. *)
Fixpoint plan_status (p : platform) (l : list nat) : esp_err_t :=
  match l with
  | [] => ESP_OK
  | s :: l' =>
      if is_ok (bringup_status p s) then plan_status p l' else bringup_status p s
  end.

(** The state a subsystem is left in by its bring-up. *)
Definition state_after_bringup (p : platform) (s : nat) : tab5_subsystem_state_t :=
  if is_ok (bringup_status p s) then TAB5_SUBSYSTEM_READY else TAB5_SUBSYSTEM_ERROR.

(** The error report the bring-up of [s] ends with, if any. *)
Definition report (p : platform) (s : nat) : list event :=
  if is_ok (bringup_status p s) then []
  else if on_subsystem_error p then [EvOnSubsystemError s (bringup_status p s)]
  else [].

(** The transitions and error reports of the bring-up of the listed
    subsystems. *)
Definition plan_lifecycle (p : platform) (l : list nat) : list event :=
  flat_map (fun s => [EvTransition s TAB5_SUBSYSTEM_INITIALIZING;
                      EvTransition s (state_after_bringup p s)] ++ report p s) l.

(** The transitions the bring-up of the listed subsystems makes. *)
Definition plan_transitions (p : platform) (l : list nat)
    : list (nat * tab5_subsystem_state_t) :=
  flat_map (fun s => [(s, TAB5_SUBSYSTEM_INITIALIZING); (s, state_after_bringup p s)]) l.

(** The state table after the bring-up of the listed subsystems. *)
Definition plan_states (p : platform) (l : list nat)
    (states : list tab5_subsystem_state_t) : list tab5_subsystem_state_t :=
  foldl (fun acc s => <[s := state_after_bringup p s]> acc) states l.

(** The subsystems [deinit_hardware_subsystems] finds to tear down when it
    walks the first [n] entries of a state table downwards. *)
Definition teardown_order (n : nat) (states : list tab5_subsystem_state_t) : list nat :=
  List.filter (fun s => negb (is_uninitialized (states !!! s))) (rev (seq 0 n)).

(** Every transition of subsystem [target] in [ts] comes after the
    transition [needed] ([seen]: [needed] was met before [ts]). *)
Fixpoint preceded (needed : nat * tab5_subsystem_state_t) (target : nat)
    (seen : bool) (ts : list (nat * tab5_subsystem_state_t)) : bool :=
  match ts with
  | [] => true
  | x :: ts' =>
      (if fst x =? target then seen else true)
      && preceded needed target (seen || bool_decide (x = needed)) ts'
  end.

(** No transition of subsystem [s] in [ts]. *)
Definition untouched (s : nat) (ts : list (nat * tab5_subsystem_state_t)) : bool :=
  forallb (fun x => negb (fst x =? s)) ts.

(** All auto-init flags set. *)
Definition config_all_auto : tab5duino_config_t := {|
  auto_init_display := true;
  auto_init_touch := true;
  auto_init_imu := true;
  auto_init_audio := true;
  auto_init_lvgl := true;
  enable_psram := true;
  enable_usb_serial := true;
  loop_stack_size := 8192;
  loop_task_priority := 1;
  loop_task_core := 1
|}.

(** ** The state table between calls *)

(** INITIALIZING is a state of the inside of [tab5duino_init_subsystem]:
    between calls of the interface no entry of the table holds it. *)
Definition states_settled (i : tab5duino_instance_t) : Prop :=
  instance_wf i
  /\ Forall (fun st => st <> TAB5_SUBSYSTEM_INITIALIZING) (subsystem_states i).

(** The number of calls [e] in a trace. *)
Definition calls (e : event) (evs : list event) : nat :=
  count_occ event_eq_dec evs e.

(** ** The LVGL wrapper object between calls *)

(** The object holds a handle exactly when it counts as initialized, and
    that handle is an initialized one. *)
Definition LVGLTab5duino_wf (this : Lvgl.LVGLTab5duino) : Prop :=
  match Lvgl.handle_ this with
  | Some h => Lvgl.initialized_ this = true
              /\ Lvgl.initialized (Lvgl.context h) = true
  | None => Lvgl.initialized_ this = false
  end.

(** ** The counters of the LVGL task *)

(** [h] with the three counters that [lvgl_tab5_start] and [lvgl_task]
    write taken from [src]. *)
Definition with_counters_of (src h : Lvgl.lvgl_tab5_handle_s)
    : Lvgl.lvgl_tab5_handle_s :=
  Lvgl.set_frame_count (Lvgl.frame_count src)
    (Lvgl.set_fps_average (Lvgl.fps_average src)
       (Lvgl.set_last_perf_time (Lvgl.last_perf_time src) h)).

(** ** Reading a heap trace *)

(** The blocks freed, in order. *)
Definition frees (evs : list Lvgl.heap_event) : list nat :=
  omap (fun e => match e with Lvgl.EvFree b => Some b | _ => None end) evs.

(** The capabilities asked of [heap_caps_malloc], in order: [true] for
    PSRAM, [false] for internal RAM. *)
Definition capabilities_asked (evs : list Lvgl.heap_event) : list bool :=
  omap (fun e => match e with Lvgl.EvHeapCapsMalloc c _ => Some c | _ => None end) evs.

(** ** The calls of the framework's own entry points *)

(** The calls [tab5duino_init], [tab5duino_start], [tab5duino_stop] and
    [tab5duino_deinit] make themselves, as opposed to those made on their
    behalf by the bring-up and teardown of a subsystem. *)
Definition is_framework_call (e : event) : bool :=
  match e with
  | EvUsbSerialInstall | EvUsbSerialUninstall
  | EvOnFrameworkInit | EvOnFrameworkReady
  | EvTaskCreate _ _ _ | EvTaskDelete _ => true
  | _ => false
  end.

Definition framework_calls (evs : list event) : list event :=
  List.filter is_framework_call evs.

(** ** Further sample inputs *)

(** The framework after a [tab5duino_init] in which the allocation of the
    LVGL handle failed. *)
Definition world_lvgl_error : world :=
  final (tab5duino_init platform_lvgl_fails None world_boot).

(** The started framework once [loop_task] has run [setup()] and set the
    flag. *)
Definition world_running : world := final (loop_task 2 world_started).

(** The default configuration with LVGL left out of auto-init. *)
Definition config_no_lvgl : tab5duino_config_t := {|
  auto_init_display := true;
  auto_init_touch := true;
  auto_init_imu := true;
  auto_init_audio := false;
  auto_init_lvgl := false;
  enable_psram := true;
  enable_usb_serial := true;
  loop_stack_size := 8192;
  loop_task_priority := 1;
  loop_task_core := 1
|}.

(** Three turns of the LVGL task: the mutex taken a second after the start
    (the timer reads 1002000), not taken, and taken a millisecond later. *)
Definition sample_turns : list (bool * Z) :=
  [(true, 1002000%Z); (false, 0%Z); (true, 1003000%Z)].

(** As [lvgl_platform_ok], but [touch_hal_init] fails after handing out a
    handle. *)
Definition lvgl_platform_touch_init_fails : Lvgl.lvgl_platform := {|
  Lvgl.calloc_handle := true;
  Lvgl.xSemaphoreCreateMutex := Some 1;
  Lvgl.display_hal_init := (ESP_OK, Some 2);
  Lvgl.touch_hal_init := (ESP_FAIL, Some 3);
  Lvgl.esp_psram_is_initialized := true;
  Lvgl.heap_caps_malloc_buffer1 := fun _ => Some 4;
  Lvgl.heap_caps_malloc_buffer2 := fun _ => Some 5;
  Lvgl.malloc_draw_buffer := Some 6;
  Lvgl.lv_disp_drv_register := Some 7;
  Lvgl.lv_indev_drv_register := Some 8;
  Lvgl.esp_timer_create := (ESP_OK, Some 9);
  Lvgl.display_hal_start := ESP_OK;
  Lvgl.touch_hal_start := ESP_OK;
  Lvgl.esp_timer_start_periodic := ESP_OK;
  Lvgl.xTaskCreatePinnedToCore := Some 10;
  Lvgl.esp_timer_get_time := 2000;
  Lvgl.display_hal_ppa_blend := ESP_OK;
  Lvgl.touch_hal_read_points := (ESP_OK, [], 0);
  Lvgl.lv_coord_of_uint16 := fun v => v
|}.


(** A handle as a successful [lvgl_tab5_init] leaves it, by the run itself. *)
Definition lvgl_handle_initialized : option Lvgl.lvgl_tab5_handle_s :=
  snd (result (Lvgl.lvgl_tab5_init lvgl_platform_ok None true None)).

(** A started handle. *)
Definition sample_handle_started : Lvgl.lvgl_tab5_handle_s :=
  Lvgl.set_started true (Lvgl.set_context (Lvgl.set_lvgl_task (Some 10)) sample_handle).

(** The tile of 64 by 32 pixels at (128, 96). *)
Definition sample_area : Lvgl.lv_area_t :=
  {| Lvgl.x1 := 128; Lvgl.y1 := 96; Lvgl.x2 := 191; Lvgl.y2 := 127 |}.

(** PSRAM is up but full; internal RAM serves block 7. *)
Definition heap_psram_full : Lvgl.heap_platform := {|
  Lvgl.psram_is_initialized := true;
  Lvgl.heap_caps_malloc := fun spiram _ => if spiram then None else Some 7
|}.

(** A touch poll that announces twelve points, none of them valid, for an
    array of ten. *)
Definition lvgl_platform_touch_overrun : Lvgl.lvgl_platform :=
  lvgl_platform_with true
    (ESP_OK,
     replicate 10 {| TouchHal.x := 0; TouchHal.y := 0; TouchHal.pressure := 0;
                     TouchHal.size := 0; TouchHal.id := 0; TouchHal.is_valid := false |},
     12)
    (fun v => v).

(** The GPIO driver of the ESP32-P4 headers (55 pins, the mode and interrupt
    constants of [gpio_types.h]), configuring without error, with a device
    on pin 4 that presents the bits of 0xA5, most significant first, one
    per read. *)
Definition gpio_platform_ok : ArduinoCore.gpio_platform := {|
  ArduinoCore.GPIO_NUM_MAX := 55;
  ArduinoCore.GPIO_MODE_INPUT := 1;
  ArduinoCore.GPIO_MODE_OUTPUT := 2;
  ArduinoCore.GPIO_MODE_OUTPUT_OD := 6;
  ArduinoCore.GPIO_INTR_DISABLE := 0;
  ArduinoCore.gpio_config := fun _ _ _ => ESP_OK;
  ArduinoCore.gpio_get_level := fun hist pin =>
    if pin =? 4
    then ArduinoCore.bits_in_order ArduinoCore.MSBFIRST 0xA5
           !!! ArduinoCore.reads_of pin hist
    else 0%Z
|}.

(** * Properties *)

(** Unfolds the monad and runs a call as far as its tests allow. *)
Ltac run :=
  cbv [mbind mret M_MBind M_MRet M_bind M_ret mget mput emit when
       modify_instance set_lvgl_handle call_lvgl get_state set_state];
  cbn.

Section ControllerEntryPoints.
Variable p : platform.

(** C3. [tab5duino_init] is idempotent: on an instance that is already
    initialized it returns [ESP_OK], leaves the whole state as it is
    (configuration, every subsystem state, boot time, task handle, and the
    LVGL globals) and makes no outside call. *)
Theorem tab5duino_init_idempotent (cfg : option tab5duino_config_t) (w : world) :
  framework_initialized (g_tab5duino_instance w) = true ->
  tab5duino_init p cfg w = (ESP_OK, w, []).
Proof.
  intros Hinit. unfold tab5duino_init. run. now rewrite Hinit.
Qed.

(** C7. [tab5duino_start] returns [ESP_ERR_INVALID_STATE] (InvalidState),
    touching nothing, when init has not completed; returns [ESP_OK] with no
    task-creation call when the main task already exists; and returns
    [ESP_ERR_NO_MEM] (ResourceExhausted), the state unchanged and the task
    handle still null, when the task cannot be created. *)
Theorem tab5duino_start_status (w : world) :
  (framework_initialized (g_tab5duino_instance w) = false ->
     tab5duino_start p w = (ESP_ERR_INVALID_STATE, w, []))
  /\ (framework_initialized (g_tab5duino_instance w) = true ->
      forall task, loop_task_handle (g_tab5duino_instance w) = Some task ->
      tab5duino_start p w = (ESP_OK, w, []))
  /\ (framework_initialized (g_tab5duino_instance w) = true ->
      loop_task_handle (g_tab5duino_instance w) = None ->
      xTaskCreatePinnedToCore p = None ->
      result (tab5duino_start p w) = ESP_ERR_NO_MEM
      /\ final (tab5duino_start p w) = w
      /\ loop_task_handle (g_tab5duino_instance (final (tab5duino_start p w))) = None).
Proof.
  unfold tab5duino_start. run. repeat split.
  - intros ->. reflexivity.
  - intros -> task ->. reflexivity.
  - rewrite H, H0, H1. reflexivity.
  - rewrite H, H0, H1. reflexivity.
  - rewrite H, H0, H1. cbn. assumption.
Qed.

(** C9. For a valid subsystem id [tab5duino_deinit_subsystem] returns
    [ESP_OK]: without any effect when the subsystem is UNINITIALIZED already,
    and otherwise after setting that subsystem, and only that one, to
    UNINITIALIZED.  Whatever the id, a subsystem that is in ERROR after the
    call was in ERROR before it, and the subsystem addressed is not. *)
Theorem tab5duino_deinit_subsystem_ok (w : world) (s : tab5_subsystem_t) :
  instance_wf (g_tab5duino_instance w) ->
  let r := tab5duino_deinit_subsystem s w in
  (s < TAB5_SUBSYSTEM_COUNT ->
     result r = ESP_OK
     /\ (subsystem_states (g_tab5duino_instance w) !! s
           = Some TAB5_SUBSYSTEM_UNINITIALIZED -> r = (ESP_OK, w, []))
     /\ subsystem_states (g_tab5duino_instance (final r)) !! s
          = Some TAB5_SUBSYSTEM_UNINITIALIZED
     /\ g_tab5duino_instance (final r)
          = set_subsystem_states
              (<[s := TAB5_SUBSYSTEM_UNINITIALIZED]>
                 (subsystem_states (g_tab5duino_instance w)))
              (g_tab5duino_instance w))
  /\ (forall s', subsystem_states (g_tab5duino_instance (final r)) !! s'
                  = Some TAB5_SUBSYSTEM_ERROR ->
                s' <> s
                /\ subsystem_states (g_tab5duino_instance w) !! s'
                   = Some TAB5_SUBSYSTEM_ERROR).
Proof.
  intros Hwf r. subst r. unfold tab5duino_deinit_subsystem.
  destruct w as [i h t]. destruct i as [c l lt fi us bt].
  unfold instance_wf in Hwf. cbn in Hwf.
  destruct (Nat.leb_spec TAB5_SUBSYSTEM_COUNT s) as [Hge | Hlt].
  - run. split; [lia |]. intros s' Hs'. split; [| assumption].
    intros ->. apply lookup_lt_Some in Hs'. lia.
  - destruct (lookup_lt_is_Some_2 l s) as [st Hst]; [lia |].
    run. rewrite (list_lookup_total_correct _ _ _ Hst).
    assert (Hins : <[s := TAB5_SUBSYSTEM_UNINITIALIZED]> l !! s
                   = Some TAB5_SUBSYSTEM_UNINITIALIZED)
      by (apply list_lookup_insert_eq; lia).
    assert (Herr : forall s', <[s := TAB5_SUBSYSTEM_UNINITIALIZED]> l !! s'
                     = Some TAB5_SUBSYSTEM_ERROR ->
                   s' <> s /\ l !! s' = Some TAB5_SUBSYSTEM_ERROR).
    { intros s' Hs'. destruct (decide (s' = s)) as [-> | Hne].
      - congruence.
      - rewrite list_lookup_insert_ne in Hs' by congruence. auto. }
    destruct st; cbn; (split; [intros _; repeat split | ]);
      try assumption; try (intros Hu; congruence).
    + rewrite list_insert_id by assumption. reflexivity.
    + intros s' Hs'. split; [intros -> | assumption]. congruence.
Qed.

(** C10. [tab5duino_get_subsystem_state] answers [TAB5_SUBSYSTEM_ERROR] for
    every id at or above [TAB5_SUBSYSTEM_COUNT] (a state value, and no read
    of the array), and the stored state for every valid id. *)
Theorem tab5duino_get_subsystem_state_spec (w : world) (s : tab5_subsystem_t) :
  (TAB5_SUBSYSTEM_COUNT <= s ->
     tab5duino_get_subsystem_state w s = TAB5_SUBSYSTEM_ERROR)
  /\ (s < TAB5_SUBSYSTEM_COUNT ->
      forall st, subsystem_states (g_tab5duino_instance w) !! s = Some st ->
      tab5duino_get_subsystem_state w s = st).
Proof.
  unfold tab5duino_get_subsystem_state. split.
  - intros Hge. destruct (Nat.leb_spec TAB5_SUBSYSTEM_COUNT s); [reflexivity | lia].
  - intros Hlt st Hst.
    destruct (Nat.leb_spec TAB5_SUBSYSTEM_COUNT s); [lia |].
    now apply list_lookup_total_correct.
Qed.
End ControllerEntryPoints.

Section LvglEntryPoints.
Variable q : Lvgl.lvgl_platform.

(** C5. Every run of [display_flush_cb] calls [lv_disp_flush_ready] exactly
    once, as its last action: with a null handle or display HAL, with
    acceleration disabled, after a successful accelerated blend, and after a
    failed blend followed by the software bitmap draw. *)
Theorem display_flush_cb_ready_once {S : Type}
    (handle : option Lvgl.lvgl_tab5_handle_s) (area : Lvgl.lv_area_t) (s : S) :
  let r := Lvgl.display_flush_cb q handle area s in
  count_occ event_eq_dec (events r) EvFlushReady = 1
  /\ last (events r) = Some EvFlushReady
  /\ final r = s.
Proof.
  unfold Lvgl.display_flush_cb.
  destruct handle as [h |]; [| run; auto].
  destruct (Lvgl.display_hal (Lvgl.context h)); [| run; auto].
  destruct (Lvgl.enable_ppa_acceleration (Lvgl.config h));
    [destruct (is_ok (Lvgl.display_hal_ppa_blend q)) eqn:Hblend |];
    run; try rewrite Hblend; cbn; auto.
Qed.

(** What the callback does on each path, event by event. *)
Lemma display_flush_cb_paths {S : Type}
    (h : Lvgl.lvgl_tab5_handle_s) (hal : nat) (area : Lvgl.lv_area_t) (s : S) :
  Lvgl.display_hal (Lvgl.context h) = Some hal ->
  let x := to_uint16 (Lvgl.x1 area) in
  let y := to_uint16 (Lvgl.y1 area) in
  let width := to_uint16 (Lvgl.x2 area - Lvgl.x1 area + 1) in
  let height := to_uint16 (Lvgl.y2 area - Lvgl.y1 area + 1) in
  events (Lvgl.display_flush_cb q (Some h) area s) =
    if Lvgl.enable_ppa_acceleration (Lvgl.config h) then
      if is_ok (Lvgl.display_hal_ppa_blend q)
      then [EvPpaBlend x y width height; EvFlushReady]
      else [EvPpaBlend x y width height; EvDrawBitmap x y width height; EvFlushReady]
    else [EvDrawBitmap x y width height; EvFlushReady].
Proof.
  intros Hhal. unfold Lvgl.display_flush_cb. rewrite Hhal.
  destruct (Lvgl.enable_ppa_acceleration (Lvgl.config h));
    [destruct (is_ok (Lvgl.display_hal_ppa_blend q)) eqn:Hblend |];
    run; try rewrite Hblend; reflexivity.
Qed.

(** The scan of [touchpad_read_cb]: no valid point in the range. *)
Lemma first_valid_point_none (points : list TouchHal.touch_point_t) (n i : nat) :
  i + n <= length points ->
  (forall j pt, i <= j < i + n -> points !! j = Some pt ->
                TouchHal.touch_point_is_valid pt = false) ->
  Lvgl.first_valid_point points i n = Some None.
Proof.
  revert i. induction n as [| n IH]; intros i Hlen Hnone; cbn; [reflexivity |].
  destruct (lookup_lt_is_Some_2 points i) as [pt Hpt]; [lia |].
  rewrite Hpt, (Hnone i pt) by (lia || assumption).
  apply IH; [lia |]. intros j pj Hj. apply Hnone. lia.
Qed.

(** The scan of [touchpad_read_cb]: the first valid point of the range. *)
Lemma first_valid_point_first (points : list TouchHal.touch_point_t) (n i k : nat)
    (pt : TouchHal.touch_point_t) :
  i <= k < i + n ->
  points !! k = Some pt ->
  TouchHal.touch_point_is_valid pt = true ->
  (forall j pj, i <= j < k -> points !! j = Some pj ->
                TouchHal.touch_point_is_valid pj = false) ->
  Lvgl.first_valid_point points i n = Some (Some pt).
Proof.
  revert i. induction n as [| n IH]; intros i Hk Hpt Hvalid Hbefore; [lia |].
  cbn. destruct (decide (i = k)) as [-> | Hne].
  - now rewrite Hpt, Hvalid.
  - destruct (lookup_lt_is_Some_2 points i) as [pi Hpi].
    { apply lookup_lt_Some in Hpt. lia. }
    rewrite Hpi, (Hbefore i pi) by (lia || assumption).
    apply IH; try assumption; [lia |]. intros j pj Hj. apply Hbefore. lia.
Qed.

(** C6. With a live touch HAL, whatever [touch_hal_read_points] answers
    (status, points, count within the array): the callback reports
    "released" when the status is an error or the count is zero; reports
    "released" when none of the reported points is valid; and otherwise
    reports "pressed" at the coordinates (converted to [lv_coord_t]) of the
    first valid point in the reported order.  A point is valid iff its flag
    is set and its pressure is not zero. *)
Theorem touchpad_read_cb_report (h : Lvgl.lvgl_tab5_handle_s) (hal : nat)
    (data : Lvgl.lv_indev_data_t) (ret : esp_err_t)
    (points : list TouchHal.touch_point_t) (point_count : nat) :
  Lvgl.touch_hal (Lvgl.context h) = Some hal ->
  Lvgl.touch_hal_read_points q = (ret, points, point_count) ->
  point_count <= length points ->
  (ret <> ESP_OK \/ point_count = 0 ->
     Lvgl.touchpad_read_cb q (Some h) data = Some (Lvgl.set_released data))
  /\ ((forall i pt, i < point_count -> points !! i = Some pt ->
                   TouchHal.touch_point_is_valid pt = false) ->
      Lvgl.touchpad_read_cb q (Some h) data = Some (Lvgl.set_released data))
  /\ (forall i pt,
        ret = ESP_OK -> i < point_count -> points !! i = Some pt ->
        TouchHal.touch_point_is_valid pt = true ->
        (forall j pj, j < i -> points !! j = Some pj ->
                      TouchHal.touch_point_is_valid pj = false) ->
        Lvgl.touchpad_read_cb q (Some h) data =
          Some {| Lvgl.point := (Lvgl.lv_coord_of_uint16 q (TouchHal.x pt),
                                 Lvgl.lv_coord_of_uint16 q (TouchHal.y pt));
                  Lvgl.state := Lvgl.LV_INDEV_STATE_PR |})
  /\ (forall pt, (0 <= TouchHal.pressure pt)%Z ->
        TouchHal.touch_point_is_valid pt = true <->
        TouchHal.is_valid pt = true /\ TouchHal.pressure pt <> 0%Z).
Proof.
  intros Hhal Hread Hlen. unfold Lvgl.touchpad_read_cb. rewrite Hhal, Hread. cbn.
  unfold is_ok. split; [| split; [| split; [| intros pt Hpos; split]]].
  - intros [Hret | ->].
    + destruct (Z.eqb_spec ret ESP_OK); [contradiction | reflexivity].
    + cbn. now rewrite orb_true_r.
  - intros Hnone.
    destruct (negb (ret =? ESP_OK)%Z || (point_count =? 0)); [reflexivity |].
    rewrite first_valid_point_none; [reflexivity | lia |].
    intros j pt Hj. apply Hnone. lia.
  - intros i pt -> Hi Hpt Hvalid Hbefore.
    rewrite Z.eqb_refl. cbn.
    destruct (Nat.eqb_spec point_count 0); [lia |].
    rewrite (first_valid_point_first points point_count 0 i pt);
      [reflexivity | lia | assumption | assumption |].
    intros j pj Hj. apply Hbefore. lia.
  - intros Hv. unfold TouchHal.touch_point_is_valid in Hv.
    apply andb_true_iff in Hv as [Hflag Hpress].
    apply Z.ltb_lt in Hpress. split; [assumption | lia].
  - intros [Hflag Hpress]. unfold TouchHal.touch_point_is_valid.
    rewrite Hflag. cbn. apply Z.ltb_lt. lia.
Qed.

(** Without a handle or without a touch HAL the callback reports
    "released" and does not poll. *)
Lemma touchpad_read_cb_no_hal (handle : option Lvgl.lvgl_tab5_handle_s)
    (data : Lvgl.lv_indev_data_t) :
  match handle with
  | None => True
  | Some h => Lvgl.touch_hal (Lvgl.context h) = None
  end ->
  Lvgl.touchpad_read_cb q handle data = Some (Lvgl.set_released data).
Proof.
  destruct handle as [h |]; cbn; [| reflexivity]. now intros ->.
Qed.

(** C8, as amended. [lvgl_tab5_start] fails with [ESP_ERR_INVALID_STATE],
    touching nothing, whenever the handle is null or not initialized; on a
    handle that is initialized and already started it returns [ESP_OK],
    again touching nothing and calling nothing. *)
Theorem lvgl_tab5_start_guards (handle : option Lvgl.lvgl_tab5_handle_s)
    (timer : option nat) :
  (match handle with
   | None => True
   | Some h => Lvgl.initialized (Lvgl.context h) = false
   end ->
   Lvgl.lvgl_tab5_start q handle timer = (ESP_ERR_INVALID_STATE, handle, timer, []))
  /\ (forall h, handle = Some h ->
        Lvgl.initialized (Lvgl.context h) = true ->
        Lvgl.started h = true ->
        Lvgl.lvgl_tab5_start q handle timer = (ESP_OK, handle, timer, [])).
Proof.
  split.
  - destruct handle as [h |]; cbn; [| reflexivity]. now intros ->.
  - intros h -> Hinit Hstarted. cbn. now rewrite Hinit, Hstarted.
Qed.
End LvglEntryPoints.

(** C8 as stated does not hold: started by a first successful
    [lvgl_tab5_start], the handle is initialized and started, and a second
    [lvgl_tab5_start] on it answers [ESP_OK], not [ESP_ERR_INVALID_STATE]. *)
Lemma lvgl_tab5_start_twice_is_ok :
  result lvgl_init_then_start = (ESP_OK, lvgl_handle_started)
  /\ (fun h => Lvgl.initialized (Lvgl.context h)) <$> lvgl_handle_started = Some true
  /\ Lvgl.started <$> lvgl_handle_started = Some true
  /\ result (Lvgl.lvgl_tab5_start lvgl_platform_ok lvgl_handle_started
               (final lvgl_init_then_start))
     = (ESP_OK, lvgl_handle_started)
  /\ ESP_OK <> ESP_ERR_INVALID_STATE.
Proof.
  split; [vm_compute; reflexivity |].
  split; [vm_compute; reflexivity |].
  split; [vm_compute; reflexivity |].
  split; [vm_compute; reflexivity | discriminate].
Qed.

(** ** Calls into lvgl_tab5duino.cpp seen from the controller *)

(** Case analysis along the tests of a run. *)
Ltac branch :=
  match goal with
  | |- context [if ?b then _ else _] => destruct b eqn:?
  | |- context [match ?o with Some _ => _ | None => _ end] => destruct o eqn:?
  end; cbn.

(** The status of [lvgl_tab5_init] does not depend on the tick timer left
    by an earlier run, and the call makes no subsystem transition or report. *)
Lemma lvgl_tab5_init_status (q : Lvgl.lvgl_platform)
    (cfg : option Lvgl.lvgl_tab5_config_t) (t : option nat) :
  result (Lvgl.lvgl_tab5_init q cfg true t) = result (Lvgl.lvgl_tab5_init q cfg true None)
  /\ lifecycle (events (Lvgl.lvgl_tab5_init q cfg true t)) = [].
Proof.
  destruct q. unfold Lvgl.lvgl_tab5_init, Lvgl.cleanup, Lvgl.lvgl_tab5_deinit,
    Lvgl.lvgl_tab5_stop. run. repeat branch; auto.
Qed.

(** The same for [lvgl_tab5_start]. *)
Lemma lvgl_tab5_start_status (q : Lvgl.lvgl_platform)
    (handle : option Lvgl.lvgl_tab5_handle_s) (t : option nat) :
  result (Lvgl.lvgl_tab5_start q handle t) = result (Lvgl.lvgl_tab5_start q handle None)
  /\ lifecycle (events (Lvgl.lvgl_tab5_start q handle t)) = [].
Proof.
  destruct q. unfold Lvgl.lvgl_tab5_start. run. repeat branch; auto.
Qed.

#[local] Arguments Lvgl.lvgl_tab5_init : simpl never.
#[local] Arguments Lvgl.lvgl_tab5_start : simpl never.

(** The dispatch of [tab5duino_init_subsystem] leaves the framework
    instance alone, makes no subsystem transition and no error report, and
    ends with a status that the platform alone decides. *)
Lemma subsystem_bringup_frame (p : platform) (s : nat) (w : world) :
  g_tab5duino_instance (final (subsystem_bringup p s w)) = g_tab5duino_instance w
  /\ lifecycle (events (subsystem_bringup p s w)) = []
  /\ result (subsystem_bringup p s w) = bringup_status p s.
Proof.
  unfold bringup_status.
  do 7 (destruct s as [| s]; [cbn; auto |]).
  destruct s as [| s]; [| cbn; auto].
  unfold subsystem_bringup. run.
  destruct (lvgl_tab5_init_status (lvgl p) (Some Lvgl.LVGL_TAB5_CONFIG_DEFAULT)
              (lvgl_tick_timer w)) as [Hr He].
  destruct (Lvgl.lvgl_tab5_init _ _ _ (lvgl_tick_timer w)) as [[[r h] t] e].
  destruct (Lvgl.lvgl_tab5_init _ _ _ None) as [[[r0 h0] t0] e0].
  cbn in Hr, He. injection Hr as <- <-. cbn.
  destruct (is_ok r) eqn:Hok; cbn; [| rewrite app_nil_r; auto].
  destruct (lvgl_tab5_start_status (lvgl p) h t) as [Hr1 He1].
  destruct (lvgl_tab5_start_status (lvgl p) h t0) as [Hr2 _].
  destruct (Lvgl.lvgl_tab5_start _ h t) as [[[r1 h1] t1] e1].
  destruct (Lvgl.lvgl_tab5_start _ h t0) as [[[r2 h2] t2] e2].
  destruct (Lvgl.lvgl_tab5_start _ h None) as [[[r3 h3] t3] e3].
  cbn in Hr1, Hr2, He1. injection Hr1 as -> ->. injection Hr2 as -> ->. cbn.
  unfold lifecycle in *.
  destruct (is_ok r3 && on_lvgl_ready p); cbn;
    rewrite ?omap_app, He, He1; auto.
Qed.

#[local] Arguments subsystem_bringup : simpl never.

(** ** One subsystem *)

(** Bring-up of an UNINITIALIZED subsystem: the status is the driver's, the
    subsystem passes through INITIALIZING and ends READY on [ESP_OK] and
    in ERROR, reported to the bound hook, otherwise; nothing else of the
    instance changes. *)
Lemma tab5duino_init_subsystem_fresh (p : platform) (s : nat) (w : world) :
  s < TAB5_SUBSYSTEM_COUNT ->
  subsystem_states (g_tab5duino_instance w) !! s = Some TAB5_SUBSYSTEM_UNINITIALIZED ->
  let r := tab5duino_init_subsystem p s w in
  result r = bringup_status p s
  /\ g_tab5duino_instance (final r)
     = set_subsystem_states
         (<[s := state_after_bringup p s]> (subsystem_states (g_tab5duino_instance w)))
         (g_tab5duino_instance w)
  /\ lifecycle (events r)
     = [EvTransition s TAB5_SUBSYSTEM_INITIALIZING;
        EvTransition s (state_after_bringup p s)] ++ report p s.
Proof.
  intros Hs Hst. unfold tab5duino_init_subsystem, state_after_bringup, report.
  destruct (Nat.leb_spec TAB5_SUBSYSTEM_COUNT s) as [Hge | _]; [lia |].
  run. rewrite (list_lookup_total_correct _ _ _ Hst). cbn.
  match goal with |- context [subsystem_bringup p s ?w1] =>
    destruct (subsystem_bringup_frame p s w1) as (Hg & He & Hr);
    destruct (subsystem_bringup p s w1) as [[r w2] e]
  end.
  cbn in Hg, He, Hr. subst r. destruct w2 as [i2 h2 t2]. cbn in Hg. subst i2.
  unfold lifecycle in *.
  destruct (is_ok (bringup_status p s)); cbn.
  - rewrite omap_app, He. cbn. rewrite list_insert_insert_eq. auto.
  - destruct (on_subsystem_error p); cbn;
      rewrite omap_app, He; cbn; rewrite list_insert_insert_eq; auto.
Qed.

#[local] Arguments tab5duino_init_subsystem : simpl never.

(** ** The bring-up sequence *)

(** [init_hardware_subsystems] is the guarded run of [bringup_steps]. *)
Lemma init_hardware_subsystems_steps (p : platform) (w : world) :
  init_hardware_subsystems p w = run_steps p bringup_steps w.
Proof.
  unfold init_hardware_subsystems, bringup_steps, run_steps, init_if. run.
  repeat first
    [ reflexivity
    | match goal with
      | |- context [tab5duino_init_subsystem p ?s ?w0] =>
          destruct (tab5duino_init_subsystem p s w0) as [[? ?] ?]; cbn
      | |- context [if ?b then _ else _] => destruct b; cbn
      end ].
Qed.

Lemma set_subsystem_states_same (i : tab5duino_instance_t) :
  set_subsystem_states (subsystem_states i) i = i.
Proof. now destruct i. Qed.

(** The guarded sequence does what its list form says: it attempts the
    selected subsystems in order up to the first failure, whose status it
    returns, and changes the state table at the attempted entries only. *)
Lemma run_steps_summary (p : platform)
    (steps : list ((tab5duino_config_t -> bool) * nat)) (w : world) :
  NoDup (map snd steps) ->
  (forall s, s ∈ map snd steps ->
     s < TAB5_SUBSYSTEM_COUNT
     /\ subsystem_states (g_tab5duino_instance w) !! s = Some TAB5_SUBSYSTEM_UNINITIALIZED) ->
  let todo := selected (config (g_tab5duino_instance w)) steps in
  let r := run_steps p steps w in
  result r = plan_status p todo
  /\ g_tab5duino_instance (final r)
     = set_subsystem_states
         (plan_states p (attempted p todo) (subsystem_states (g_tab5duino_instance w)))
         (g_tab5duino_instance w)
  /\ lifecycle (events r) = plan_lifecycle p (attempted p todo).
Proof.
  revert w. induction steps as [| [flag s] rest IH]; intros w Hnodup Hpre.
  - cbn. now rewrite set_subsystem_states_same.
  - cbn [map snd] in Hnodup. apply NoDup_cons in Hnodup as [Hnotin Hnodup].
    cbn [run_steps]. unfold init_if, selected. cbn [List.filter fst].
    run. destruct (flag (config (g_tab5duino_instance w))) eqn:Hflag; cbn.
    + destruct (Hpre s) as [Hs Hst]; [cbn; left |].
      destruct (tab5duino_init_subsystem_fresh p s w Hs Hst) as (Hr & Hg & He).
      destruct (tab5duino_init_subsystem p s w) as [[r w1] e].
      cbn in Hr, Hg, He. subst r.
      destruct (is_ok (bringup_status p s)) eqn:Hok; cbn.
      * specialize (IH w1 Hnodup).
        assert (Hcfg : config (g_tab5duino_instance w1) = config (g_tab5duino_instance w))
          by now rewrite Hg.
        rewrite Hcfg in IH.
        destruct IH as (IHr & IHg & IHe).
        { intros s' Hs'. destruct (Hpre s') as [Hlt Hun]; [cbn; now right |].
          split; [assumption |]. rewrite Hg. cbn.
          rewrite list_lookup_insert_ne; [assumption |].
          intros ->. contradiction. }
        fold (selected (config (g_tab5duino_instance w)) rest) in *.
        destruct (run_steps p rest w1) as [[r2 w2] e2]. cbn in IHr, IHg, IHe |- *.
        split; [assumption |]. split.
        -- rewrite IHg, Hg. reflexivity.
        -- unfold lifecycle in *. rewrite omap_app, He, IHe. reflexivity.
      * rewrite !app_nil_r. auto.
    + specialize (IH w Hnodup). destruct IH as (IHr & IHg & IHe).
      { intros s' Hs'. apply Hpre. cbn. now right. }
      fold (selected (config (g_tab5duino_instance w)) rest) in *.
      destruct (run_steps p rest w) as [[r2 w2] e2]. cbn in IHr, IHg, IHe |- *.
      auto.
Qed.

(** ** The bring-up sequence as a list: where it stops *)

(** A sequence that ends with a failure stopped at its first failing
    subsystem. *)
Lemma plan_failure (p : platform) (l : list nat) :
  plan_status p l <> ESP_OK ->
  exists done s rest,
    l = done ++ s :: rest
    /\ attempted p l = done ++ [s]
    /\ plan_status p l = bringup_status p s
    /\ is_ok (bringup_status p s) = false
    /\ Forall (fun s' => is_ok (bringup_status p s') = true) done.
Proof.
  induction l as [| s l IH]; cbn; [congruence |].
  destruct (is_ok (bringup_status p s)) eqn:Hok.
  - intros Hfail. destruct (IH Hfail) as (done & s0 & rest & -> & Hatt & Hst & Hs0 & Hdone).
    exists (s :: done), s0, rest. rewrite Hatt. repeat split; auto.
  - intros _. exists [], s, l. repeat split; auto.
Qed.

(** The state table after a sequence: entries outside it are untouched,
    entries in it hold the state their bring-up ended with. *)
Lemma plan_states_other (p : platform) (l : list nat)
    (states : list tab5_subsystem_state_t) (s : nat) :
  s ∉ l -> plan_states p l states !!! s = states !!! s.
Proof.
  revert states. induction l as [| x l IH]; intros states Hs; [reflexivity |].
  apply not_elem_of_cons in Hs as [Hne Hs]. cbn. unfold plan_states in IH.
  rewrite IH by assumption. now apply list_lookup_total_insert_ne.
Qed.

Lemma plan_states_member (p : platform) (l : list nat)
    (states : list tab5_subsystem_state_t) (s : nat) :
  s ∈ l -> s < length states ->
  plan_states p l states !!! s = state_after_bringup p s.
Proof.
  revert states. induction l as [| x l IH]; intros states Hs Hlen.
  - now apply elem_of_nil in Hs.
  - cbn. fold (plan_states p l (<[x := state_after_bringup p x]> states)).
    destruct (decide (s ∈ l)) as [Hin | Hnotin].
    + apply IH; [assumption | now rewrite length_insert].
    + apply elem_of_cons in Hs as [-> | Hin]; [| contradiction].
      rewrite plan_states_other by assumption.
      now apply list_lookup_total_insert_eq.
Qed.

(** A sequence that stops at [s] reports [s], and only [s], to the hook. *)
Lemma error_reports_plan (p : platform) (done : list nat) (s : nat) :
  Forall (fun s' => is_ok (bringup_status p s') = true) done ->
  is_ok (bringup_status p s) = false ->
  error_reports (plan_lifecycle p (done ++ [s]))
  = if on_subsystem_error p then [(s, bringup_status p s)] else [].
Proof.
  intros Hdone Hs. unfold plan_lifecycle, report.
  induction Hdone as [| x done Hx Hdone IH]; cbn.
  - rewrite Hs. now destruct (on_subsystem_error p).
  - rewrite Hx. cbn. exact IH.
Qed.

(** A plan names valid subsystems, each once. *)
Lemma plan_members (c : tab5duino_config_t) :
  NoDup (plan c) /\ forall s, s ∈ plan c -> s < TAB5_SUBSYSTEM_COUNT.
Proof.
  destruct c as [d t i a l ? ? ? ? ?].
  destruct d, t, i, a, l;
    cbv [plan selected bringup_steps List.filter map fst snd
         auto_init_display auto_init_touch auto_init_imu auto_init_audio
         auto_init_lvgl TAB5_SUBSYSTEM_DISPLAY TAB5_SUBSYSTEM_TOUCH
         TAB5_SUBSYSTEM_IMU TAB5_SUBSYSTEM_AUDIO TAB5_SUBSYSTEM_POWER
         TAB5_SUBSYSTEM_LVGL TAB5_SUBSYSTEM_COUNT];
    (split;
     [ repeat constructor; rewrite ?elem_of_cons, ?elem_of_nil; lia
     | intros s; rewrite ?elem_of_cons, elem_of_nil; lia ]).
Qed.

#[local] Arguments init_hardware_subsystems : simpl never.
#[local] Arguments selected : simpl never.
#[local] Arguments attempted : simpl never.
#[local] Arguments plan_status : simpl never.
#[local] Arguments plan_states : simpl never.
#[local] Arguments plan_transitions : simpl never.
#[local] Arguments plan_lifecycle : simpl never.

(** The steps name valid subsystems, UNINITIALIZED after the reset loop. *)
Lemma bringup_steps_ok (s : nat) :
  s ∈ map snd bringup_steps ->
  s < TAB5_SUBSYSTEM_COUNT
  /\ replicate TAB5_SUBSYSTEM_COUNT TAB5_SUBSYSTEM_UNINITIALIZED !! s
     = Some TAB5_SUBSYSTEM_UNINITIALIZED.
Proof.
  cbn. rewrite !elem_of_cons, elem_of_nil.
  intros [-> | [-> | [-> | [-> | [-> | [-> | []]]]]]];
    (split; [vm_compute; lia | reflexivity]).
Qed.

(** ** The whole of [tab5duino_init] *)

(** Transitions and error reports are read off the lifecycle events. *)
Lemma transitions_lifecycle (evs : list event) :
  transitions (lifecycle evs) = transitions evs.
Proof.
  unfold transitions, lifecycle.
  induction evs as [| e evs IH]; [reflexivity |].
  destruct e; cbn; now rewrite ?IH.
Qed.

Lemma error_reports_lifecycle (evs : list event) :
  error_reports (lifecycle evs) = error_reports evs.
Proof.
  unfold error_reports, lifecycle.
  induction evs as [| e evs IH]; [reflexivity |].
  destruct e; cbn; now rewrite ?IH.
Qed.

Lemma transitions_plan_lifecycle (p : platform) (l : list nat) :
  transitions (plan_lifecycle p l) = plan_transitions p l.
Proof.
  induction l as [| s l IH]; [reflexivity |].
  unfold plan_lifecycle, plan_transitions in *. cbn [flat_map].
  unfold transitions in *. rewrite !omap_app, IH.
  unfold report. destruct (is_ok (bringup_status p s)); [reflexivity |].
  now destruct (on_subsystem_error p).
Qed.

(** On an instance that is not initialized yet, [tab5duino_init] attempts
    the subsystems its configuration selects, in the order display, touch,
    IMU, audio, power, LVGL, up to the first one that fails; it returns that
    failure, or [ESP_OK] and the initialized flag when none fails. *)
Lemma tab5duino_init_summary (p : platform) (cfg : option tab5duino_config_t) (w : world) :
  instance_wf (g_tab5duino_instance w) ->
  framework_initialized (g_tab5duino_instance w) = false ->
  let c := default TAB5DUINO_CONFIG_DEFAULT cfg in
  let r := tab5duino_init p cfg w in
  result r = plan_status p (plan c)
  /\ g_tab5duino_instance (final r)
     = {| config := c;
          subsystem_states :=
            plan_states p (attempted p (plan c))
              (replicate TAB5_SUBSYSTEM_COUNT TAB5_SUBSYSTEM_UNINITIALIZED);
          loop_task_handle := loop_task_handle (g_tab5duino_instance w);
          framework_initialized := is_ok (plan_status p (plan c));
          user_setup_called := user_setup_called (g_tab5duino_instance w);
          boot_time_us := esp_timer_get_time p |}
  /\ transitions (events r) = plan_transitions p (attempted p (plan c))
  /\ lifecycle (events r) = plan_lifecycle p (attempted p (plan c)).
Proof.
  intros Hwf Hinit c r.
  assert (Hlife : lifecycle (events r) = plan_lifecycle p (attempted p (plan c))
                  -> transitions (events r) = plan_transitions p (attempted p (plan c))).
  { intros H. now rewrite <- transitions_lifecycle, H, transitions_plan_lifecycle. }
  cut (result r = plan_status p (plan c)
       /\ g_tab5duino_instance (final r)
          = {| config := c;
               subsystem_states :=
                 plan_states p (attempted p (plan c))
                   (replicate TAB5_SUBSYSTEM_COUNT TAB5_SUBSYSTEM_UNINITIALIZED);
               loop_task_handle := loop_task_handle (g_tab5duino_instance w);
               framework_initialized := is_ok (plan_status p (plan c));
               user_setup_called := user_setup_called (g_tab5duino_instance w);
               boot_time_us := esp_timer_get_time p |}
       /\ lifecycle (events r) = plan_lifecycle p (attempted p (plan c))).
  { intros (Hr & Hg & He). auto. }
  clear Hlife. subst r.
  destruct w as [[c0 l lt fi us bt] h t]. cbn in Hwf, Hinit |- *. subst fi.
  unfold instance_wf in Hwf. cbn in Hwf.
  do 9 (destruct l as [| ? l]; try discriminate Hwf). clear Hwf.
  unfold tab5duino_init. run. fold c.
  destruct (enable_usb_serial c); cbn;
    match goal with |- context [init_hardware_subsystems p ?w0] =>
      rewrite (init_hardware_subsystems_steps p w0);
      destruct (run_steps_summary p bringup_steps w0) as (Hr & Hg & He);
        [ repeat constructor; cbn; rewrite ?elem_of_cons, ?elem_of_nil; vm_compute; lia
        | intros s Hs; apply (bringup_steps_ok s); exact Hs
        | ];
      destruct (run_steps p bringup_steps w0) as [[r w1] e]
    end;
    cbn in Hr, Hg, He; fold (plan c) in *; subst r;
    destruct w1 as [iw hw tw]; cbn in Hg; subst iw;
    unfold lifecycle in *;
    (destruct (is_ok (plan_status p (plan c))) eqn:Hok; cbn;
     [ destruct (on_framework_init p); cbn | ]).
  all: rewrite ?omap_app, ?He; cbn; rewrite ?app_nil_r.
  all: repeat split; try reflexivity; symmetry; apply Z.eqb_eq; exact Hok.
Qed.


(** ** Orderings in a list of transitions *)

(** What the checks [preceded] and [untouched] establish. *)
Lemma preceded_sound (needed : nat * tab5_subsystem_state_t) (target : nat)
    (ts : list (nat * tab5_subsystem_state_t)) :
  forall seen, preceded needed target seen ts = true ->
  forall pre st post, ts = pre ++ (target, st) :: post ->
  seen = true \/ needed ∈ pre.
Proof.
  induction ts as [| x ts IH]; intros seen Hp pre st post Heq.
  - now destruct pre.
  - cbn in Hp. apply andb_true_iff in Hp as [Hx Hrest].
    destruct pre as [| y pre]; cbn in Heq; injection Heq as -> Hts.
    + cbn in Hx. rewrite Nat.eqb_refl in Hx. now left.
    + destruct (IH _ Hrest pre st post Hts) as [Hseen | Hin].
      * apply orb_true_iff in Hseen as [Hseen | Hy]; [now left | right].
        apply bool_decide_eq_true in Hy. subst. apply list_elem_of_here.
      * right. now apply list_elem_of_further.
Qed.

Lemma untouched_sound (s : nat) (ts : list (nat * tab5_subsystem_state_t)) :
  untouched s ts = true -> forall st, (s, st) ∉ ts.
Proof.
  unfold untouched. rewrite forallb_forall. intros Hall st Hin.
  apply list_elem_of_In in Hin. specialize (Hall _ Hin). cbn in Hall.
  now rewrite Nat.eqb_refl in Hall.
Qed.

(** Case analysis on the auto-init flags and on the status of each
    bring-up that the sequence reaches. *)
Ltac plan_cases p c :=
  destruct c as [d t i a l ? ? ? ? ?]; destruct d, t, i, a, l;
  cbv [plan selected bringup_steps List.filter map fst snd attempted
       plan_transitions plan_states plan_status flat_map state_after_bringup
       auto_init_display auto_init_touch auto_init_imu auto_init_audio
       auto_init_lvgl TAB5_SUBSYSTEM_DISPLAY TAB5_SUBSYSTEM_TOUCH
       TAB5_SUBSYSTEM_IMU TAB5_SUBSYSTEM_AUDIO TAB5_SUBSYSTEM_POWER
       TAB5_SUBSYSTEM_LVGL foldl];
  destruct (is_ok (bringup_status p 0)) eqn:E0;
  destruct (is_ok (bringup_status p 1)) eqn:E1;
  destruct (is_ok (bringup_status p 2)) eqn:E2;
  destruct (is_ok (bringup_status p 3)) eqn:E3;
  destruct (is_ok (bringup_status p 4)) eqn:E4;
  destruct (is_ok (bringup_status p 7)) eqn:E7;
  repeat progress (cbv beta iota; rewrite ?E0, ?E1, ?E2, ?E3, ?E4, ?E7);
  cbn [app].

(** The attempts of a trace are the INITIALIZING transitions; after the
    bring-up of a list of subsystems they are that list. *)
Lemma init_order_transitions (evs : list event) :
  init_order evs
  = omap (fun x => match snd x with
                   | TAB5_SUBSYSTEM_INITIALIZING => Some (fst x)
                   | _ => None
                   end) (transitions evs).
Proof.
  unfold init_order, transitions.
  induction evs as [| e evs IH]; [reflexivity |].
  destruct e; cbn; try exact IH.
  match goal with st : tab5_subsystem_state_t |- _ => destruct st end;
    cbn; now rewrite IH.
Qed.

Lemma init_order_plan (p : platform) (l : list nat) :
  omap (fun x => match snd x with
                 | TAB5_SUBSYSTEM_INITIALIZING => Some (fst x)
                 | _ => None
                 end) (plan_transitions p l) = l.
Proof.
  unfold plan_transitions, state_after_bringup.
  induction l as [| s l IH]; [reflexivity |].
  cbn. destruct (is_ok (bringup_status p s)); cbn; now rewrite IH.
Qed.

(** The bring-up of a subsystem other than LVGL ends with the answer of
    its driver. *)
Lemma bringup_status_driver (p : platform) (s : nat) :
  s < TAB5_SUBSYSTEM_LVGL -> bringup_status p s = driver_init p s.
Proof.
  intros Hs. unfold bringup_status.
  do 7 (destruct s as [| s]; [reflexivity |]).
  unfold TAB5_SUBSYSTEM_LVGL in Hs. lia.
Qed.

(** [is_ok] decides [ret == ESP_OK]. *)
Lemma is_ok_true (x : esp_err_t) : is_ok x = true <-> x = ESP_OK.
Proof. apply Z.eqb_eq. Qed.

(** C2, as amended.  In every run of [tab5duino_init] on an instance that is
    not initialized yet, each transition of the LVGL subsystem (its attempt
    and its READY or ERROR) comes after the display has become READY when
    [auto_init_display] is set, and after the touch has become READY when
    [auto_init_touch] is set.  A prerequisite whose flag is clear is never
    attempted and is UNINITIALIZED at the end, whether LVGL is attempted
    or not.  And LVGL is attempted all the same: exactly when
    [auto_init_lvgl] is set and each bring-up before it that the flags
    select (display, touch, IMU, audio; power always) ended with [ESP_OK],
    with no regard to the flags of display and touch; with the drivers as
    written, exactly when [auto_init_lvgl] is set. *)
Theorem lvgl_after_enabled_prerequisites (p : platform)
    (cfg : option tab5duino_config_t) (w : world) :
  instance_wf (g_tab5duino_instance w) ->
  framework_initialized (g_tab5duino_instance w) = false ->
  let c := default TAB5DUINO_CONFIG_DEFAULT cfg in
  let r := tab5duino_init p cfg w in
  (forall pre st post,
     transitions (events r) = pre ++ (TAB5_SUBSYSTEM_LVGL, st) :: post ->
     (if auto_init_display c
      then (TAB5_SUBSYSTEM_DISPLAY, TAB5_SUBSYSTEM_READY) ∈ pre
           /\ tab5duino_get_subsystem_state (final r) TAB5_SUBSYSTEM_DISPLAY
              = TAB5_SUBSYSTEM_READY
      else (forall st', (TAB5_SUBSYSTEM_DISPLAY, st') ∉ transitions (events r))
           /\ tab5duino_get_subsystem_state (final r) TAB5_SUBSYSTEM_DISPLAY
              = TAB5_SUBSYSTEM_UNINITIALIZED)
     /\ (if auto_init_touch c
         then (TAB5_SUBSYSTEM_TOUCH, TAB5_SUBSYSTEM_READY) ∈ pre
              /\ tab5duino_get_subsystem_state (final r) TAB5_SUBSYSTEM_TOUCH
                 = TAB5_SUBSYSTEM_READY
         else (forall st', (TAB5_SUBSYSTEM_TOUCH, st') ∉ transitions (events r))
              /\ tab5duino_get_subsystem_state (final r) TAB5_SUBSYSTEM_TOUCH
                 = TAB5_SUBSYSTEM_UNINITIALIZED))
  /\ (auto_init_display c = false ->
      (forall st', (TAB5_SUBSYSTEM_DISPLAY, st') ∉ transitions (events r))
      /\ tab5duino_get_subsystem_state (final r) TAB5_SUBSYSTEM_DISPLAY
         = TAB5_SUBSYSTEM_UNINITIALIZED)
  /\ (auto_init_touch c = false ->
      (forall st', (TAB5_SUBSYSTEM_TOUCH, st') ∉ transitions (events r))
      /\ tab5duino_get_subsystem_state (final r) TAB5_SUBSYSTEM_TOUCH
         = TAB5_SUBSYSTEM_UNINITIALIZED)
  /\ (TAB5_SUBSYSTEM_LVGL ∈ init_order (events r) <->
      auto_init_lvgl c = true
      /\ (auto_init_display c = true -> driver_init p TAB5_SUBSYSTEM_DISPLAY = ESP_OK)
      /\ (auto_init_touch c = true -> driver_init p TAB5_SUBSYSTEM_TOUCH = ESP_OK)
      /\ (auto_init_imu c = true -> driver_init p TAB5_SUBSYSTEM_IMU = ESP_OK)
      /\ (auto_init_audio c = true -> driver_init p TAB5_SUBSYSTEM_AUDIO = ESP_OK)
      /\ driver_init p TAB5_SUBSYSTEM_POWER = ESP_OK)
  /\ (drivers_as_written p ->
      (TAB5_SUBSYSTEM_LVGL ∈ init_order (events r) <-> auto_init_lvgl c = true)).
Proof.
  intros Hwf Hinit c r.
  destruct (tab5duino_init_summary p cfg w Hwf Hinit) as (_ & Hg & Ht & _).
  fold c r in Hg, Ht.
  cut ((forall pre st post,
          transitions (events r) = pre ++ (TAB5_SUBSYSTEM_LVGL, st) :: post ->
          (if auto_init_display c
           then (TAB5_SUBSYSTEM_DISPLAY, TAB5_SUBSYSTEM_READY) ∈ pre
                /\ tab5duino_get_subsystem_state (final r) TAB5_SUBSYSTEM_DISPLAY
                   = TAB5_SUBSYSTEM_READY
           else (forall st', (TAB5_SUBSYSTEM_DISPLAY, st') ∉ transitions (events r))
                /\ tab5duino_get_subsystem_state (final r) TAB5_SUBSYSTEM_DISPLAY
                   = TAB5_SUBSYSTEM_UNINITIALIZED)
          /\ (if auto_init_touch c
              then (TAB5_SUBSYSTEM_TOUCH, TAB5_SUBSYSTEM_READY) ∈ pre
                   /\ tab5duino_get_subsystem_state (final r) TAB5_SUBSYSTEM_TOUCH
                      = TAB5_SUBSYSTEM_READY
              else (forall st', (TAB5_SUBSYSTEM_TOUCH, st') ∉ transitions (events r))
                   /\ tab5duino_get_subsystem_state (final r) TAB5_SUBSYSTEM_TOUCH
                      = TAB5_SUBSYSTEM_UNINITIALIZED))
       /\ (auto_init_display c = false ->
           (forall st', (TAB5_SUBSYSTEM_DISPLAY, st') ∉ transitions (events r))
           /\ tab5duino_get_subsystem_state (final r) TAB5_SUBSYSTEM_DISPLAY
              = TAB5_SUBSYSTEM_UNINITIALIZED)
       /\ (auto_init_touch c = false ->
           (forall st', (TAB5_SUBSYSTEM_TOUCH, st') ∉ transitions (events r))
           /\ tab5duino_get_subsystem_state (final r) TAB5_SUBSYSTEM_TOUCH
              = TAB5_SUBSYSTEM_UNINITIALIZED)
       /\ bool_decide (TAB5_SUBSYSTEM_LVGL ∈ init_order (events r))
          = auto_init_lvgl c
            && implb (auto_init_display c)
                     (is_ok (bringup_status p TAB5_SUBSYSTEM_DISPLAY))
            && implb (auto_init_touch c)
                     (is_ok (bringup_status p TAB5_SUBSYSTEM_TOUCH))
            && implb (auto_init_imu c)
                     (is_ok (bringup_status p TAB5_SUBSYSTEM_IMU))
            && implb (auto_init_audio c)
                     (is_ok (bringup_status p TAB5_SUBSYSTEM_AUDIO))
            && is_ok (bringup_status p TAB5_SUBSYSTEM_POWER)).
  { intros (Horder & Hdisplay & Htouch & Hbool).
    split; [exact Horder |]. split; [exact Hdisplay |]. split; [exact Htouch |].
    assert (Himp : forall a b, implb a b = true <-> (a = true -> b = true))
      by (intros [] []; cbn; intuition discriminate).
    assert (Hiff :
      TAB5_SUBSYSTEM_LVGL ∈ init_order (events r) <->
      auto_init_lvgl c = true
      /\ (auto_init_display c = true -> driver_init p TAB5_SUBSYSTEM_DISPLAY = ESP_OK)
      /\ (auto_init_touch c = true -> driver_init p TAB5_SUBSYSTEM_TOUCH = ESP_OK)
      /\ (auto_init_imu c = true -> driver_init p TAB5_SUBSYSTEM_IMU = ESP_OK)
      /\ (auto_init_audio c = true -> driver_init p TAB5_SUBSYSTEM_AUDIO = ESP_OK)
      /\ driver_init p TAB5_SUBSYSTEM_POWER = ESP_OK).
    { rewrite <- (bool_decide_spec (TAB5_SUBSYSTEM_LVGL ∈ init_order (events r))).
      rewrite Is_true_true, Hbool, !andb_true_iff, !Himp, !is_ok_true.
      rewrite !bringup_status_driver by (vm_compute; lia). tauto. }
    split; [exact Hiff |].
    intros Hp. rewrite Hiff.
    split; [tauto |]. intros Hl.
    repeat split; try exact Hl; intros; apply Hp. }
  rewrite init_order_transitions. unfold tab5duino_get_subsystem_state.
  rewrite Hg, Ht, init_order_plan. clear Hg Ht. clearbody c. clear r.
  plan_cases p c.
  all: split;
         [ intros pre st post Heq;
           first
             [ exfalso;
               match type of Heq with
               | ?ts = _ => apply (untouched_sound 7 ts eq_refl st)
               end;
               rewrite Heq; apply elem_of_app; right; apply list_elem_of_here
             | repeat split;
               first
                 [ reflexivity
                 | apply untouched_sound; reflexivity
                 | match type of Heq with
                   | ?ts = _ =>
                       match goal with
                       | |- ?needed ∈ pre =>
                           destruct (preceded_sound needed 7 ts false eq_refl _ _ _ Heq)
                             as [Hseen | Hin];
                           [discriminate Hseen | exact Hin]
                       end
                   end ] ]
         | ].
  all: split;
         [ intros Hflag; first [discriminate Hflag
                               | split; [apply untouched_sound; reflexivity | reflexivity]]
         | ].
  all: split;
         [ intros Hflag; first [discriminate Hflag
                               | split; [apply untouched_sound; reflexivity | reflexivity]]
         | ].
  all: reflexivity.
Qed.

(** ** Teardown *)

(** [w] with the state of [s] set to UNINITIALIZED. *)
Lemma tab5duino_deinit_subsystem_run (s : nat) (w : world) :
  s < TAB5_SUBSYSTEM_COUNT ->
  tab5duino_deinit_subsystem s w =
    if is_uninitialized (subsystem_states (g_tab5duino_instance w) !!! s)
    then (ESP_OK, w, [])
    else (ESP_OK,
          {| g_tab5duino_instance :=
               set_subsystem_states
                 (<[s := TAB5_SUBSYSTEM_UNINITIALIZED]>
                    (subsystem_states (g_tab5duino_instance w)))
                 (g_tab5duino_instance w);
             lvgl_handle := lvgl_handle w;
             lvgl_tick_timer := lvgl_tick_timer w |},
          [EvTransition s TAB5_SUBSYSTEM_UNINITIALIZED]).
Proof.
  intros Hs. unfold tab5duino_deinit_subsystem.
  destruct (Nat.leb_spec TAB5_SUBSYSTEM_COUNT s) as [Hge | _]; [lia |].
  run. now destruct (is_uninitialized _).
Qed.

(** The walk over the first [n] entries: entry by entry, and blind to a
    change at or above [n]. *)
Lemma teardown_order_insert (n s : nat) (st : tab5_subsystem_state_t)
    (l : list tab5_subsystem_state_t) :
  n <= s -> teardown_order n (<[s := st]> l) = teardown_order n l.
Proof.
  intros Hn. unfold teardown_order. apply filter_ext_in. intros j Hj.
  apply in_rev, in_seq in Hj.
  rewrite list_lookup_total_insert_ne by lia. reflexivity.
Qed.

Lemma teardown_order_S (n : nat) (l : list tab5_subsystem_state_t) :
  teardown_order (S n) l =
    if is_uninitialized (l !!! n) then teardown_order n l
    else n :: teardown_order n l.
Proof.
  unfold teardown_order. rewrite seq_S, rev_app_distr. cbn.
  now destruct (is_uninitialized (l !!! n)).
Qed.

#[local] Arguments tab5duino_deinit_subsystem : simpl never.

(** The loop of [deinit_hardware_subsystems] tears down, from entry
    [n - 1] down to entry 0, the subsystems that are not UNINITIALIZED, and
    does nothing else. *)
Lemma deinit_loop_events (n : nat) (w : world) :
  n <= TAB5_SUBSYSTEM_COUNT ->
  events (deinit_loop n w)
  = map (fun s => EvTransition s TAB5_SUBSYSTEM_UNINITIALIZED)
        (teardown_order n (subsystem_states (g_tab5duino_instance w))).
Proof.
  revert w. induction n as [| n IH]; intros w Hn; [reflexivity |].
  rewrite teardown_order_S. cbn [deinit_loop]. run.
  pose proof (tab5duino_deinit_subsystem_run n w) as Hrun.
  destruct (is_uninitialized (subsystem_states (g_tab5duino_instance w) !!! n));
    cbn; [| rewrite Hrun by lia; cbn].
  - specialize (IH w). destruct (deinit_loop n w) as [[u w'] e].
    cbn in IH |- *. apply IH. lia.
  - match goal with |- context [deinit_loop n ?w1] =>
      specialize (IH w1); destruct (deinit_loop n w1) as [[u w'] e]
    end.
    cbn in IH |- *. rewrite IH by lia.
    now rewrite teardown_order_insert by lia.
Qed.

#[local] Arguments deinit_loop : simpl never.

(** Reading back a trace of teardowns. *)
Lemma deinit_order_map (l : list nat) :
  deinit_order (map (fun s => EvTransition s TAB5_SUBSYSTEM_UNINITIALIZED) l) = l.
Proof.
  unfold deinit_order. induction l as [| s l IH]; cbn; [reflexivity | now f_equal].
Qed.

Lemma transitions_map (l : list nat) :
  transitions (map (fun s => EvTransition s TAB5_SUBSYSTEM_UNINITIALIZED) l)
  = map (fun s => (s, TAB5_SUBSYSTEM_UNINITIALIZED)) l.
Proof.
  unfold transitions. induction l as [| s l IH]; cbn; [reflexivity | now f_equal].
Qed.

(** [tab5duino_deinit] walks the state table from the highest id down to
    the display, tears down what is not UNINITIALIZED, and zeroes the
    instance. *)
Lemma tab5duino_deinit_run (w : world) :
  let r := tab5duino_deinit w in
  deinit_order (events r)
  = teardown_order TAB5_SUBSYSTEM_COUNT (subsystem_states (g_tab5duino_instance w))
  /\ transitions (events r)
     = map (fun s => (s, TAB5_SUBSYSTEM_UNINITIALIZED))
           (teardown_order TAB5_SUBSYSTEM_COUNT
              (subsystem_states (g_tab5duino_instance w)))
  /\ g_tab5duino_instance (final r) = instance_zero.
Proof.
  unfold tab5duino_deinit, tab5duino_stop, deinit_hardware_subsystems. run.
  destruct (loop_task_handle (g_tab5duino_instance w)) as [task |]; cbn;
    match goal with |- context [deinit_loop _ ?w1] =>
      pose proof (deinit_loop_events TAB5_SUBSYSTEM_COUNT w1 (le_n _)) as He;
      destruct (deinit_loop TAB5_SUBSYSTEM_COUNT w1) as [[u w2] e]
    end;
    cbn in He; subst e;
    destruct (enable_usb_serial (config (g_tab5duino_instance w2))); cbn;
    unfold deinit_order, transitions; rewrite !omap_app; cbn;
    rewrite !app_nil_r;
    fold (deinit_order
            (map (fun s => EvTransition s TAB5_SUBSYSTEM_UNINITIALIZED)
               (teardown_order TAB5_SUBSYSTEM_COUNT
                  (subsystem_states (g_tab5duino_instance w)))));
    fold (transitions
            (map (fun s => EvTransition s TAB5_SUBSYSTEM_UNINITIALIZED)
               (teardown_order TAB5_SUBSYSTEM_COUNT
                  (subsystem_states (g_tab5duino_instance w)))));
    now rewrite deinit_order_map, transitions_map.
Qed.

(** After the bring-up sequence, walking the state table downwards meets
    the attempted subsystems in the reverse of the order of their attempts. *)
Lemma teardown_reverses_plan (p : platform) (c : tab5duino_config_t) :
  teardown_order TAB5_SUBSYSTEM_COUNT
    (plan_states p (attempted p (plan c))
       (replicate TAB5_SUBSYSTEM_COUNT TAB5_SUBSYSTEM_UNINITIALIZED))
  = rev (attempted p (plan c)).
Proof. plan_cases p c; reflexivity. Qed.

(** The teardown loop touches the state table only: the LVGL globals and the
    configuration are as before. *)
Lemma deinit_loop_frame (n : nat) (w : world) :
  n <= TAB5_SUBSYSTEM_COUNT ->
  lvgl_handle (final (deinit_loop n w)) = lvgl_handle w
  /\ lvgl_tick_timer (final (deinit_loop n w)) = lvgl_tick_timer w
  /\ config (g_tab5duino_instance (final (deinit_loop n w)))
     = config (g_tab5duino_instance w).
Proof.
  revert w. induction n as [| n IH]; intros w Hn; [now repeat split |].
  change (deinit_loop (S n) w)
    with ((st ← get_state n;
           when (negb (is_uninitialized st)) (tab5duino_deinit_subsystem n;; mret tt);;
           deinit_loop n) w).
  run.
  pose proof (tab5duino_deinit_subsystem_run n w) as Hrun.
  destruct (is_uninitialized (subsystem_states (g_tab5duino_instance w) !!! n));
    cbn; [| rewrite Hrun by lia; cbn].
  - specialize (IH w). destruct (deinit_loop n w) as [[u w'] e].
    cbn in IH |- *. apply IH. lia.
  - match goal with |- context [deinit_loop n ?w1] =>
      specialize (IH w1); destruct (deinit_loop n w1) as [[u w'] e]
    end.
    cbn in IH |- *. apply IH. lia.
Qed.

(** The whole of [tab5duino_deinit]: the main task is deleted if there is
    one, the subsystems are marked, USB serial is uninstalled under its
    flag and the instance is zeroed.  No call goes to LVGL, and the LVGL
    globals are as before. *)
Lemma tab5duino_deinit_world (w : world) :
  tab5duino_deinit w
  = (tt,
     {| g_tab5duino_instance := instance_zero;
        lvgl_handle := lvgl_handle w;
        lvgl_tick_timer := lvgl_tick_timer w |},
     match loop_task_handle (g_tab5duino_instance w) with
     | Some task => [EvTaskDelete task]
     | None => []
     end
     ++ map (fun s => EvTransition s TAB5_SUBSYSTEM_UNINITIALIZED)
            (teardown_order TAB5_SUBSYSTEM_COUNT
               (subsystem_states (g_tab5duino_instance w)))
     ++ (if enable_usb_serial (config (g_tab5duino_instance w))
         then [EvUsbSerialUninstall] else [])).
Proof.
  unfold tab5duino_deinit, tab5duino_stop, deinit_hardware_subsystems.
  cbv [mbind mret M_MBind M_MRet M_bind M_ret mget mput emit when modify_instance].
  destruct (loop_task_handle (g_tab5duino_instance w)) as [task |];
    cbn -[teardown_order];
    match goal with |- context [deinit_loop _ ?w1] =>
      pose proof (deinit_loop_events TAB5_SUBSYSTEM_COUNT w1 (le_n _)) as He;
      destruct (deinit_loop_frame TAB5_SUBSYSTEM_COUNT w1 (le_n _)) as (Hh & Ht & Hc);
      destruct (deinit_loop TAB5_SUBSYSTEM_COUNT w1) as [[u w2] e]
    end;
    cbn -[teardown_order] in He, Hh, Ht, Hc |- *; subst e; rewrite ?Hc;
    destruct (enable_usb_serial (config (g_tab5duino_instance w)));
    cbn -[teardown_order]; rewrite ?Hh, ?Ht, ?app_nil_r; reflexivity.
Qed.

(** C4, as amended.  [tab5duino_deinit] tears the subsystems down from the
    highest subsystem id to the display, skipping those that are
    UNINITIALIZED, which after a [tab5duino_init] is exactly the reverse of
    the order in which that init attempted them; when it returns every
    subsystem state is UNINITIALIZED and the instance equals its zero
    state, and a following [tab5duino_init] gives the status, the instance
    and the subsystem transitions that it gives at boot.  Its calls are the
    deletion of the main task, if there is one, and the uninstall of USB
    serial under its flag: none goes to LVGL, whose handle and tick timer
    are after the call what they were before it.  So the state after the
    call is that of boot exactly when there was no LVGL handle and no tick
    timer. *)
Theorem tab5duino_deinit_reverse_and_zero (w : world) :
  let r := tab5duino_deinit w in
  deinit_order (events r)
  = List.filter
      (fun s => negb (is_uninitialized
                        (subsystem_states (g_tab5duino_instance w) !!! s)))
      [7; 6; 5; 4; 3; 2; 1; 0]
  /\ (forall p cfg w0,
        instance_wf (g_tab5duino_instance w0) ->
        framework_initialized (g_tab5duino_instance w0) = false ->
        w = final (tab5duino_init p cfg w0) ->
        deinit_order (events r) = rev (init_order (events (tab5duino_init p cfg w0))))
  /\ (forall s, s < TAB5_SUBSYSTEM_COUNT ->
        tab5duino_get_subsystem_state (final r) s = TAB5_SUBSYSTEM_UNINITIALIZED)
  /\ g_tab5duino_instance (final r) = instance_zero
  /\ (forall p cfg,
        let again := tab5duino_init p cfg (final r) in
        let boot := tab5duino_init p cfg world_boot in
        result again = result boot
        /\ g_tab5duino_instance (final again) = g_tab5duino_instance (final boot)
        /\ transitions (events again) = transitions (events boot))
  /\ lvgl_handle (final r) = lvgl_handle w
  /\ lvgl_tick_timer (final r) = lvgl_tick_timer w
  /\ events r
     = match loop_task_handle (g_tab5duino_instance w) with
       | Some task => [EvTaskDelete task]
       | None => []
       end
       ++ map (fun s => EvTransition s TAB5_SUBSYSTEM_UNINITIALIZED)
              (List.filter
                 (fun s => negb (is_uninitialized
                                   (subsystem_states (g_tab5duino_instance w) !!! s)))
                 [7; 6; 5; 4; 3; 2; 1; 0])
       ++ (if enable_usb_serial (config (g_tab5duino_instance w))
           then [EvUsbSerialUninstall] else [])
  /\ (final r = world_boot <-> lvgl_handle w = None /\ lvgl_tick_timer w = None).
Proof.
  intros r. destruct (tab5duino_deinit_run w) as (Horder & _ & Hzero).
  fold r in Horder, Hzero.
  split; [exact Horder |]. split; [| split; [| split; [exact Hzero | split]]].
  - intros p cfg w0 Hwf Hinit ->.
    destruct (tab5duino_init_summary p cfg w0 Hwf Hinit) as (_ & Hg & Ht & _).
    rewrite Horder, init_order_transitions, Ht, init_order_plan, Hg.
    apply teardown_reverses_plan.
  - intros s Hs. unfold tab5duino_get_subsystem_state. rewrite Hzero.
    do 8 (destruct s as [| s]; [reflexivity |]).
    unfold TAB5_SUBSYSTEM_COUNT in Hs. lia.
  - intros p cfg again boot.
    destruct (tab5duino_init_summary p cfg (final r)) as (Hr1 & Hg1 & Ht1 & _);
      [now rewrite Hzero | now rewrite Hzero |].
    destruct (tab5duino_init_summary p cfg world_boot) as (Hr2 & Hg2 & Ht2 & _);
      [reflexivity | reflexivity |].
    fold again in Hr1, Hg1, Ht1. fold boot in Hr2, Hg2, Ht2.
    rewrite Hr1, Hr2, Hg1, Hg2, Ht1, Ht2, Hzero. auto.
  - subst r. rewrite (tab5duino_deinit_world w).
    split; [reflexivity |]. split; [reflexivity |]. split; [reflexivity |].
    cbn. split.
    + intros Heq. injection Heq as Hh Ht. auto.
    + now intros [-> ->].
Qed.

(** C4 as stated does not hold: a [tab5duino_init] after [tab5duino_deinit]
    does not behave as at boot.  After init and deinit with every call
    succeeding, LVGL counts as UNINITIALIZED, yet its handle is still
    started and the tick timer is still there, no call having stopped or
    deleted them.  An init without LVGL then ends with LVGL up, unlike the
    same init at boot; and an init with LVGL creates a second tick timer and
    a second LVGL task, the first ones never deleted. *)
Lemma deinit_leaves_lvgl_running :
  let up := tab5duino_init platform_ok None world_boot in
  let down := tab5duino_deinit (final up) in
  let again := tab5duino_init platform_ok (Some config_no_lvgl) (final down) in
  let boot := tab5duino_init platform_ok (Some config_no_lvgl) world_boot in
  let rerun := tab5duino_init platform_ok None (final down) in
  let all := events up ++ events down ++ events rerun in
  result up = ESP_OK
  /\ tab5duino_get_subsystem_state (final down) TAB5_SUBSYSTEM_LVGL
     = TAB5_SUBSYSTEM_UNINITIALIZED
  /\ Lvgl.lvgl_tab5_is_ready (lvgl_handle (final down)) = true
  /\ lvgl_tick_timer (final down) = Some 9
  /\ result again = ESP_OK
  /\ result boot = ESP_OK
  /\ Lvgl.lvgl_tab5_is_ready (lvgl_handle (final again)) = true
  /\ Lvgl.lvgl_tab5_is_ready (lvgl_handle (final boot)) = false
  /\ tab5duino_init platform_ok (Some config_no_lvgl) (final down)
     <> tab5duino_init platform_ok (Some config_no_lvgl) world_boot
  /\ calls (EvLvglTaskCreate 8192 2 1) all = 2
  /\ calls EvLvglTaskDelete all = 0
  /\ calls EvTimerCreate all = 2
  /\ calls EvTimerStop all = 0
  /\ calls EvTimerDelete all = 0.
Proof.
  cbv zeta.
  repeat (split; [vm_compute; reflexivity |]).
  split.
  - intros Heq.
    apply (f_equal (fun r => lvgl_tick_timer (final r))) in Heq.
    vm_compute in Heq. discriminate Heq.
  - repeat (split; [vm_compute; reflexivity |]). vm_compute. reflexivity.
Qed.

(** ** Failure of a bring-up *)

(** Whatever the drivers answer: when [tab5duino_init] fails, it failed at
    one subsystem of its plan, whose status it returns; the subsystems
    before that one are READY, that one is in ERROR and reported through
    [on_subsystem_error] when the hook is bound, those after it were not
    attempted, and the framework is left not initialized.  This is what the
    [if (ret != ESP_OK) return ret;] after each step of
    [init_hardware_subsystems] amounts to. *)
Lemma bringup_failure_summary (p : platform)
    (cfg : option tab5duino_config_t) (w : world) :
  instance_wf (g_tab5duino_instance w) ->
  framework_initialized (g_tab5duino_instance w) = false ->
  let c := default TAB5DUINO_CONFIG_DEFAULT cfg in
  let r := tab5duino_init p cfg w in
  result r <> ESP_OK ->
  framework_initialized (g_tab5duino_instance (final r)) = false
  /\ exists done s rest,
       plan c = done ++ s :: rest
       /\ init_order (events r) = done ++ [s]
       /\ result r = bringup_status p s
       /\ (forall s', s' ∈ done ->
             tab5duino_get_subsystem_state (final r) s' = TAB5_SUBSYSTEM_READY)
       /\ tab5duino_get_subsystem_state (final r) s = TAB5_SUBSYSTEM_ERROR
       /\ (forall s', s' ∈ rest ->
             tab5duino_get_subsystem_state (final r) s' = TAB5_SUBSYSTEM_UNINITIALIZED)
       /\ error_reports (events r)
          = if on_subsystem_error p then [(s, result r)] else [].
Proof.
  intros Hwf Hinit c r Hfail.
  destruct (tab5duino_init_summary p cfg w Hwf Hinit) as (Hr & Hg & Ht & Hl).
  fold c r in Hr, Hg, Ht, Hl. rewrite Hr in Hfail.
  destruct (plan_failure p (plan c) Hfail)
    as (done & s & rest & Hplan & Hatt & Hst & Hs & Hdone).
  destruct (plan_members c) as [Hnodup Hlt].
  rewrite Hplan in Hnodup.
  apply NoDup_app in Hnodup as (_ & Hdisj & Hnodup).
  apply NoDup_cons in Hnodup as [Hsrest _].
  assert (Hstate : forall s', s' ∈ plan c ->
            tab5duino_get_subsystem_state (final r) s'
            = plan_states p (done ++ [s])
                (replicate TAB5_SUBSYSTEM_COUNT TAB5_SUBSYSTEM_UNINITIALIZED) !!! s').
  { intros s' Hs'. unfold tab5duino_get_subsystem_state.
    destruct (Nat.leb_spec TAB5_SUBSYSTEM_COUNT s') as [Hge | _].
    - specialize (Hlt s' Hs'). lia.
    - now rewrite Hg, Hatt. }
  split.
  { rewrite Hg. cbn. apply Z.eqb_neq. exact Hfail. }
  exists done, s, rest. split; [exact Hplan |]. split.
  { now rewrite init_order_transitions, Ht, init_order_plan. }
  split; [congruence |]. split; [| split; [| split]].
  + intros s' Hs'. rewrite Hstate by (rewrite Hplan, elem_of_app; now left).
    rewrite plan_states_member.
    * unfold state_after_bringup.
      rewrite Forall_forall in Hdone. now rewrite (Hdone s' Hs').
    * rewrite elem_of_app. now left.
    * rewrite length_replicate. apply Hlt. rewrite Hplan, elem_of_app. now left.
  + assert (Hin : s ∈ plan c)
      by (rewrite Hplan, elem_of_app; right; apply list_elem_of_here).
    rewrite Hstate by exact Hin.
    rewrite plan_states_member.
    * unfold state_after_bringup. now rewrite Hs.
    * rewrite elem_of_app. right. apply list_elem_of_here.
    * rewrite length_replicate. now apply Hlt.
  + intros s' Hs'.
    assert (Hin : s' ∈ plan c)
      by (rewrite Hplan, elem_of_app; right; now apply list_elem_of_further).
    rewrite Hstate by exact Hin.
    rewrite plan_states_other.
    * apply lookup_total_replicate_2. now apply Hlt.
    * rewrite elem_of_app, list_elem_of_singleton. intros [Hd | ->].
      -- apply (Hdisj s' Hd). now apply list_elem_of_further.
      -- contradiction.
  + rewrite <- error_reports_lifecycle, Hl, Hatt, error_reports_plan by assumption.
    now rewrite Hr, Hst.
Qed.




(** The one failure the source can show: the allocation of the LVGL
    handle fails; the init returns the failure and the framework is not
    marked initialized. *)
Lemma lvgl_failure_aborts_init_as_written :
  let r := tab5duino_init platform_lvgl_fails None world_boot in
  result r = ESP_ERR_NO_MEM
  /\ framework_initialized (g_tab5duino_instance (final r)) = false
  /\ tab5duino_get_subsystem_state (final r) TAB5_SUBSYSTEM_LVGL = TAB5_SUBSYSTEM_ERROR
  /\ last (events r) = Some (EvOnSubsystemError TAB5_SUBSYSTEM_LVGL ESP_ERR_NO_MEM).
Proof. vm_compute. repeat split. Qed.

(** C2 as stated does not hold: with the display left out of auto-init
    (placeholder drivers, every outside call succeeding) [tab5duino_init]
    succeeds and LVGL is attempted and reaches READY although the display
    was never attempted and is UNINITIALIZED. *)
Lemma lvgl_ready_without_display :
  let r := tab5duino_init platform_ok (Some config_no_display) world_boot in
  result r = ESP_OK
  /\ transitions (events r)
     = [(TAB5_SUBSYSTEM_TOUCH, TAB5_SUBSYSTEM_INITIALIZING);
        (TAB5_SUBSYSTEM_TOUCH, TAB5_SUBSYSTEM_READY);
        (TAB5_SUBSYSTEM_IMU, TAB5_SUBSYSTEM_INITIALIZING);
        (TAB5_SUBSYSTEM_IMU, TAB5_SUBSYSTEM_READY);
        (TAB5_SUBSYSTEM_POWER, TAB5_SUBSYSTEM_INITIALIZING);
        (TAB5_SUBSYSTEM_POWER, TAB5_SUBSYSTEM_READY);
        (TAB5_SUBSYSTEM_LVGL, TAB5_SUBSYSTEM_INITIALIZING);
        (TAB5_SUBSYSTEM_LVGL, TAB5_SUBSYSTEM_READY)]
  /\ tab5duino_get_subsystem_state (final r) TAB5_SUBSYSTEM_LVGL
     = TAB5_SUBSYSTEM_READY
  /\ tab5duino_get_subsystem_state (final r) TAB5_SUBSYSTEM_DISPLAY
     = TAB5_SUBSYSTEM_UNINITIALIZED.
Proof. vm_compute. repeat split. Qed.

(** ** The theorems at concrete inputs

    Each lemma below applies one theorem above to a sample platform and
    state and checks its hypotheses there. *)


Lemma lvgl_after_enabled_prerequisites_witness :
  let pre := [(TAB5_SUBSYSTEM_DISPLAY, TAB5_SUBSYSTEM_INITIALIZING);
              (TAB5_SUBSYSTEM_DISPLAY, TAB5_SUBSYSTEM_READY);
              (TAB5_SUBSYSTEM_TOUCH, TAB5_SUBSYSTEM_INITIALIZING);
              (TAB5_SUBSYSTEM_TOUCH, TAB5_SUBSYSTEM_READY);
              (TAB5_SUBSYSTEM_IMU, TAB5_SUBSYSTEM_INITIALIZING);
              (TAB5_SUBSYSTEM_IMU, TAB5_SUBSYSTEM_READY);
              (TAB5_SUBSYSTEM_POWER, TAB5_SUBSYSTEM_INITIALIZING);
              (TAB5_SUBSYSTEM_POWER, TAB5_SUBSYSTEM_READY)] in
  let r := tab5duino_init platform_ok (Some config_no_display) world_boot in
  instance_wf (g_tab5duino_instance world_boot)
  /\ framework_initialized (g_tab5duino_instance world_boot) = false
  /\ transitions (events (tab5duino_init platform_ok None world_boot))
     = pre ++ (TAB5_SUBSYSTEM_LVGL, TAB5_SUBSYSTEM_INITIALIZING)
              :: [(TAB5_SUBSYSTEM_LVGL, TAB5_SUBSYSTEM_READY)]
  /\ (TAB5_SUBSYSTEM_DISPLAY, TAB5_SUBSYSTEM_READY) ∈ pre
  /\ (TAB5_SUBSYSTEM_TOUCH, TAB5_SUBSYSTEM_READY) ∈ pre
  /\ auto_init_display (default TAB5DUINO_CONFIG_DEFAULT (Some config_no_display))
     = false
  /\ auto_init_lvgl (default TAB5DUINO_CONFIG_DEFAULT (Some config_no_display))
     = true
  /\ drivers_as_written platform_ok
  /\ tab5duino_get_subsystem_state (final r) TAB5_SUBSYSTEM_DISPLAY
     = TAB5_SUBSYSTEM_UNINITIALIZED
  /\ TAB5_SUBSYSTEM_LVGL ∈ init_order (events r).
Proof.
  intros pre r. subst r.
  assert (Hwf : instance_wf (g_tab5duino_instance world_boot)) by reflexivity.
  assert (Hinit : framework_initialized (g_tab5duino_instance world_boot) = false)
    by reflexivity.
  assert (Hsplit : transitions (events (tab5duino_init platform_ok None world_boot))
                   = pre ++ (TAB5_SUBSYSTEM_LVGL, TAB5_SUBSYSTEM_INITIALIZING)
                            :: [(TAB5_SUBSYSTEM_LVGL, TAB5_SUBSYSTEM_READY)])
    by (vm_compute; reflexivity).
  assert (Hclear : auto_init_display
                     (default TAB5DUINO_CONFIG_DEFAULT (Some config_no_display))
                   = false) by reflexivity.
  assert (Hlvgl : auto_init_lvgl
                    (default TAB5DUINO_CONFIG_DEFAULT (Some config_no_display))
                  = true) by reflexivity.
  assert (Hp : drivers_as_written platform_ok) by (intros s; reflexivity).
  split; [exact Hwf |]. split; [exact Hinit |]. split; [exact Hsplit |].
  pose proof (lvgl_after_enabled_prerequisites platform_ok None world_boot
                Hwf Hinit) as H.
  cbv zeta in H. destruct H as (Hord & _).
  specialize (Hord pre _ _ Hsplit).
  cbv [default TAB5DUINO_CONFIG_DEFAULT auto_init_display auto_init_touch] in Hord.
  split; [exact (proj1 (proj1 Hord)) |]. split; [exact (proj1 (proj2 Hord)) |].
  split; [exact Hclear |]. split; [exact Hlvgl |]. split; [exact Hp |].
  pose proof (lvgl_after_enabled_prerequisites platform_ok (Some config_no_display)
                world_boot Hwf Hinit) as H.
  cbv zeta in H. destruct H as (_ & Hdisplay & _ & _ & Hwritten).
  split; [exact (proj2 (Hdisplay Hclear)) |].
  exact (proj2 (Hwritten Hp) Hlvgl).
Defined.

Lemma tab5duino_init_idempotent_witness :
  framework_initialized (g_tab5duino_instance world_initialized) = true
  /\ tab5duino_init platform_lvgl_fails (Some config_no_display) world_initialized
     = (ESP_OK, world_initialized, []).
Proof.
  assert (Hinit : framework_initialized (g_tab5duino_instance world_initialized) = true)
    by (vm_compute; reflexivity).
  split; [assumption |].
  exact (tab5duino_init_idempotent platform_lvgl_fails (Some config_no_display)
           world_initialized Hinit).
Defined.

Lemma tab5duino_deinit_reverse_and_zero_witness :
  let booted := tab5duino_init platform_ok None world_boot in
  instance_wf (g_tab5duino_instance world_boot)
  /\ framework_initialized (g_tab5duino_instance world_boot) = false
  /\ deinit_order (events (tab5duino_deinit (final booted)))
     = rev (init_order (events booted))
  /\ g_tab5duino_instance (final (tab5duino_deinit (final booted))) = instance_zero.
Proof.
  intros booted.
  assert (Hwf : instance_wf (g_tab5duino_instance world_boot)) by reflexivity.
  assert (Hinit : framework_initialized (g_tab5duino_instance world_boot) = false)
    by reflexivity.
  repeat (split; [assumption |]).
  destruct (tab5duino_deinit_reverse_and_zero (final booted))
    as (_ & Hrev & _ & Hzero & _).
  split; [| exact Hzero].
  exact (Hrev platform_ok None world_boot Hwf Hinit eq_refl).
Defined.

Lemma touchpad_read_cb_report_witness :
  Lvgl.touch_hal (Lvgl.context sample_handle) = Some 3
  /\ Lvgl.touch_hal_read_points lvgl_platform_touch = (ESP_OK, sample_points, 3)
  /\ 3 <= length sample_points
  /\ Lvgl.touchpad_read_cb lvgl_platform_touch (Some sample_handle) sample_data
     = Some {| Lvgl.point := (640%Z, 360%Z); Lvgl.state := Lvgl.LV_INDEV_STATE_PR |}.
Proof.
  assert (Hhal : Lvgl.touch_hal (Lvgl.context sample_handle) = Some 3) by reflexivity.
  assert (Hread : Lvgl.touch_hal_read_points lvgl_platform_touch
                  = (ESP_OK, sample_points, 3)) by reflexivity.
  assert (Hlen : 3 <= length sample_points) by (vm_compute; lia).
  repeat (split; [assumption |]).
  pose proof (touchpad_read_cb_report lvgl_platform_touch sample_handle 3 sample_data
                ESP_OK sample_points 3 Hhal Hread Hlen) as (_ & _ & Hfirst & _).
  refine (Hfirst 1 _ eq_refl _ eq_refl eq_refl _).
  - lia.
  - intros j pj Hj Hpj. assert (j = 0) as -> by lia.
    injection Hpj as <-. reflexivity.
Defined.

Lemma tab5duino_start_status_witness :
  tab5duino_start platform_ok world_boot = (ESP_ERR_INVALID_STATE, world_boot, [])
  /\ tab5duino_start platform_ok world_started = (ESP_OK, world_started, [])
  /\ result (tab5duino_start platform_no_task world_initialized) = ESP_ERR_NO_MEM
  /\ loop_task_handle
       (g_tab5duino_instance (final (tab5duino_start platform_no_task world_initialized)))
     = None.
Proof.
  split; [| split].
  - exact (proj1 (tab5duino_start_status platform_ok world_boot) eq_refl).
  - exact (proj1 (proj2 (tab5duino_start_status platform_ok world_started))
             eq_refl 11 eq_refl).
  - pose proof (proj2 (proj2 (tab5duino_start_status platform_no_task world_initialized))
                  eq_refl eq_refl eq_refl) as (Hr & _ & Hh).
    split; assumption.
Defined.

Lemma lvgl_tab5_start_guards_witness :
  Lvgl.lvgl_tab5_start lvgl_platform_ok None None
  = (ESP_ERR_INVALID_STATE, None, None, [])
  /\ Lvgl.lvgl_tab5_start lvgl_platform_ok
       (Some (Lvgl.calloc_handle_s Lvgl.LVGL_TAB5_CONFIG_DEFAULT)) None
     = (ESP_ERR_INVALID_STATE,
        Some (Lvgl.calloc_handle_s Lvgl.LVGL_TAB5_CONFIG_DEFAULT), None, [])
  /\ Lvgl.lvgl_tab5_start lvgl_platform_ok
       (Some (Lvgl.set_started true sample_handle)) (Some 9)
     = (ESP_OK, Some (Lvgl.set_started true sample_handle), Some 9, []).
Proof.
  split; [| split].
  - exact (proj1 (lvgl_tab5_start_guards lvgl_platform_ok None None) I).
  - exact (proj1 (lvgl_tab5_start_guards lvgl_platform_ok
                    (Some (Lvgl.calloc_handle_s Lvgl.LVGL_TAB5_CONFIG_DEFAULT)) None)
             eq_refl).
  - exact (proj2 (lvgl_tab5_start_guards lvgl_platform_ok
                    (Some (Lvgl.set_started true sample_handle)) (Some 9))
             _ eq_refl eq_refl eq_refl).
Defined.

Lemma tab5duino_deinit_subsystem_ok_witness :
  instance_wf (g_tab5duino_instance world_initialized)
  /\ TAB5_SUBSYSTEM_LVGL < TAB5_SUBSYSTEM_COUNT
  /\ result (tab5duino_deinit_subsystem TAB5_SUBSYSTEM_LVGL world_initialized) = ESP_OK
  /\ subsystem_states
       (g_tab5duino_instance
          (final (tab5duino_deinit_subsystem TAB5_SUBSYSTEM_LVGL world_initialized)))
     !! TAB5_SUBSYSTEM_LVGL = Some TAB5_SUBSYSTEM_UNINITIALIZED.
Proof.
  assert (Hwf : instance_wf (g_tab5duino_instance world_initialized))
    by (vm_compute; reflexivity).
  assert (Hs : TAB5_SUBSYSTEM_LVGL < TAB5_SUBSYSTEM_COUNT) by (vm_compute; lia).
  repeat (split; [assumption |]).
  pose proof (proj1 (tab5duino_deinit_subsystem_ok world_initialized
                       TAB5_SUBSYSTEM_LVGL Hwf) Hs) as (Hr & _ & Hst & _).
  split; assumption.
Defined.

Lemma tab5duino_get_subsystem_state_spec_witness :
  TAB5_SUBSYSTEM_COUNT <= 8
  /\ tab5duino_get_subsystem_state world_initialized 8 = TAB5_SUBSYSTEM_ERROR
  /\ TAB5_SUBSYSTEM_AUDIO < TAB5_SUBSYSTEM_COUNT
  /\ tab5duino_get_subsystem_state world_initialized TAB5_SUBSYSTEM_AUDIO
     = TAB5_SUBSYSTEM_UNINITIALIZED.
Proof.
  assert (Hge : TAB5_SUBSYSTEM_COUNT <= 8) by (vm_compute; lia).
  assert (Hlt : TAB5_SUBSYSTEM_AUDIO < TAB5_SUBSYSTEM_COUNT) by (vm_compute; lia).
  split; [assumption |]. split.
  - exact (proj1 (tab5duino_get_subsystem_state_spec world_initialized 8) Hge).
  - split; [assumption |].
    exact (proj2 (tab5duino_get_subsystem_state_spec world_initialized
                    TAB5_SUBSYSTEM_AUDIO) Hlt _ eq_refl).
Defined.

(** ** The controller: guards, invariants, round trips *)

(** The state table after a sequence keeps its length, and holds no
    INITIALIZING entry when it held none before. *)
Lemma plan_states_length (p : platform) (l : list nat)
    (states : list tab5_subsystem_state_t) :
  length (plan_states p l states) = length states.
Proof.
  unfold plan_states. revert states.
  induction l as [| s l IH]; intros states; [reflexivity |].
  cbn. now rewrite IH, length_insert.
Qed.

Lemma state_after_bringup_settled (p : platform) (s : nat) :
  state_after_bringup p s <> TAB5_SUBSYSTEM_INITIALIZING.
Proof. unfold state_after_bringup. now destruct (is_ok _). Qed.

Lemma Forall_insert_settled (l : list tab5_subsystem_state_t) (s : nat)
    (st : tab5_subsystem_state_t) :
  st <> TAB5_SUBSYSTEM_INITIALIZING ->
  Forall (fun x => x <> TAB5_SUBSYSTEM_INITIALIZING) l ->
  Forall (fun x => x <> TAB5_SUBSYSTEM_INITIALIZING) (<[s := st]> l).
Proof.
  intros Hst Hl. destruct (decide (s < length l)) as [Hlt | Hge].
  - now apply Forall_insert.
  - rewrite list_insert_ge by lia. exact Hl.
Qed.

Lemma plan_states_settled (p : platform) (l : list nat)
    (states : list tab5_subsystem_state_t) :
  Forall (fun x => x <> TAB5_SUBSYSTEM_INITIALIZING) states ->
  Forall (fun x => x <> TAB5_SUBSYSTEM_INITIALIZING) (plan_states p l states).
Proof.
  unfold plan_states. revert states.
  induction l as [| s l IH]; intros states Hs; [exact Hs |].
  cbn. apply IH. apply Forall_insert_settled; [apply state_after_bringup_settled | exact Hs].
Qed.

(** [tab5duino_init_subsystem] on a subsystem that is not UNINITIALIZED. *)
Lemma tab5duino_init_subsystem_skip (p : platform) (s : nat) (w : world)
    (st : tab5_subsystem_state_t) :
  s < TAB5_SUBSYSTEM_COUNT ->
  subsystem_states (g_tab5duino_instance w) !! s = Some st ->
  st <> TAB5_SUBSYSTEM_UNINITIALIZED ->
  tab5duino_init_subsystem p s w = (ESP_OK, w, []).
Proof.
  intros Hs Hst Hne. unfold tab5duino_init_subsystem.
  destruct (Nat.leb_spec TAB5_SUBSYSTEM_COUNT s) as [Hge | _]; [lia |].
  run. rewrite (list_lookup_total_correct _ _ _ Hst).
  now destruct st.
Qed.

(** X1. [tab5duino_init_subsystem] rejects an id at or above
    [TAB5_SUBSYSTEM_COUNT] with [ESP_ERR_INVALID_ARG], and answers [ESP_OK]
    for a subsystem that is not UNINITIALIZED, whatever its state: a
    subsystem in ERROR is not brought up again and stays in ERROR.  In both
    cases nothing changes and nothing is called. *)
Theorem tab5duino_init_subsystem_guards (p : platform) (s : tab5_subsystem_t)
    (w : world) :
  (TAB5_SUBSYSTEM_COUNT <= s ->
     tab5duino_init_subsystem p s w = (ESP_ERR_INVALID_ARG, w, []))
  /\ (s < TAB5_SUBSYSTEM_COUNT ->
      forall st, subsystem_states (g_tab5duino_instance w) !! s = Some st ->
      st <> TAB5_SUBSYSTEM_UNINITIALIZED ->
      tab5duino_init_subsystem p s w = (ESP_OK, w, [])
      /\ tab5duino_get_subsystem_state
           (final (tab5duino_init_subsystem p s w)) s = st).
Proof.
  split.
  - intros Hge. unfold tab5duino_init_subsystem.
    destruct (Nat.leb_spec TAB5_SUBSYSTEM_COUNT s) as [_ | Hlt]; [reflexivity | lia].
  - intros Hs st Hst Hne.
    rewrite (tab5duino_init_subsystem_skip p s w st Hs Hst Hne).
    split; [reflexivity |]. cbn. unfold tab5duino_get_subsystem_state.
    destruct (Nat.leb_spec TAB5_SUBSYSTEM_COUNT s) as [Hge | _]; [lia |].
    now apply list_lookup_total_correct.
Qed.

(** What [tab5duino_init_subsystem] leaves in the state table, whatever the
    subsystem and its state. *)
Lemma tab5duino_init_subsystem_settled (p : platform) (s : nat) (w : world) :
  states_settled (g_tab5duino_instance w) ->
  states_settled (g_tab5duino_instance (final (tab5duino_init_subsystem p s w))).
Proof.
  intros [Hwf Hall].
  destruct (Nat.leb_spec TAB5_SUBSYSTEM_COUNT s) as [Hge | Hlt].
  - unfold tab5duino_init_subsystem.
    destruct (Nat.leb_spec TAB5_SUBSYSTEM_COUNT s) as [_ | Hlt]; [now split | lia].
  - destruct (lookup_lt_is_Some_2 (subsystem_states (g_tab5duino_instance w)) s)
      as [st Hst]; [unfold instance_wf in Hwf; lia |].
    destruct (decide (st = TAB5_SUBSYSTEM_UNINITIALIZED)) as [-> | Hne].
    + destruct (tab5duino_init_subsystem_fresh p s w Hlt Hst) as (_ & Hg & _).
      rewrite Hg. split.
      * unfold instance_wf in *. cbn. now rewrite length_insert.
      * cbn. apply Forall_insert_settled;
          [apply state_after_bringup_settled | exact Hall].
    + rewrite (tab5duino_init_subsystem_skip p s w st Hlt Hst Hne). now split.
Qed.

Lemma tab5duino_deinit_subsystem_settled (s : nat) (w : world) :
  states_settled (g_tab5duino_instance w) ->
  states_settled (g_tab5duino_instance (final (tab5duino_deinit_subsystem s w))).
Proof.
  intros [Hwf Hall].
  destruct (Nat.leb_spec TAB5_SUBSYSTEM_COUNT s) as [Hge | Hlt].
  - unfold tab5duino_deinit_subsystem.
    destruct (Nat.leb_spec TAB5_SUBSYSTEM_COUNT s) as [_ | Hlt]; [now split | lia].
  - rewrite (tab5duino_deinit_subsystem_run s w Hlt).
    destruct (is_uninitialized _); [now split |]. split.
    + unfold instance_wf in *. cbn. now rewrite length_insert.
    + cbn. apply Forall_insert_settled; [discriminate | exact Hall].
Qed.

(** X2. Between calls of the interface the state table has its eight
    entries and none of them is INITIALIZING: [tab5duino_init],
    [tab5duino_start], [tab5duino_stop], [tab5duino_deinit],
    [tab5duino_init_subsystem] and [tab5duino_deinit_subsystem] keep it so,
    whatever the platform answers and whatever their arguments. *)
Theorem states_settled_preserved (p : platform) (cfg : option tab5duino_config_t)
    (s : tab5_subsystem_t) (w : world) :
  states_settled (g_tab5duino_instance w) ->
  states_settled (g_tab5duino_instance (final (tab5duino_init p cfg w)))
  /\ states_settled (g_tab5duino_instance (final (tab5duino_start p w)))
  /\ states_settled (g_tab5duino_instance (final (tab5duino_stop w)))
  /\ states_settled (g_tab5duino_instance (final (tab5duino_deinit w)))
  /\ states_settled (g_tab5duino_instance (final (tab5duino_init_subsystem p s w)))
  /\ states_settled (g_tab5duino_instance (final (tab5duino_deinit_subsystem s w))).
Proof.
  intros Hset. split; [| split; [| split; [| split; [| split]]]].
  - destruct (framework_initialized (g_tab5duino_instance w)) eqn:Hinit.
    + unfold tab5duino_init. run. now rewrite Hinit.
    + destruct Hset as [Hwf Hall].
      destruct (tab5duino_init_summary p cfg w Hwf Hinit) as (_ & Hg & _).
      rewrite Hg. split.
      * unfold instance_wf. cbn. rewrite plan_states_length. reflexivity.
      * cbn [subsystem_states]. apply plan_states_settled, Forall_replicate. discriminate.
  - unfold tab5duino_start. run.
    destruct (framework_initialized _); cbn; [| exact Hset].
    destruct (loop_task_handle _); cbn; [exact Hset |].
    destruct (xTaskCreatePinnedToCore p); cbn; [| exact Hset].
    destruct (on_framework_ready p); exact Hset.
  - unfold tab5duino_stop. run.
    destruct (loop_task_handle _); exact Hset.
  - destruct (tab5duino_deinit_run w) as (_ & _ & Hzero). rewrite Hzero.
    split; [reflexivity |]. cbn [subsystem_states instance_zero]. apply Forall_replicate. discriminate.
  - now apply tab5duino_init_subsystem_settled.
  - now apply tab5duino_deinit_subsystem_settled.
Qed.

(** A sequence that ends with [ESP_OK] attempted every subsystem of the
    plan, and each one succeeded. *)
Lemma plan_success (p : platform) (l : list nat) :
  plan_status p l = ESP_OK ->
  attempted p l = l /\ Forall (fun s => is_ok (bringup_status p s) = true) l.
Proof.
  induction l as [| s l IH]; [now split |].
  change (plan_status p (s :: l))
    with (if is_ok (bringup_status p s) then plan_status p l else bringup_status p s).
  change (attempted p (s :: l))
    with (if is_ok (bringup_status p s) then s :: attempted p l else [s]).
  destruct (is_ok (bringup_status p s)) eqn:Hok.
  - intros Hl. destruct (IH Hl) as [-> Hall]. split; [reflexivity |].
    now constructor.
  - intros Hs. unfold is_ok in Hok. apply Z.eqb_neq in Hok. contradiction.
Qed.

(** X3. On an instance that is not initialized, [tab5duino_init] returns
    [ESP_OK] exactly when it leaves the initialized flag set.  Whether it
    succeeds or not it stores the configuration (the default one for a null
    argument) and the boot time.  When it succeeds, it attempted the
    subsystems of the plan, in order, and each subsystem is READY if the
    plan holds it and UNINITIALIZED if not (audio without its flag, USB,
    WiFi). *)
Theorem tab5duino_init_success (p : platform) (cfg : option tab5duino_config_t)
    (w : world) :
  instance_wf (g_tab5duino_instance w) ->
  framework_initialized (g_tab5duino_instance w) = false ->
  let c := default TAB5DUINO_CONFIG_DEFAULT cfg in
  let r := tab5duino_init p cfg w in
  (result r = ESP_OK <-> framework_initialized (g_tab5duino_instance (final r)) = true)
  /\ config (g_tab5duino_instance (final r)) = c
  /\ tab5duino_get_boot_time_us (final r) = esp_timer_get_time p
  /\ (result r = ESP_OK ->
      init_order (events r) = plan c
      /\ forall s, s < TAB5_SUBSYSTEM_COUNT ->
           tab5duino_get_subsystem_state (final r) s
           = if bool_decide (s ∈ plan c)
             then TAB5_SUBSYSTEM_READY else TAB5_SUBSYSTEM_UNINITIALIZED).
Proof.
  intros Hwf Hinit c r.
  destruct (tab5duino_init_summary p cfg w Hwf Hinit) as (Hr & Hg & Ht & _).
  fold c r in Hr, Hg, Ht. unfold tab5duino_get_boot_time_us.
  rewrite Hr, Hg. cbn [framework_initialized config boot_time_us].
  split; [| split; [reflexivity | split; [reflexivity |]]].
  - unfold is_ok. now rewrite Z.eqb_eq.
  - intros Hok. destruct (plan_success p (plan c) Hok) as [Hatt Hall].
    split.
    + now rewrite init_order_transitions, Ht, init_order_plan.
    + intros s Hs. unfold tab5duino_get_subsystem_state.
      destruct (Nat.leb_spec TAB5_SUBSYSTEM_COUNT s) as [Hge | _]; [lia |].
      rewrite Hg, Hatt. cbn [subsystem_states].
      destruct (bool_decide_reflect (s ∈ plan c)) as [Hin | Hnotin].
      * rewrite plan_states_member by (rewrite ?length_replicate; assumption).
        unfold state_after_bringup. rewrite Forall_forall in Hall.
        now rewrite (Hall s Hin).
      * rewrite plan_states_other by assumption.
        now apply lookup_total_replicate_2.
Qed.

(** The turns of [loop_task] call [loop()] and leave the state alone. *)
Lemma loop_task_turns_run (n : nat) (w : world) :
  loop_task_turns n w = (tt, w, replicate n EvLoop).
Proof.
  induction n as [| n IH]; [reflexivity |].
  cbn [loop_task_turns]. run. now rewrite IH.
Qed.

(** The run of the first [n] statements of [loop_task]: [setup()] is called
    once, first, and [user_setup_called] is set when it has returned. *)
Lemma loop_task_run (n : nat) (w : world) :
  loop_task n w
  = (tt,
     (if 2 <=? n
      then {| g_tab5duino_instance :=
                set_user_setup_called true (g_tab5duino_instance w);
              lvgl_handle := lvgl_handle w;
              lvgl_tick_timer := lvgl_tick_timer w |}
      else w),
     match n with
     | 0 => []
     | S _ => EvSetup :: replicate (n - 2) EvLoop
     end).
Proof.
  destruct n as [| [| n]]; [reflexivity | reflexivity |].
  unfold loop_task. run. rewrite loop_task_turns_run. cbn.
  now rewrite Nat.sub_0_r.
Qed.

(** X4. On an initialized framework without a main task,
    [tab5duino_start] creates the task with the configured stack, priority
    and core, stores its handle and calls [on_framework_ready] when bound.
    The task calls [setup()] once, first.  [tab5duino_stop], called when
    the task has run its first [n] statements, deletes that very task and
    gives back the state from before the start, but for
    [user_setup_called]: the task has set it once it is past [setup()], and
    [tab5duino_stop] does not clear it.  Whatever else has become of the
    state since the start, [tab5duino_stop] deletes the task, clears the
    handle and touches nothing more.  [tab5duino_stop] without a task does
    nothing. *)
Theorem tab5duino_start_stop_round_trip (p : platform) (w : world) (task n : nat) :
  framework_initialized (g_tab5duino_instance w) = true ->
  loop_task_handle (g_tab5duino_instance w) = None ->
  xTaskCreatePinnedToCore p = Some task ->
  let i := g_tab5duino_instance w in
  let r := tab5duino_start p w in
  let t := loop_task n (final r) in
  result r = ESP_OK
  /\ loop_task_handle (g_tab5duino_instance (final r)) = Some task
  /\ events r
     = EvTaskCreate (loop_stack_size (config i)) (loop_task_priority (config i))
                    (loop_task_core (config i))
       :: (if on_framework_ready p then [EvOnFrameworkReady] else [])
  /\ events t = match n with
                | 0 => []
                | S _ => EvSetup :: replicate (n - 2) EvLoop
                end
  /\ (n < 2 -> tab5duino_stop (final t) = (ESP_OK, w, [EvTaskDelete task]))
  /\ (2 <= n ->
      tab5duino_stop (final t)
      = (ESP_OK,
         {| g_tab5duino_instance := set_user_setup_called true i;
            lvgl_handle := lvgl_handle w;
            lvgl_tick_timer := lvgl_tick_timer w |},
         [EvTaskDelete task]))
  /\ (forall w',
        loop_task_handle (g_tab5duino_instance w') = Some task ->
        tab5duino_stop w'
        = (ESP_OK,
           {| g_tab5duino_instance :=
                set_loop_task_handle None (g_tab5duino_instance w');
              lvgl_handle := lvgl_handle w';
              lvgl_tick_timer := lvgl_tick_timer w' |},
           [EvTaskDelete task]))
  /\ tab5duino_stop w = (ESP_OK, w, []).
Proof.
  intros Hinit Hnull Htask i r t. subst i r t.
  assert (Hframe : forall w',
            loop_task_handle (g_tab5duino_instance w') = Some task ->
            tab5duino_stop w'
            = (ESP_OK,
               {| g_tab5duino_instance :=
                    set_loop_task_handle None (g_tab5duino_instance w');
                  lvgl_handle := lvgl_handle w';
                  lvgl_tick_timer := lvgl_tick_timer w' |},
               [EvTaskDelete task])).
  { intros w' Hw'. unfold tab5duino_stop. run. now rewrite Hw'. }
  rewrite loop_task_run.
  destruct w as [[c l lt fi us bt] h t]. cbn in Hinit, Hnull. subst fi lt.
  unfold tab5duino_start, tab5duino_stop. run. rewrite Htask. cbn.
  destruct (on_framework_ready p); cbn;
    (split; [reflexivity |]; split; [reflexivity |]; split; [reflexivity |];
     split; [reflexivity |];
     split; [| split; [| split; [exact Hframe | reflexivity]]]; intros Hn;
     destruct n as [| [| n]]; (lia || reflexivity)).
Qed.

(** X5. [tab5duino_is_ready]: when it holds, [tab5duino_init] and
    [tab5duino_start] are calls without effect; it does not hold after
    [tab5duino_stop] or [tab5duino_deinit].  From a state without a main
    task and with [user_setup_called] clear, it does not hold after
    [tab5duino_init], nor after a [tab5duino_start] that failed; after a
    [tab5duino_start] that succeeded it holds exactly from the moment the
    task has set [user_setup_called], that is when [setup()] has returned.
    As [tab5duino_stop] leaves that flag set, after a stop and a second
    start it holds at once, before the new task has run [setup()]. *)
Theorem tab5duino_is_ready_needs_setup (p : platform)
    (cfg : option tab5duino_config_t) (w : world) :
  (tab5duino_is_ready w = true ->
     tab5duino_init p cfg w = (ESP_OK, w, [])
     /\ tab5duino_start p w = (ESP_OK, w, []))
  /\ tab5duino_is_ready (final (tab5duino_stop w)) = false
  /\ tab5duino_is_ready (final (tab5duino_deinit w)) = false
  /\ (instance_wf (g_tab5duino_instance w) ->
      user_setup_called (g_tab5duino_instance w) = false ->
      loop_task_handle (g_tab5duino_instance w) = None ->
      let i := tab5duino_init p cfg w in
      let s := tab5duino_start p (final i) in
      tab5duino_is_ready (final i) = false
      /\ (result s <> ESP_OK -> tab5duino_is_ready (final s) = false)
      /\ (result s = ESP_OK ->
          forall n, tab5duino_is_ready (final (loop_task n (final s))) = (2 <=? n)))
  /\ (framework_initialized (g_tab5duino_instance w) = true ->
      user_setup_called (g_tab5duino_instance w) = true ->
      let s := tab5duino_start p (final (tab5duino_stop w)) in
      user_setup_called (g_tab5duino_instance (final (tab5duino_stop w))) = true
      /\ tab5duino_is_ready (final s) = is_ok (result s)).
Proof.
  assert (Hinit : forall w0, instance_wf (g_tab5duino_instance w0) ->
            user_setup_called (g_tab5duino_instance (final (tab5duino_init p cfg w0)))
            = user_setup_called (g_tab5duino_instance w0)
            /\ loop_task_handle (g_tab5duino_instance (final (tab5duino_init p cfg w0)))
               = loop_task_handle (g_tab5duino_instance w0)).
  { intros w0 Hwf.
    destruct (framework_initialized (g_tab5duino_instance w0)) eqn:Hfi.
    - unfold tab5duino_init. run. now rewrite Hfi.
    - destruct (tab5duino_init_summary p cfg w0 Hwf Hfi) as (_ & Hg & _).
      now rewrite Hg. }
  split; [| split; [| split; [| split]]].
  - unfold tab5duino_is_ready.
    intros Hready. apply andb_true_iff in Hready as [Hready Hlt].
    apply andb_true_iff in Hready as [Hfi _].
    unfold tab5duino_init, tab5duino_start. run. rewrite Hfi. cbn.
    destruct (loop_task_handle (g_tab5duino_instance w)); [auto | discriminate].
  - unfold tab5duino_is_ready, tab5duino_stop. run.
    destruct (loop_task_handle (g_tab5duino_instance w)) eqn:Hlt; cbn;
      [| rewrite Hlt]; now rewrite andb_false_r.
  - destruct (tab5duino_deinit_run w) as (_ & _ & Hzero).
    unfold tab5duino_is_ready. now rewrite Hzero.
  - intros Hwf Hus Hlt i s. subst i s.
    destruct (Hinit w Hwf) as [Hus' Hlt']. rewrite Hus in Hus'. rewrite Hlt in Hlt'.
    destruct (tab5duino_init p cfg w) as [[ri wi] ei]. cbn in Hus', Hlt' |- *.
    destruct wi as [[c l lt fi us bt] h t]. cbn in Hus', Hlt'. subst us lt.
    split; [unfold tab5duino_is_ready; cbn; now rewrite andb_false_r |].
    unfold tab5duino_start. run.
    destruct fi; cbn; [| split; [reflexivity | intros H; discriminate H]].
    destruct (xTaskCreatePinnedToCore p) as [task |]; cbn;
      [| split; [reflexivity | intros H; discriminate H]].
    split.
    + intros H. destruct (on_framework_ready p); now contradict H.
    + intros _ n. rewrite loop_task_run.
      destruct (on_framework_ready p); cbn;
        destruct n as [| [| n]]; reflexivity.
  - intros Hfi Hus s. subst s.
    destruct w as [[c l lt fi us bt] h t]. cbn in Hfi, Hus. subst fi us.
    unfold tab5duino_is_ready, tab5duino_start, tab5duino_stop. run.
    destruct lt as [task0 |]; cbn;
      (split; [reflexivity |]);
      (destruct (xTaskCreatePinnedToCore p) as [task |]; cbn;
       [destruct (on_framework_ready p) |]; reflexivity).
Qed.

(** [tab5duino_init] sets the flag exactly when it returns [ESP_OK], and
    leaves the task handle as it was. *)
Lemma tab5duino_init_flag (p : platform) (cfg : option tab5duino_config_t)
    (w : world) :
  instance_wf (g_tab5duino_instance w) ->
  let r := tab5duino_init p cfg w in
  framework_initialized (g_tab5duino_instance (final r)) = is_ok (result r)
  /\ loop_task_handle (g_tab5duino_instance (final r))
     = loop_task_handle (g_tab5duino_instance w).
Proof.
  intros Hwf r. subst r.
  destruct (framework_initialized (g_tab5duino_instance w)) eqn:Hfi.
  - unfold tab5duino_init. run. rewrite Hfi. cbn. auto.
  - destruct (tab5duino_init_summary p cfg w Hwf Hfi) as (Hr & Hg & _).
    rewrite Hr, Hg. auto.
Qed.

(** X6. [Tab5duinoFramework]: when the object's flag agrees with the
    framework's, [begin] keeps them in agreement and returns [ESP_OK]
    exactly when it leaves the flag set.  After a [begin] that failed,
    [end] does nothing at all: what the failed init left (the subsystems
    brought up, the one in ERROR) stays.  After a [begin] that succeeded,
    [end] zeroes the instance and clears the flag. *)
Theorem Tab5duinoFramework_begin_end (p : platform)
    (cfg : option tab5duino_config_t) (w : world) (this : Tab5duinoFramework) :
  instance_wf (g_tab5duino_instance w) ->
  initialized this = framework_initialized (g_tab5duino_instance w) ->
  let b := Tab5duinoFramework_begin p cfg (w, this) in
  let e := Tab5duinoFramework_end (final b) in
  initialized (snd (final b))
    = framework_initialized (g_tab5duino_instance (fst (final b)))
  /\ (result b = ESP_OK <-> initialized (snd (final b)) = true)
  /\ (result b <> ESP_OK -> e = (tt, final b, []))
  /\ (result b = ESP_OK ->
      g_tab5duino_instance (fst (final e)) = instance_zero
      /\ initialized (snd (final e)) = false).
Proof.
  intros Hwf Hflag b e. subst b e.
  destruct (tab5duino_init_flag p cfg w Hwf) as [Hfi _].
  unfold Tab5duinoFramework_begin, Tab5duinoFramework_end, call_c, get_this, put_this.
  run.
  destruct (tab5duino_init p cfg w) as [[ret w1] e1] eqn:Hrun. cbn in Hfi |- *.
  unfold is_ok in *.
  destruct (Z.eqb_spec ret ESP_OK) as [-> | Hne]; cbn.
  - rewrite Hfi. split; [reflexivity |]. split; [tauto |].
    split; [congruence |]. intros _.
    destruct (tab5duino_deinit_run w1) as (_ & _ & Hzero).
    destruct (tab5duino_deinit w1) as [[u w2] e2]. cbn in Hzero |- *. auto.
  - assert (Hthis : initialized this = false).
    { destruct (framework_initialized (g_tab5duino_instance w)) eqn:Hw;
        [| exact Hflag].
      exfalso. apply Hne. revert Hrun. unfold tab5duino_init. run.
      rewrite Hw. congruence. }
    rewrite Hthis, Hfi. split; [reflexivity |].
    split; [split; [contradiction | discriminate] |].
    split; [| contradiction]. intros _. now destruct this.
Qed.

(** X7. [main] returns 0 or -1; 0 exactly when [tab5duino_init] with the
    default configuration returns [ESP_OK] and the main task can be created,
    and then the framework is initialized and holds the task.  When it
    returns -1 no task is held, and when the init fails [main] does nothing
    after it: [tab5duino_start] is not called. *)
Theorem main_status (p : platform) (w : world) :
  instance_wf (g_tab5duino_instance w) ->
  loop_task_handle (g_tab5duino_instance w) = None ->
  let r := main p w in
  let init := tab5duino_init p None w in
  (result r = 0%Z \/ result r = (-1)%Z)
  /\ (result r = 0%Z <->
      result init = ESP_OK /\ xTaskCreatePinnedToCore p <> None)
  /\ (result r = 0%Z ->
      framework_initialized (g_tab5duino_instance (final r)) = true
      /\ loop_task_handle (g_tab5duino_instance (final r)) = xTaskCreatePinnedToCore p)
  /\ (result r = (-1)%Z ->
      loop_task_handle (g_tab5duino_instance (final r)) = None)
  /\ (result init <> ESP_OK -> final r = final init /\ events r = events init).
Proof.
  intros Hwf Hnull r init. subst r init.
  destruct (tab5duino_init_flag p None w Hwf) as [Hfi Hlt].
  unfold main. run.
  destruct (tab5duino_init p None w) as [[ret w1] e1]. cbn in Hfi, Hlt |- *.
  rewrite Hnull in Hlt. unfold is_ok in *.
  destruct (Z.eqb_spec ret ESP_OK) as [-> | Hne]; cbn.
  - unfold tab5duino_start. run. rewrite Hfi, Hlt. cbn.
    destruct (xTaskCreatePinnedToCore p) as [task |]; cbn.
    + destruct (on_framework_ready p); cbn;
        (split; [now left |]); (split; [split; [split; [reflexivity | discriminate] | reflexivity] |]);
        (split; [intros _; split; [exact Hfi | reflexivity] |]);
        (split; [discriminate | intros Hc; now contradiction Hc]).
    + split; [now right |].
      split; [split; [discriminate | intros [_ Hc]; now contradiction Hc] |].
      split; [discriminate |].
      split; [intros _; exact Hlt | intros Hc; now contradiction Hc].
  - rewrite app_nil_r.
    split; [now right |].
    split; [split; [discriminate | intros [Hc _]; contradiction] |].
    split; [discriminate |].
    split; [intros _; exact Hlt | auto].
Qed.

(** ** The framework's own calls: made once, and paired *)

#[local] Arguments framework_calls : simpl never.

Lemma framework_calls_app (a b : list event) :
  framework_calls (a ++ b) = framework_calls a ++ framework_calls b.
Proof. unfold framework_calls. apply List.filter_app. Qed.

Lemma framework_calls_cons (e : event) (l : list event) :
  framework_calls (e :: l)
  = if is_framework_call e then e :: framework_calls l else framework_calls l.
Proof. reflexivity. Qed.

Lemma lvgl_tab5_init_framework_calls (q : Lvgl.lvgl_platform)
    (cfg : option Lvgl.lvgl_tab5_config_t) (out : bool) (t : option nat) :
  framework_calls (events (Lvgl.lvgl_tab5_init q cfg out t)) = [].
Proof.
  destruct q. unfold Lvgl.lvgl_tab5_init, Lvgl.cleanup, Lvgl.lvgl_tab5_deinit,
    Lvgl.lvgl_tab5_stop. run. repeat branch; auto.
Qed.

Lemma lvgl_tab5_start_framework_calls (q : Lvgl.lvgl_platform)
    (handle : option Lvgl.lvgl_tab5_handle_s) (t : option nat) :
  framework_calls (events (Lvgl.lvgl_tab5_start q handle t)) = [].
Proof.
  destruct q. unfold Lvgl.lvgl_tab5_start. run. repeat branch; auto.
Qed.

Lemma subsystem_bringup_framework_calls (p : platform) (s : nat) (w : world) :
  framework_calls (events (subsystem_bringup p s w)) = [].
Proof.
  unfold subsystem_bringup.
  do 7 (destruct s as [| s]; [reflexivity |]).
  destruct s as [| s]; [| reflexivity].
  run.
  pose proof (lvgl_tab5_init_framework_calls (lvgl p)
                (Some Lvgl.LVGL_TAB5_CONFIG_DEFAULT) true (lvgl_tick_timer w)) as Hi.
  destruct (Lvgl.lvgl_tab5_init _ _ _ _) as [[[r h] t] e]. cbn in Hi |- *.
  destruct (is_ok r); cbn; [| now rewrite app_nil_r].
  pose proof (lvgl_tab5_start_framework_calls (lvgl p) h t) as Hs.
  destruct (Lvgl.lvgl_tab5_start _ h t) as [[[r1 h1] t1] e1]. cbn in Hs |- *.
  destruct (is_ok r1 && on_lvgl_ready p); cbn;
    rewrite !framework_calls_app, Hi, Hs; reflexivity.
Qed.

Lemma tab5duino_init_subsystem_framework_calls (p : platform) (s : nat) (w : world) :
  framework_calls (events (tab5duino_init_subsystem p s w)) = [].
Proof.
  unfold tab5duino_init_subsystem.
  destruct (TAB5_SUBSYSTEM_COUNT <=? s); [reflexivity |]. run.
  destruct (is_uninitialized _); cbn; [| reflexivity].
  match goal with |- context [subsystem_bringup p s ?w1] =>
    pose proof (subsystem_bringup_framework_calls p s w1) as Hb;
    destruct (subsystem_bringup p s w1) as [[r w2] e]
  end.
  cbn in Hb |- *.
  destruct (is_ok r); cbn; [| destruct (on_subsystem_error p); cbn];
    rewrite framework_calls_cons, !framework_calls_app, Hb; reflexivity.
Qed.

Lemma run_steps_framework_calls (p : platform)
    (steps : list ((tab5duino_config_t -> bool) * nat)) (w : world) :
  framework_calls (events (run_steps p steps w)) = [].
Proof.
  revert w. induction steps as [| [flag s] rest IH]; intros w; [reflexivity |].
  cbn [run_steps]. unfold init_if. run.
  destruct (flag (config (g_tab5duino_instance w))); cbn.
  - pose proof (tab5duino_init_subsystem_framework_calls p s w) as Hs.
    destruct (tab5duino_init_subsystem p s w) as [[r w1] e]. cbn in Hs |- *.
    destruct (is_ok r); cbn; [| now rewrite app_nil_r].
    specialize (IH w1). destruct (run_steps p rest w1) as [[r2 w2] e2].
    cbn in IH |- *. now rewrite framework_calls_app, Hs, IH.
  - specialize (IH w). now destruct (run_steps p rest w) as [[r2 w2] e2].
Qed.

(** The teardown loop makes transitions only. *)
Lemma deinit_loop_framework_calls (w : world) :
  framework_calls (events (deinit_loop TAB5_SUBSYSTEM_COUNT w)) = [].
Proof.
  rewrite deinit_loop_events by lia.
  induction (teardown_order _ _) as [| s l IH]; [reflexivity |].
  cbn [map]. now rewrite framework_calls_cons.
Qed.

(** The teardown loop leaves the configuration alone. *)
Lemma deinit_loop_config (n : nat) (w : world) :
  n <= TAB5_SUBSYSTEM_COUNT ->
  config (g_tab5duino_instance (final (deinit_loop n w)))
  = config (g_tab5duino_instance w).
Proof.
  revert w. induction n as [| n IH]; intros w Hn; [reflexivity |].
  change (deinit_loop (S n) w)
    with ((st ← get_state n;
           when (negb (is_uninitialized st)) (tab5duino_deinit_subsystem n;; mret tt);;
           deinit_loop n) w).
  run.
  pose proof (tab5duino_deinit_subsystem_run n w) as Hrun.
  destruct (is_uninitialized (subsystem_states (g_tab5duino_instance w) !!! n));
    cbn; [| rewrite Hrun by lia; cbn].
  - specialize (IH w). destruct (deinit_loop n w) as [[u w'] e].
    cbn in IH |- *. apply IH. lia.
  - match goal with |- context [deinit_loop n ?w1] =>
      specialize (IH w1); destruct (deinit_loop n w1) as [[u w'] e]
    end.
    cbn in IH |- *. rewrite IH by lia. reflexivity.
Qed.

(** X8. Over init, start and deinit in a row, the calls the framework
    makes itself are made once and in pairs: the USB serial driver is
    installed by the init and uninstalled by the deinit under the same flag,
    even when the init fails; [on_framework_init] is called once, and only
    after a successful init; the main task is created once, after a
    successful init only, [on_framework_ready] follows when the creation
    succeeded, and the deinit deletes the task that the start created. *)
Theorem framework_calls_once_and_paired (p : platform)
    (cfg : option tab5duino_config_t) (w : world) :
  instance_wf (g_tab5duino_instance w) ->
  framework_initialized (g_tab5duino_instance w) = false ->
  loop_task_handle (g_tab5duino_instance w) = None ->
  let c := default TAB5DUINO_CONFIG_DEFAULT cfg in
  let i := tab5duino_init p cfg w in
  let s := tab5duino_start p (final i) in
  let d := tab5duino_deinit (final s) in
  framework_calls (events i)
  = (if enable_usb_serial c then [EvUsbSerialInstall] else [])
    ++ (if is_ok (result i) && on_framework_init p then [EvOnFrameworkInit] else [])
  /\ framework_calls (events s)
     = (if is_ok (result i)
        then EvTaskCreate (loop_stack_size c) (loop_task_priority c) (loop_task_core c)
             :: (if is_ok (result s) && on_framework_ready p
                 then [EvOnFrameworkReady] else [])
        else [])
  /\ framework_calls (events d)
     = (if is_ok (result s)
        then match xTaskCreatePinnedToCore p with
             | Some task => [EvTaskDelete task]
             | None => []
             end
        else [])
       ++ (if enable_usb_serial c then [EvUsbSerialUninstall] else []).
Proof.
  intros Hwf Hinit Hnull. cbv zeta.
  destruct (tab5duino_init_summary p cfg w Hwf Hinit) as (Hr & Hg & _).
  assert (Hcalls : framework_calls (events (tab5duino_init p cfg w))
                   = (if enable_usb_serial (default TAB5DUINO_CONFIG_DEFAULT cfg)
                      then [EvUsbSerialInstall] else [])
                     ++ (if is_ok (result (tab5duino_init p cfg w)) && on_framework_init p
                         then [EvOnFrameworkInit] else [])).
  { clear Hr Hg. unfold tab5duino_init. run. rewrite Hinit. cbn.
    destruct (enable_usb_serial (default TAB5DUINO_CONFIG_DEFAULT cfg)); cbn;
      match goal with |- context [init_hardware_subsystems p ?w0] =>
        rewrite (init_hardware_subsystems_steps p w0);
        pose proof (run_steps_framework_calls p bringup_steps w0) as Hf;
        destruct (run_steps p bringup_steps w0) as [[r w1] e]
      end;
      cbn in Hf |- *;
      (destruct (is_ok r) eqn:Hok; cbn;
       [destruct (on_framework_init p); cbn | rewrite Hok; cbn]);
      rewrite ?framework_calls_cons, ?framework_calls_app, ?Hf; cbn;
      rewrite ?framework_calls_cons, ?framework_calls_app, ?Hf; reflexivity. }
  split; [exact Hcalls |]. clear Hcalls.
  destruct (tab5duino_init p cfg w) as [[ri wi] ei]. cbn in Hr, Hg |- *.
  subst ri. destruct wi as [gi hi ti]. cbn in Hg. subst gi.
  unfold tab5duino_start, tab5duino_deinit, tab5duino_stop,
    deinit_hardware_subsystems. run. rewrite Hnull.
  destruct (is_ok (plan_status p (plan (default TAB5DUINO_CONFIG_DEFAULT cfg)))); cbn.
  - destruct (xTaskCreatePinnedToCore p) as [task |]; cbn;
      [destruct (on_framework_ready p); cbn |];
      (split; [reflexivity |]);
      match goal with |- context [deinit_loop _ ?w1] =>
        pose proof (deinit_loop_framework_calls w1) as Hl;
        pose proof (deinit_loop_config TAB5_SUBSYSTEM_COUNT w1 (le_n _)) as Hc;
        destruct (deinit_loop TAB5_SUBSYSTEM_COUNT w1) as [[u w2] e]
      end;
      cbn in Hl, Hc |- *; rewrite Hc;
      destruct (enable_usb_serial (default TAB5DUINO_CONFIG_DEFAULT cfg)); cbn;
      rewrite ?framework_calls_cons, ?framework_calls_app, ?Hl; cbn;
      rewrite ?app_nil_r; reflexivity.
  - split; [reflexivity |].
    match goal with |- context [deinit_loop _ ?w1] =>
      pose proof (deinit_loop_framework_calls w1) as Hl;
      pose proof (deinit_loop_config TAB5_SUBSYSTEM_COUNT w1 (le_n _)) as Hc;
      destruct (deinit_loop TAB5_SUBSYSTEM_COUNT w1) as [[u w2] e]
    end.
    cbn in Hl, Hc |- *. rewrite Hc.
    destruct (enable_usb_serial (default TAB5DUINO_CONFIG_DEFAULT cfg)); cbn;
      rewrite ?framework_calls_cons, ?framework_calls_app, ?Hl; cbn;
      rewrite ?app_nil_r; reflexivity.
Qed.

(** ** LVGL integration: what init, start, stop and deinit leave behind *)

(** X9. When [lvgl_tab5_init] gives back a handle, the status is [ESP_OK]
    and the handle holds the configuration asked (the default one for a
    null argument), is initialized and not started, has no task, and has a
    mutex, a first buffer, a draw buffer, a display and an input device;
    it has a second buffer exactly when double buffering is configured.  The
    buffers were asked from PSRAM exactly when the configuration wants it
    and PSRAM is up.  The calls made are [lv_init], the two HAL inits and
    the creation of the tick timer, in this order. *)
Theorem lvgl_tab5_init_success (q : Lvgl.lvgl_platform)
    (cfg : option Lvgl.lvgl_tab5_config_t) (t : option nat)
    (ret : esp_err_t) (h : Lvgl.lvgl_tab5_handle_s) :
  result (Lvgl.lvgl_tab5_init q cfg true t) = (ret, Some h) ->
  let c := default Lvgl.LVGL_TAB5_CONFIG_DEFAULT cfg in
  let in_psram := Lvgl.use_psram_buffers c && Lvgl.esp_psram_is_initialized q in
  ret = ESP_OK
  /\ Lvgl.config h = c
  /\ Lvgl.initialized (Lvgl.context h) = true
  /\ Lvgl.started h = false
  /\ Lvgl.lvgl_task (Lvgl.context h) = None
  /\ non_null (Lvgl.lvgl_mutex (Lvgl.context h)) = true
  /\ Lvgl.buffer1 (Lvgl.context h) = Lvgl.heap_caps_malloc_buffer1 q in_psram
  /\ non_null (Lvgl.buffer1 (Lvgl.context h)) = true
  /\ Lvgl.buffer2 (Lvgl.context h)
     = (if Lvgl.enable_double_buffer c
        then Lvgl.heap_caps_malloc_buffer2 q in_psram else None)
  /\ (Lvgl.enable_double_buffer c = true ->
      non_null (Lvgl.buffer2 (Lvgl.context h)) = true)
  /\ non_null (Lvgl.draw_buffer (Lvgl.context h)) = true
  /\ non_null (Lvgl.display (Lvgl.context h)) = true
  /\ non_null (Lvgl.touchpad (Lvgl.context h)) = true
  /\ Lvgl.display_hal (Lvgl.context h) = snd (Lvgl.display_hal_init q)
  /\ Lvgl.touch_hal (Lvgl.context h) = snd (Lvgl.touch_hal_init q)
  /\ final (Lvgl.lvgl_tab5_init q cfg true t) = snd (Lvgl.esp_timer_create q)
  /\ events (Lvgl.lvgl_tab5_init q cfg true t)
     = [EvLvInit; EvDisplayHalInit; EvTouchHalInit; EvTimerCreate].
Proof.
  intros Hrun c in_psram. subst in_psram c. revert Hrun.
  destruct q. unfold Lvgl.lvgl_tab5_init, Lvgl.cleanup, Lvgl.lvgl_tab5_deinit,
    Lvgl.lvgl_tab5_stop. run.
  repeat branch; intros Hrun; try discriminate Hrun.
  all: injection Hrun as <- <-; cbn in *.
  all: repeat match goal with
       | H : negb _ = false |- _ => apply negb_false_iff in H
       | H : _ || _ = false |- _ => apply orb_false_iff in H; destruct H
       | H : ?b = true, H' : ?b && _ = false |- _ => rewrite H in H'; cbn in H'
       end.
  all: unfold is_ok in *; repeat split; auto; try discriminate.
Qed.

(** X10. [lvgl_tab5_init] without an out-pointer, or when the handle
    cannot be allocated, returns at once ([ESP_ERR_INVALID_ARG],
    [ESP_ERR_NO_MEM]) and touches nothing.  Any later failure gives a status
    other than [ESP_OK] and no handle, and unwinds: the tick timer global
    is null afterwards; a HAL is deinitialized once if its init was
    called and handed out a handle, and not otherwise; the tick timer is
    deleted once if there is one (the one just created, or else one left
    by an earlier run); and nothing is stopped, as nothing was started. *)
Theorem lvgl_tab5_init_failure (q : Lvgl.lvgl_platform)
    (cfg : option Lvgl.lvgl_tab5_config_t) (t : option nat) :
  Lvgl.lvgl_tab5_init q cfg false t = (ESP_ERR_INVALID_ARG, None, t, [])
  /\ (Lvgl.calloc_handle q = false ->
      Lvgl.lvgl_tab5_init q cfg true t = (ESP_ERR_NO_MEM, None, t, []))
  /\ (Lvgl.calloc_handle q = true ->
      forall ret, result (Lvgl.lvgl_tab5_init q cfg true t) = (ret, None) ->
      let r := Lvgl.lvgl_tab5_init q cfg true t in
      ret <> ESP_OK
      /\ final r = None
      /\ calls EvDisplayHalDeinit (events r)
         = Nat.b2n ((0 <? calls EvDisplayHalInit (events r))
                    && non_null (snd (Lvgl.display_hal_init q)))
      /\ calls EvTouchHalDeinit (events r)
         = Nat.b2n ((0 <? calls EvTouchHalInit (events r))
                    && non_null (snd (Lvgl.touch_hal_init q)))
      /\ (calls EvTimerCreate (events r) = 0 ->
          calls EvTimerDelete (events r) = Nat.b2n (non_null t))
      /\ (calls EvTimerCreate (events r) <> 0 ->
          calls EvTimerDelete (events r)
          = Nat.b2n (non_null (snd (Lvgl.esp_timer_create q))))
      /\ calls EvDisplayHalStop (events r) = 0
      /\ calls EvTouchHalStop (events r) = 0
      /\ calls EvTimerStop (events r) = 0).
Proof.
  split; [reflexivity |]. split.
  - intros Hc. unfold Lvgl.lvgl_tab5_init. now rewrite Hc.
  - intros Hc ret Hrun. cbv zeta.
    remember (Lvgl.lvgl_tab5_init q cfg true t) as r eqn:Hr.
    revert Hrun. pattern r.
    match goal with |- ?P r => remember P as Post eqn:HPost end.
    revert Hr. destruct q. cbn in Hc. subst calloc_handle.
    unfold Lvgl.lvgl_tab5_init, Lvgl.cleanup, Lvgl.lvgl_tab5_deinit,
      Lvgl.lvgl_tab5_stop. run.
    destruct (Lvgl.enable_double_buffer (default Lvgl.LVGL_TAB5_CONFIG_DEFAULT cfg));
      cbn.
    all: repeat branch; intros ->; subst Post; cbn; intros Hrun;
      try discriminate Hrun; injection Hrun as <-.
    all: cbn in *.
    all: unfold is_ok in *;
      repeat match goal with
      | H : negb _ = true |- _ => apply negb_true_iff in H
      | H : (_ =? _)%Z = false |- _ => apply Z.eqb_neq in H
      end;
      repeat match goal with
      | H : non_null ?x = _ |- context [non_null ?x] => rewrite H
      end;
      try (destruct t; try discriminate);
      cbn; repeat split; auto; try discriminate; try lia.
    all: match goal with
         | H : non_null ?x = false |- ?x = None =>
             destruct x; [discriminate H | reflexivity]
         end.
Qed.

(** A successful [lvgl_tab5_start] on a handle that is initialized and not
    started: the whole run. *)
Lemma lvgl_tab5_start_ok (q : Lvgl.lvgl_platform)
    (h : Lvgl.lvgl_tab5_handle_s) (t : option nat) :
  Lvgl.initialized (Lvgl.context h) = true ->
  Lvgl.started h = false ->
  fst (result (Lvgl.lvgl_tab5_start q (Some h) t)) = ESP_OK ->
  exists task,
    Lvgl.xTaskCreatePinnedToCore q = Some task
    /\ Lvgl.lvgl_tab5_start q (Some h) t
       = (ESP_OK,
          Some (Lvgl.set_last_perf_time (Lvgl.esp_timer_get_time q)
                  (Lvgl.set_started true
                     (Lvgl.set_context (Lvgl.set_lvgl_task (Some task)) h))),
          t,
          [EvDisplayHalStart; EvTouchHalStart;
           EvTimerStartPeriodic (Lvgl.tick_period_ms (Lvgl.config h) * 1000);
           EvLvglTaskCreate (Lvgl.task_stack_size (Lvgl.config h))
                            (Lvgl.task_priority (Lvgl.config h))
                            (Lvgl.task_core (Lvgl.config h))]
          ++ (if Lvgl.ready_callback h then [EvReadyCallback] else [])).
Proof.
  intros Hinit Hstarted.
  destruct q. unfold Lvgl.lvgl_tab5_start. rewrite Hinit, Hstarted. run.
  unfold is_ok.
  destruct (Z.eqb_spec display_hal_start ESP_OK) as [Hd | Hd]; cbn;
    [| intros Hc; contradiction].
  destruct (Z.eqb_spec touch_hal_start ESP_OK) as [Ht | Ht]; cbn;
    [| intros Hc; contradiction].
  destruct (Z.eqb_spec esp_timer_start_periodic ESP_OK) as [Hp | Hp]; cbn;
    [| intros Hc; contradiction].
  destruct xTaskCreatePinnedToCore0 as [task |]; cbn; [| discriminate].
  intros _. exists task. split; [reflexivity |].
  destruct (Lvgl.ready_callback h) eqn:Hcb; cbn; rewrite ?Hcb; reflexivity.
Qed.

(** X11. [lvgl_tab5_start] on a handle that is initialized and not
    started: the display HAL, the touch HAL, the tick timer and the task are
    started in this order and the first failure ends the call with that
    status ([ESP_ERR_NO_MEM] for the task), the handle as it was, and no
    ready callback.  The HALs and the timer started before the failure are
    not stopped again, except the timer when the task cannot be created.
    On success the handle is started, holds the task and the time of the
    start, and the ready callback is called once when registered. *)
Theorem lvgl_tab5_start_outcome (q : Lvgl.lvgl_platform)
    (h : Lvgl.lvgl_tab5_handle_s) (t : option nat) :
  Lvgl.initialized (Lvgl.context h) = true ->
  Lvgl.started h = false ->
  let r := Lvgl.lvgl_tab5_start q (Some h) t in
  let c := Lvgl.config h in
  final r = t
  /\ (fst (result r) <> ESP_OK ->
      snd (result r) = Some h /\ calls EvReadyCallback (events r) = 0)
  /\ (fst (result r) = ESP_OK ->
      exists task,
        Lvgl.xTaskCreatePinnedToCore q = Some task
        /\ snd (result r)
           = Some (Lvgl.set_last_perf_time (Lvgl.esp_timer_get_time q)
                     (Lvgl.set_started true
                        (Lvgl.set_context (Lvgl.set_lvgl_task (Some task)) h)))
        /\ events r
           = [EvDisplayHalStart; EvTouchHalStart;
              EvTimerStartPeriodic (Lvgl.tick_period_ms c * 1000);
              EvLvglTaskCreate (Lvgl.task_stack_size c) (Lvgl.task_priority c)
                               (Lvgl.task_core c)]
             ++ (if Lvgl.ready_callback h then [EvReadyCallback] else []))
  /\ (Lvgl.display_hal_start q <> ESP_OK ->
      fst (result r) = Lvgl.display_hal_start q
      /\ events r = [EvDisplayHalStart])
  /\ (Lvgl.display_hal_start q = ESP_OK -> Lvgl.touch_hal_start q <> ESP_OK ->
      fst (result r) = Lvgl.touch_hal_start q
      /\ events r = [EvDisplayHalStart; EvTouchHalStart])
  /\ (Lvgl.display_hal_start q = ESP_OK -> Lvgl.touch_hal_start q = ESP_OK ->
      Lvgl.esp_timer_start_periodic q <> ESP_OK ->
      fst (result r) = Lvgl.esp_timer_start_periodic q
      /\ events r = [EvDisplayHalStart; EvTouchHalStart;
                     EvTimerStartPeriodic (Lvgl.tick_period_ms c * 1000)])
  /\ (Lvgl.display_hal_start q = ESP_OK -> Lvgl.touch_hal_start q = ESP_OK ->
      Lvgl.esp_timer_start_periodic q = ESP_OK ->
      Lvgl.xTaskCreatePinnedToCore q = None ->
      fst (result r) = ESP_ERR_NO_MEM
      /\ events r = [EvDisplayHalStart; EvTouchHalStart;
                     EvTimerStartPeriodic (Lvgl.tick_period_ms c * 1000);
                     EvLvglTaskCreate (Lvgl.task_stack_size c) (Lvgl.task_priority c)
                                      (Lvgl.task_core c);
                     EvTimerStop]).
Proof.
  intros Hinit Hstarted. cbv zeta.
  split; [| split; [| split]].
  - destruct q. unfold Lvgl.lvgl_tab5_start. rewrite Hinit, Hstarted. run.
    repeat branch; reflexivity.
  - destruct q. unfold Lvgl.lvgl_tab5_start. rewrite Hinit, Hstarted. run.
    unfold is_ok.
    destruct (Z.eqb_spec display_hal_start ESP_OK); cbn; [| auto].
    destruct (Z.eqb_spec touch_hal_start ESP_OK); cbn; [| auto].
    destruct (Z.eqb_spec esp_timer_start_periodic ESP_OK); cbn; [| auto].
    destruct xTaskCreatePinnedToCore0; cbn; [| auto].
    destruct (Lvgl.ready_callback h) eqn:Hcb; cbn; rewrite ?Hcb; cbn;
      intros Hc; now contradiction Hc.
  - intros Hok.
    destruct (lvgl_tab5_start_ok q h t Hinit Hstarted Hok) as (task & Htask & ->).
    exists task. auto.
  - destruct q. unfold Lvgl.lvgl_tab5_start. rewrite Hinit, Hstarted. run.
    unfold is_ok.
    destruct (Z.eqb_spec display_hal_start ESP_OK) as [Hd | Hd]; cbn;
      [destruct (Z.eqb_spec touch_hal_start ESP_OK) as [Ht | Ht]; cbn;
       [destruct (Z.eqb_spec esp_timer_start_periodic ESP_OK) as [Hp | Hp]; cbn;
        [destruct xTaskCreatePinnedToCore0 as [task |]; cbn;
         [destruct (Lvgl.ready_callback h) eqn:Hcb; cbn; rewrite ?Hcb; cbn |] |] |] |].
    all: repeat split; try congruence; try discriminate; try (intros; contradiction).
Qed.

(** A turn of [lvgl_task] writes the three counters of the handle and
    nothing else; so does a run of turns. *)
Lemma lvgl_task_turn_counters (taken : bool) (now : Z)
    (h : Lvgl.lvgl_tab5_handle_s) :
  fst (Lvgl.lvgl_task_turn taken now h)
  = with_counters_of (fst (Lvgl.lvgl_task_turn taken now h)) h.
Proof.
  unfold Lvgl.lvgl_task_turn. destruct h. destruct taken; cbn; [| reflexivity].
  match goal with |- context [if ?b then _ else _] => destruct b end;
    reflexivity.
Qed.

Lemma lvgl_task_turns_counters (answers : list (bool * Z))
    (h : Lvgl.lvgl_tab5_handle_s) :
  fst (Lvgl.lvgl_task_turns answers h)
  = with_counters_of (fst (Lvgl.lvgl_task_turns answers h)) h.
Proof.
  revert h. induction answers as [| [taken now] rest IH]; intros h.
  - now destruct h.
  - cbn [Lvgl.lvgl_task_turns].
    pose proof (lvgl_task_turn_counters taken now h) as H1.
    destruct (Lvgl.lvgl_task_turn taken now h) as [h1 e1]. cbn in H1.
    specialize (IH h1).
    destruct (Lvgl.lvgl_task_turns rest h1) as [h2 e2]. cbn in IH |- *.
    rewrite IH at 1. rewrite H1. now destruct h.
Qed.

(** X12. [lvgl_tab5_stop] fails with [ESP_ERR_INVALID_ARG] on a null
    handle and does nothing on a handle that is not started.  On a started
    handle it deletes the task if there is one, stops the tick timer if
    there is one, stops both HALs, and leaves the handle not started and
    without task; a second stop then does nothing.  A stop after a
    successful start, whatever turns the LVGL task has run in between,
    gives back the handle from before the start but for the three counters
    that the start and the task write ([frame_count], [fps_average],
    [last_perf_time]). *)
Theorem lvgl_tab5_stop_outcome (h : Lvgl.lvgl_tab5_handle_s) (t : option nat) :
  Lvgl.lvgl_tab5_stop None t = (ESP_ERR_INVALID_ARG, None, t, [])
  /\ (Lvgl.started h = false ->
      Lvgl.lvgl_tab5_stop (Some h) t = (ESP_OK, Some h, t, []))
  /\ (Lvgl.started h = true ->
      let r := Lvgl.lvgl_tab5_stop (Some h) t in
      let h' := Lvgl.set_started false (Lvgl.set_context (Lvgl.set_lvgl_task None) h) in
      result r = (ESP_OK, Some h')
      /\ final r = t
      /\ events r
         = (if non_null (Lvgl.lvgl_task (Lvgl.context h)) then [EvLvglTaskDelete] else [])
           ++ (if non_null t then [EvTimerStop] else [])
           ++ [EvDisplayHalStop; EvTouchHalStop]
      /\ Lvgl.lvgl_tab5_stop (Some h') t = (ESP_OK, Some h', t, []))
  /\ (forall q answers,
        Lvgl.initialized (Lvgl.context h) = true ->
        Lvgl.started h = false ->
        Lvgl.lvgl_task (Lvgl.context h) = None ->
        let s := Lvgl.lvgl_tab5_start q (Some h) t in
        fst (result s) = ESP_OK ->
        exists h1,
          snd (result s) = Some h1
          /\ let h2 := fst (Lvgl.lvgl_task_turns answers h1) in
             Lvgl.lvgl_tab5_stop (Some h2) (final s)
             = (ESP_OK, Some (with_counters_of h2 h), t,
                [EvLvglTaskDelete] ++ (if non_null t then [EvTimerStop] else [])
                ++ [EvDisplayHalStop; EvTouchHalStop])).
Proof.
  split; [reflexivity |]. split; [| split].
  - intros Hs. unfold Lvgl.lvgl_tab5_stop. now rewrite Hs.
  - intros Hs. cbv zeta. unfold Lvgl.lvgl_tab5_stop. rewrite Hs. run.
    destruct (Lvgl.lvgl_task (Lvgl.context h)); destruct t; cbn; auto.
  - intros q answers Hinit Hs Htask s Hok. subst s.
    destruct (lvgl_tab5_start_ok q h t Hinit Hs Hok) as (task & _ & ->).
    eexists. split; [reflexivity |]. cbv zeta.
    match goal with |- context [Lvgl.lvgl_task_turns answers ?h1] =>
      pose proof (lvgl_task_turns_counters answers h1) as Hc;
      destruct (Lvgl.lvgl_task_turns answers h1) as [h2 e2]
    end.
    cbn [fst] in Hc |- *. rewrite Hc at 1.
    unfold Lvgl.lvgl_tab5_stop. run.
    destruct h as [[] ? ? ? ? ? ? ? ?]; cbn in *; subst.
    now destruct t.
Qed.

(** X13. [lvgl_tab5_deinit] does nothing on a null handle.  Otherwise it
    first does what [lvgl_tab5_stop] does, then deletes the tick timer if
    there is one and deinitializes each HAL whose handle is not null; the
    tick timer global is null afterwards.  The stopping calls are made
    exactly when the handle was started. *)
Theorem lvgl_tab5_deinit_releases (h : Lvgl.lvgl_tab5_handle_s) (t : option nat) :
  let r := Lvgl.lvgl_tab5_deinit (Some h) t in
  Lvgl.lvgl_tab5_deinit None t = (tt, t, [])
  /\ final r = None
  /\ events r
     = events (Lvgl.lvgl_tab5_stop (Some h) t)
       ++ (if non_null t then [EvTimerDelete] else [])
       ++ (if non_null (Lvgl.display_hal (Lvgl.context h))
           then [EvDisplayHalDeinit] else [])
       ++ (if non_null (Lvgl.touch_hal (Lvgl.context h))
           then [EvTouchHalDeinit] else [])
  /\ calls EvTimerStop (events r) = Nat.b2n (Lvgl.started h && non_null t)
  /\ calls EvDisplayHalStop (events r) = Nat.b2n (Lvgl.started h)
  /\ calls EvTouchHalStop (events r) = Nat.b2n (Lvgl.started h)
  /\ calls EvLvglTaskDelete (events r)
     = Nat.b2n (Lvgl.started h && non_null (Lvgl.lvgl_task (Lvgl.context h))).
Proof.
  cbv zeta. unfold Lvgl.lvgl_tab5_deinit, Lvgl.lvgl_tab5_stop. run.
  destruct (Lvgl.started h); cbn;
    destruct (Lvgl.lvgl_task (Lvgl.context h)); cbn;
    destruct t; cbn;
    destruct (Lvgl.display_hal (Lvgl.context h)); cbn;
    destruct (Lvgl.touch_hal (Lvgl.context h)); cbn; auto 10.
Qed.

(** The handle [lvgl_tab5_init] gives back: an initialized handle that is
    not started with [ESP_OK], and no handle with any other status. *)
Lemma lvgl_tab5_init_handle (q : Lvgl.lvgl_platform)
    (cfg : option Lvgl.lvgl_tab5_config_t) (out : bool) (t : option nat) :
  match snd (result (Lvgl.lvgl_tab5_init q cfg out t)) with
  | Some h => fst (result (Lvgl.lvgl_tab5_init q cfg out t)) = ESP_OK
              /\ Lvgl.initialized (Lvgl.context h) = true
              /\ Lvgl.started h = false
  | None => fst (result (Lvgl.lvgl_tab5_init q cfg out t)) <> ESP_OK
  end.
Proof.
  destruct q. unfold Lvgl.lvgl_tab5_init, Lvgl.cleanup, Lvgl.lvgl_tab5_deinit,
    Lvgl.lvgl_tab5_stop. run.
  destruct out; cbn; [| discriminate].
  destruct (Lvgl.enable_double_buffer (default Lvgl.LVGL_TAB5_CONFIG_DEFAULT cfg));
    cbn; repeat branch; auto; try discriminate.
  all: unfold is_ok in *;
    match goal with
    | H : negb (?x =? ESP_OK)%Z = true |- ?x <> ESP_OK =>
        apply negb_true_iff, Z.eqb_neq in H; exact H
    end.
Qed.

(** After [lvgl_tab5_start] the handle is ready exactly when the call
    returned [ESP_OK]; the call keeps the handle and its initialized flag. *)
Lemma lvgl_tab5_start_ready (q : Lvgl.lvgl_platform)
    (handle : option Lvgl.lvgl_tab5_handle_s) (t : option nat) :
  let r := Lvgl.lvgl_tab5_start q handle t in
  Lvgl.lvgl_tab5_is_ready (snd (result r)) = is_ok (fst (result r))
  /\ (fun h => Lvgl.initialized (Lvgl.context h)) <$> snd (result r)
     = (fun h => Lvgl.initialized (Lvgl.context h)) <$> handle.
Proof.
  cbv zeta. destruct handle as [h |]; [| split; reflexivity].
  destruct q. unfold Lvgl.lvgl_tab5_start, Lvgl.lvgl_tab5_is_ready. run.
  destruct (Lvgl.initialized (Lvgl.context h)) eqn:Hinit; cbn;
    [| now rewrite Hinit].
  destruct (Lvgl.started h) eqn:Hs; cbn; [now rewrite Hinit, Hs |].
  unfold is_ok.
  destruct (Z.eqb_spec display_hal_start ESP_OK) as [Hd | Hd]; cbn;
    [| rewrite Hinit, Hs; cbn; split; [symmetry; now apply Z.eqb_neq | reflexivity]].
  destruct (Z.eqb_spec touch_hal_start ESP_OK) as [Ht | Ht]; cbn;
    [| rewrite Hinit, Hs; cbn; split; [symmetry; now apply Z.eqb_neq | reflexivity]].
  destruct (Z.eqb_spec esp_timer_start_periodic ESP_OK) as [Hp | Hp]; cbn;
    [| rewrite Hinit, Hs; cbn; split; [symmetry; now apply Z.eqb_neq | reflexivity]].
  destruct xTaskCreatePinnedToCore0; cbn;
    [| now rewrite Hinit, Hs].
  destruct (Lvgl.ready_callback h) eqn:Hcb; cbn; rewrite ?Hcb; cbn;
    now rewrite Hinit.
Qed.

(** After [lvgl_tab5_stop] the handle is not ready; the call keeps the
    handle and its initialized flag. *)
Lemma lvgl_tab5_stop_ready (handle : option Lvgl.lvgl_tab5_handle_s) (t : option nat) :
  let r := Lvgl.lvgl_tab5_stop handle t in
  Lvgl.lvgl_tab5_is_ready (snd (result r)) = false
  /\ (fun h => Lvgl.initialized (Lvgl.context h)) <$> snd (result r)
     = (fun h => Lvgl.initialized (Lvgl.context h)) <$> handle.
Proof.
  cbv zeta. destruct handle as [h |]; [| split; reflexivity].
  unfold Lvgl.lvgl_tab5_stop, Lvgl.lvgl_tab5_is_ready. run.
  destruct (Lvgl.started h) eqn:Hs; cbn; [| now rewrite Hs, andb_false_r].
  destruct (Lvgl.lvgl_task (Lvgl.context h)); destruct t; cbn;
    now rewrite andb_false_r.
Qed.

(** X14. [lvgl_tab5_is_ready] does not hold for the handle that
    [lvgl_tab5_init] gives back, holds after [lvgl_tab5_start] exactly when
    that call returned [ESP_OK] (whatever the handle and its state before),
    and does not hold after [lvgl_tab5_stop]. *)
Theorem lvgl_tab5_is_ready_tracks_start (q : Lvgl.lvgl_platform)
    (cfg : option Lvgl.lvgl_tab5_config_t) (out : bool)
    (handle : option Lvgl.lvgl_tab5_handle_s) (t : option nat) :
  Lvgl.lvgl_tab5_is_ready (snd (result (Lvgl.lvgl_tab5_init q cfg out t))) = false
  /\ Lvgl.lvgl_tab5_is_ready (snd (result (Lvgl.lvgl_tab5_start q handle t)))
     = is_ok (fst (result (Lvgl.lvgl_tab5_start q handle t)))
  /\ Lvgl.lvgl_tab5_is_ready (snd (result (Lvgl.lvgl_tab5_stop handle t))) = false.
Proof.
  split; [| split].
  - pose proof (lvgl_tab5_init_handle q cfg out t) as H.
    destruct (snd (result (Lvgl.lvgl_tab5_init q cfg out t))) as [h |];
      [| reflexivity].
    destruct H as (_ & _ & Hs). cbn. now rewrite Hs, andb_false_r.
  - apply lvgl_tab5_start_ready.
  - apply lvgl_tab5_stop_ready.
Qed.

#[local] Arguments Lvgl.lvgl_tab5_stop : simpl never.
#[local] Arguments Lvgl.lvgl_tab5_deinit : simpl never.

(** X15. [LVGLTab5duino]: the object holds a handle exactly when it counts
    as initialized, and then an initialized one; [begin], [start], [stop]
    and [end] keep that.  [begin] returns [ESP_OK] exactly when it leaves
    the object initialized and does nothing on an initialized object;
    before a successful [begin], [start] and [stop] fail with
    [ESP_ERR_INVALID_STATE] and [end] does nothing; [isReady] holds after
    [start] exactly when it returned [ESP_OK] and never after [stop]; [end]
    on an initialized object leaves the object as constructed and the tick
    timer global null. *)
Theorem LVGLTab5duino_lifecycle (q : Lvgl.lvgl_platform)
    (cfg : option Lvgl.lvgl_tab5_config_t) (this : Lvgl.LVGLTab5duino)
    (t : option nat) :
  LVGLTab5duino_wf this ->
  let b := Lvgl.LVGLTab5duino_begin q cfg (this, t) in
  let s := Lvgl.LVGLTab5duino_start q (this, t) in
  let p := Lvgl.LVGLTab5duino_stop (this, t) in
  let e := Lvgl.LVGLTab5duino_end (this, t) in
  LVGLTab5duino_wf (fst (final b))
  /\ LVGLTab5duino_wf (fst (final s))
  /\ LVGLTab5duino_wf (fst (final p))
  /\ LVGLTab5duino_wf (fst (final e))
  /\ (result b = ESP_OK <-> Lvgl.initialized_ (fst (final b)) = true)
  /\ (Lvgl.initialized_ this = true -> b = (ESP_OK, (this, t), []))
  /\ (Lvgl.initialized_ this = false ->
      s = (ESP_ERR_INVALID_STATE, (this, t), [])
      /\ p = (ESP_ERR_INVALID_STATE, (this, t), [])
      /\ e = (tt, (this, t), []))
  /\ Lvgl.LVGLTab5duino_isReady (fst (final s)) = is_ok (result s)
  /\ Lvgl.LVGLTab5duino_isReady (fst (final p)) = false
  /\ (Lvgl.initialized_ this = true ->
      final e = (Lvgl.LVGLTab5duino_new, None)).
Proof.
  intros Hwf. cbv zeta.
  unfold Lvgl.LVGLTab5duino_begin, Lvgl.LVGLTab5duino_start,
    Lvgl.LVGLTab5duino_stop, Lvgl.LVGLTab5duino_end, Lvgl.LVGLTab5duino_isReady,
    Lvgl.get_this, Lvgl.put_this, Lvgl.call_c.
  unfold LVGLTab5duino_wf in *.
  destruct this as [handle [|]]; run.
  - destruct handle as [h |]; [| discriminate Hwf]. destruct Hwf as [_ Hh].
    pose proof (lvgl_tab5_start_ready q (Some h) t) as [Hsr Hsi].
    pose proof (lvgl_tab5_stop_ready (Some h) t) as [Hpr Hpi].
    destruct (Lvgl.lvgl_tab5_start q (Some h) t) as [[[sret sh] st] se].
    destruct (Lvgl.lvgl_tab5_stop (Some h) t) as [[[pret ph] pt] pe].
    destruct (Lvgl.lvgl_tab5_deinit (Some h) t) as [[u dt] de] eqn:Hd.
    assert (Hdt : dt = None).
    { pose proof (f_equal final Hd) as Hf. cbn in Hf. rewrite <- Hf.
      unfold Lvgl.lvgl_tab5_deinit, Lvgl.lvgl_tab5_stop. run.
      destruct (Lvgl.started h); cbn;
        destruct (Lvgl.lvgl_task (Lvgl.context h)); cbn;
        destruct t; cbn;
        destruct (Lvgl.display_hal (Lvgl.context h)); cbn;
        destruct (Lvgl.touch_hal (Lvgl.context h)); reflexivity. }
    cbn in Hsr, Hsi, Hpr, Hpi |- *. subst dt.
    destruct sh as [sh |]; [| discriminate Hsi].
    destruct ph as [ph |]; [| discriminate Hpi].
    cbn in Hsi, Hpi. injection Hsi as Hsi. injection Hpi as Hpi.
    rewrite Hsi, Hpi, Hh.
    repeat split; auto; discriminate.
  - destruct handle as [h |]; [destruct Hwf; discriminate |].
    pose proof (lvgl_tab5_init_handle q cfg true t) as Hinit.
    destruct (Lvgl.lvgl_tab5_init q cfg true t) as [[[bret bh] bt] be].
    cbn in Hinit |- *. unfold is_ok.
    destruct bh as [bh |].
    + destruct Hinit as (-> & Hbi & _). cbn. rewrite Hbi.
      repeat split; auto; discriminate.
    + destruct (Z.eqb_spec bret ESP_OK) as [Hok | Hne]; [contradiction |]. cbn.
      repeat split; auto; try discriminate; try contradiction.
Qed.

(** ** LVGL integration: locking, allocation, callbacks *)

(** X16. [lvgl_tab5_refresh_display], [lvgl_tab5_create_screen] and
    [lvgl_tab5_load_screen] call LVGL only while they hold the LVGL mutex,
    call [xSemaphoreTake] at most once and give the mutex back before they
    return, whatever [xSemaphoreTake] answers.  The refresh and the load
    make their one LVGL call exactly when they return [ESP_OK], and none
    when they fail; [lvgl_tab5_create_screen] gives back a screen only after
    its one call of [lv_obj_create]. *)
Theorem lvgl_calls_hold_the_mutex (xSemaphoreTake : bool) (lv_obj_create : ptr)
    (handle : option Lvgl.lvgl_tab5_handle_s) (screen : ptr) :
  let refresh := Lvgl.lvgl_tab5_refresh_display xSemaphoreTake handle in
  let create := Lvgl.lvgl_tab5_create_screen xSemaphoreTake lv_obj_create handle in
  let load := Lvgl.lvgl_tab5_load_screen xSemaphoreTake handle screen in
  Lvgl.lock_discipline false (snd refresh) = true
  /\ Lvgl.lock_discipline false (snd create) = true
  /\ Lvgl.lock_discipline false (snd load) = true
  /\ (fst refresh = ESP_OK <-> Lvgl.lvgl_calls (snd refresh) = [Lvgl.EvObjInvalidate])
  /\ (fst refresh <> ESP_OK -> Lvgl.lvgl_calls (snd refresh) = [])
  /\ (non_null (fst create) = true -> Lvgl.lvgl_calls (snd create) = [Lvgl.EvObjCreate])
  /\ (fst load = ESP_OK <->
      exists scr, screen = Some scr /\ Lvgl.lvgl_calls (snd load) = [Lvgl.EvScrLoad scr])
  /\ (fst load <> ESP_OK -> Lvgl.lvgl_calls (snd load) = [])
  /\ Lvgl.takes (snd refresh) <= 1
  /\ Lvgl.takes (snd create) <= 1
  /\ Lvgl.takes (snd load) <= 1.
Proof.
  cbv zeta.
  unfold Lvgl.lvgl_tab5_refresh_display, Lvgl.lvgl_tab5_create_screen,
    Lvgl.lvgl_tab5_load_screen, Lvgl.lvgl_tab5_lock, Lvgl.lvgl_tab5_unlock.
  destruct handle as [h |]; destruct screen as [scr |]; cbn;
    try destruct (Lvgl.display (Lvgl.context h)); cbn;
    try destruct (Lvgl.lvgl_mutex (Lvgl.context h)); cbn;
    destruct xSemaphoreTake; cbn;
    try destruct lv_obj_create; cbn.
  all: repeat split; try discriminate; try reflexivity; try congruence.
  all: try (intros _; eexists; split; reflexivity).
  all: try (intros (scr' & Hs & Hc); discriminate).
  all: try (intros Hc; now contradiction Hc).
  all: lia.
Qed.

(** X17. [tab5duino_lvgl_malloc] asks PSRAM first when PSRAM is up and
    internal RAM only as the fallback, and frees nothing.
    [tab5duino_lvgl_realloc] of a null block is a malloc, and with size 0 a
    free.  Otherwise it returns what the malloc returns: when that is null
    the old block is not freed; when not, it copies [size] bytes (the new
    size) from the old block and frees the old block, once. *)
Theorem tab5duino_lvgl_realloc_keeps_or_moves (hp : Lvgl.heap_platform)
    (block : ptr) (size : Z) :
  let m := Lvgl.tab5duino_lvgl_malloc hp size in
  let r := Lvgl.tab5duino_lvgl_realloc hp block size in
  (* malloc: PSRAM first when it is up, internal RAM as the fallback *)
  capabilities_asked (snd m)
    = (if Lvgl.psram_is_initialized hp
       then if non_null (Lvgl.heap_caps_malloc hp true size) then [true] else [true; false]
       else [false])
  /\ fst m = (if Lvgl.psram_is_initialized hp
                 && non_null (Lvgl.heap_caps_malloc hp true size)
              then Lvgl.heap_caps_malloc hp true size
              else Lvgl.heap_caps_malloc hp false size)
  /\ frees (snd m) = []
  (* realloc *)
  /\ (block = None -> r = m)
  /\ (forall old, block = Some old ->
      (size = 0%Z -> r = (None, [Lvgl.EvFree old]))
      /\ (size <> 0%Z ->
          fst r = fst m
          /\ (fst r = None -> snd r = snd m /\ frees (snd r) = [])
          /\ (forall new, fst r = Some new ->
                snd r = snd m ++ [Lvgl.EvMemcpy new old size; Lvgl.EvFree old]))).
Proof.
  cbv zeta. unfold Lvgl.tab5duino_lvgl_realloc, Lvgl.tab5duino_lvgl_malloc,
    Lvgl.tab5duino_lvgl_free.
  split; [| split; [| split; [| split]]].
  - destruct (Lvgl.psram_is_initialized hp); [| reflexivity].
    now destruct (Lvgl.heap_caps_malloc hp true size).
  - destruct (Lvgl.psram_is_initialized hp); [| reflexivity].
    now destruct (Lvgl.heap_caps_malloc hp true size).
  - destruct (Lvgl.psram_is_initialized hp); [| reflexivity].
    now destruct (Lvgl.heap_caps_malloc hp true size).
  - now intros ->.
  - intros old ->. split.
    + intros ->. reflexivity.
    + intros Hsize. destruct (Z.eqb_spec size 0) as [Hz | _]; [contradiction |].
      destruct (Lvgl.psram_is_initialized hp);
        [destruct (Lvgl.heap_caps_malloc hp true size) |];
        try destruct (Lvgl.heap_caps_malloc hp false size); cbn;
        (split; [reflexivity |]); (split; [intros H; try discriminate H; auto |]);
        intros new H; first [discriminate H | injection H as <-; reflexivity].
Qed.

(** ** The touch callback and the bounds of its array *)

(** The scan reads past the array exactly when the count goes beyond it
    and no point before the end is valid. *)
Lemma first_valid_point_out_of_bounds (points : list TouchHal.touch_point_t)
    (n i : nat) :
  i <= length points ->
  Lvgl.first_valid_point points i n = None
  <-> length points < i + n
      /\ forall j pt, i <= j -> points !! j = Some pt ->
                      TouchHal.touch_point_is_valid pt = false.
Proof.
  revert i. induction n as [| n IH]; intros i Hi; cbn.
  - split; [discriminate | lia].
  - destruct (points !! i) as [pt |] eqn:Hpt.
    + apply lookup_lt_Some in Hpt as Hlt.
      destruct (TouchHal.touch_point_is_valid pt) eqn:Hvalid.
      * split; [discriminate |]. intros [_ Hall].
        rewrite (Hall i pt) in Hvalid by (lia || assumption). discriminate.
      * rewrite IH by lia. split; intros [Hlen Hall]; (split; [lia |]).
        -- intros j pj Hj Hpj. destruct (decide (j = i)) as [-> | Hne].
           ++ congruence.
           ++ apply (Hall j); [lia | assumption].
        -- intros j pj Hj. apply Hall. lia.
    + apply lookup_ge_None in Hpt. split; [| reflexivity]. intros _.
      split; [lia |]. intros j pj Hj Hpj. apply lookup_lt_Some in Hpj. lia.
Qed.

(** X18. With a live touch HAL and the array of [TOUCH_MAX_POINTS]
    points, [touchpad_read_cb] reads past the array exactly when the HAL
    answers [ESP_OK], announces more than [TOUCH_MAX_POINTS] points and no
    point of the array is valid.  With a count within the array it always
    completes. *)
Theorem touchpad_read_cb_bounds (q : Lvgl.lvgl_platform)
    (h : Lvgl.lvgl_tab5_handle_s) (hal : nat) (data : Lvgl.lv_indev_data_t)
    (ret : esp_err_t) (points : list TouchHal.touch_point_t) (point_count : nat) :
  Lvgl.touch_hal (Lvgl.context h) = Some hal ->
  Lvgl.touch_hal_read_points q = (ret, points, point_count) ->
  length points = TouchHal.TOUCH_MAX_POINTS ->
  (Lvgl.touchpad_read_cb q (Some h) data = None
   <-> ret = ESP_OK
       /\ TouchHal.TOUCH_MAX_POINTS < point_count
       /\ forall pt, pt ∈ points -> TouchHal.touch_point_is_valid pt = false)
  /\ (point_count <= TouchHal.TOUCH_MAX_POINTS ->
      exists d, Lvgl.touchpad_read_cb q (Some h) data = Some d).
Proof.
  intros Hhal Hread Hlen.
  assert (Hiff : Lvgl.touchpad_read_cb q (Some h) data = None
                 <-> ret = ESP_OK
                     /\ TouchHal.TOUCH_MAX_POINTS < point_count
                     /\ forall pt, pt ∈ points ->
                                   TouchHal.touch_point_is_valid pt = false).
  { unfold Lvgl.touchpad_read_cb. rewrite Hhal, Hread. cbn [negb non_null].
    unfold is_ok. destruct (Z.eqb_spec ret ESP_OK) as [-> | Hne]; cbn [negb orb].
    - destruct (Nat.eqb_spec point_count 0) as [-> | Hcount].
      + split; [discriminate |]. intros (_ & Hc & _). lia.
      + pose proof (first_valid_point_out_of_bounds points point_count 0
                      ltac:(lia)) as Hscan.
        destruct (Lvgl.first_valid_point points 0 point_count) as [[pt |] |].
        * split; [discriminate |]. intros (_ & Hc & Hall).
          assert (Hnone : @None (option TouchHal.touch_point_t) = None) by reflexivity.
          exfalso. pose proof (proj2 Hscan) as Hback.
          assert (Hcontra : Some (Some pt) = None); [| discriminate Hcontra].
          apply Hback. split; [lia |]. intros j pj _ Hpj.
          apply Hall. now apply list_elem_of_lookup_2 in Hpj.
        * split; [discriminate |]. intros (_ & Hc & Hall).
          assert (Hcontra : Some (@None TouchHal.touch_point_t) = None);
            [| discriminate Hcontra].
          apply (proj2 Hscan). split; [lia |]. intros j pj _ Hpj.
          apply Hall. now apply list_elem_of_lookup_2 in Hpj.
        * split; [| reflexivity]. intros _.
          destruct (proj1 Hscan eq_refl) as [Hc Hall].
          split; [reflexivity |]. split; [lia |].
          intros pt Hpt. apply list_elem_of_lookup_1 in Hpt as [j Hj].
          apply (Hall j); [lia | exact Hj].
    - split; [discriminate |]. intros (Hc & _). contradiction. }
  split; [exact Hiff |].
  intros Hcount.
  destruct (Lvgl.touchpad_read_cb q (Some h) data) as [d |] eqn:Hd;
    [now exists d |].
  destruct (proj1 Hiff eq_refl) as (_ & Hc & _). lia.
Qed.

(** X19. For an area with its corners in order and below 65535,
    [display_flush_cb] passes the origin of the area and its exact width
    and height (nothing is lost in the conversion to [uint16_t]), and the
    software draw that follows a failed blend covers the same region as the
    blend. *)
Theorem display_flush_cb_region {S : Type} (q : Lvgl.lvgl_platform)
    (h : Lvgl.lvgl_tab5_handle_s) (hal : nat) (area : Lvgl.lv_area_t) (s : S) :
  Lvgl.display_hal (Lvgl.context h) = Some hal ->
  (0 <= Lvgl.x1 area <= Lvgl.x2 area)%Z -> (Lvgl.x2 area < 65535)%Z ->
  (0 <= Lvgl.y1 area <= Lvgl.y2 area)%Z -> (Lvgl.y2 area < 65535)%Z ->
  let x := Lvgl.x1 area in
  let y := Lvgl.y1 area in
  let width := (Lvgl.x2 area - Lvgl.x1 area + 1)%Z in
  let height := (Lvgl.y2 area - Lvgl.y1 area + 1)%Z in
  events (Lvgl.display_flush_cb q (Some h) area s) =
    if Lvgl.enable_ppa_acceleration (Lvgl.config h) then
      if is_ok (Lvgl.display_hal_ppa_blend q)
      then [EvPpaBlend x y width height; EvFlushReady]
      else [EvPpaBlend x y width height; EvDrawBitmap x y width height; EvFlushReady]
    else [EvDrawBitmap x y width height; EvFlushReady].
Proof.
  intros Hhal Hx Hx2 Hy Hy2. cbv zeta.
  rewrite (display_flush_cb_paths q h hal area s Hhal). cbv zeta.
  unfold to_uint16. rewrite !Z.mod_small by lia. reflexivity.
Qed.

(** ** Colour conversion *)

(** A test that holds on a range holds for each number of it. *)
Lemma all_from_sound (n : nat) (test : Z -> bool) :
  forall z0, all_from z0 n test = true ->
  forall z, (z0 <= z < z0 + Z.of_nat n)%Z -> test z = true.
Proof.
  induction n as [| n IH]; intros z0 Hall z Hz; [lia |].
  cbn [all_from] in Hall. apply andb_true_iff in Hall as [Hz0 Hrest].
  destruct (Z.eq_dec z z0) as [-> | Hne]; [exact Hz0 |].
  apply (IH (z0 + 1)%Z Hrest). lia.
Qed.

Lemma all_below_sound (n : Z) (test : Z -> bool) :
  all_below n test = true ->
  forall z, (0 <= z < n)%Z -> test z = true.
Proof.
  intros Hall z Hz. apply (all_from_sound _ _ _ Hall). lia.
Qed.

(** Checks a property of the numbers below a bound by running it on each. *)
Ltac check_below bound test z Hz H :=
  let Hall := fresh "Hall" in
  let f := fresh "f" in
  pose (f := test);
  assert (Hall : all_below bound f = true) by (vm_compute; reflexivity);
  pose proof (all_below_sound bound f Hall z Hz) as H;
  subst f; cbv beta in H; clear Hall.

(** X20. [display_rgb565_to_rgb] followed by [display_rgb_to_rgb565] gives
    back every 16-bit colour.  The other way round, a colour made from
    three bytes is a 16-bit value, and comes back as the three bytes with
    their low 3, 2 and 3 bits cleared. *)
Theorem display_rgb565_round_trip :
  (forall color, (0 <= color < 65536)%Z ->
     let '(r, g, b) := DisplayHal.display_rgb565_to_rgb color in
     DisplayHal.display_rgb_to_rgb565 r g b = color)
  /\ (forall r g b, (0 <= r < 256)%Z -> (0 <= g < 256)%Z -> (0 <= b < 256)%Z ->
        (0 <= DisplayHal.display_rgb_to_rgb565 r g b < 65536)%Z
        /\ DisplayHal.display_rgb565_to_rgb (DisplayHal.display_rgb_to_rgb565 r g b)
           = (Z.land r 0xF8, Z.land g 0xFC, Z.land b 0xF8)).
Proof.
  split.
  - intros color Hc.
    check_below 65536%Z
      (fun c => let '(r, g, b) := DisplayHal.display_rgb565_to_rgb c in
                (DisplayHal.display_rgb_to_rgb565 r g b =? c)%Z) color Hc H.
    destruct (DisplayHal.display_rgb565_to_rgb color) as [[r g] b].
    now apply Z.eqb_eq.
  - intros r g b Hr Hg Hb. split.
    + unfold DisplayHal.display_rgb_to_rgb565, to_uint16.
      apply Z.mod_pos_bound. lia.
    + (* the channels sit in disjoint bits of the colour: 5, 6 and 5 of them *)
      check_below 256%Z (fun r => (Z.land r 0xF8 =? 8 * (r / 8))%Z) r Hr Her.
      check_below 256%Z (fun g => (Z.land g 0xFC =? 4 * (g / 4))%Z) g Hg Heg.
      check_below 256%Z (fun b => (Z.shiftr b 3 =? b / 8)%Z
                                  && (Z.land b 0xF8 =? 8 * (b / 8))%Z) b Hb Heb.
      apply Z.eqb_eq in Her, Heg. apply andb_true_iff in Heb as [Heb1 Heb2].
      apply Z.eqb_eq in Heb1, Heb2.
      unfold DisplayHal.display_rgb_to_rgb565.
      rewrite Her, Heg, Heb1, Heb2.
      assert (Hr5 : (0 <= r / 8 < 32)%Z)
        by (split; [apply Z.div_pos | apply Z.div_lt_upper_bound]; lia).
      assert (Hg6 : (0 <= g / 4 < 64)%Z)
        by (split; [apply Z.div_pos | apply Z.div_lt_upper_bound]; lia).
      assert (Hb5 : (0 <= b / 8 < 32)%Z)
        by (split; [apply Z.div_pos | apply Z.div_lt_upper_bound]; lia).
      generalize dependent (r / 8)%Z. intros r5 _ Hr5.
      generalize dependent (g / 4)%Z. intros g6 _ Hg6.
      generalize dependent (b / 8)%Z. intros b5 _ _ Hb5.
      check_below 32%Z
        (fun r5 =>
           all_below 64 (fun g6 =>
             all_below 32 (fun b5 =>
               let '(r', g', b') :=
                 DisplayHal.display_rgb565_to_rgb
                   (to_uint16 (Z.lor (Z.lor (Z.shiftl (8 * r5) 8)
                                            (Z.shiftl (4 * g6) 3)) b5)) in
               (r' =? 8 * r5)%Z && (g' =? 4 * g6)%Z && (b' =? 8 * b5)%Z)))
        r5 Hr5 H.
      pose proof (all_below_sound 64 _ H g6 Hg6) as H'. cbv beta in H'.
      pose proof (all_below_sound 32 _ H' b5 Hb5) as H''. cbv beta in H''.
      destruct (DisplayHal.display_rgb565_to_rgb _) as [[r' g'] b'].
      apply andb_true_iff in H'' as [H1 H3]. apply andb_true_iff in H1 as [H1 H2].
      apply Z.eqb_eq in H1, H2, H3. now subst.
Qed.

(** ** Arduino layer: arithmetic *)

Lemma long_of_Some (z r : Z) :
  ArduinoCore.long_of z = Some r ->
  r = z /\ (ArduinoCore.LONG_MIN <= z <= ArduinoCore.LONG_MAX)%Z.
Proof.
  unfold ArduinoCore.long_of, ArduinoCore.in_long.
  destruct (Z.leb_spec ArduinoCore.LONG_MIN z), (Z.leb_spec z ArduinoCore.LONG_MAX);
    cbn; intros Hr; try discriminate Hr.
  injection Hr as <-. auto.
Qed.

Lemma long_of_in_range (z : Z) :
  (ArduinoCore.LONG_MIN <= z <= ArduinoCore.LONG_MAX)%Z ->
  ArduinoCore.long_of z = Some z.
Proof.
  intros [Hlo Hhi]. unfold ArduinoCore.long_of, ArduinoCore.in_long.
  destruct (Z.leb_spec ArduinoCore.LONG_MIN z), (Z.leb_spec z ArduinoCore.LONG_MAX);
    cbn; (reflexivity || lia).
Qed.

(** X21. [map] with [fromLow < fromHigh], [toLow <= toHigh] and a value
    within the input range: a result, when there is one, lies within the
    output range, is [toLow] at [fromLow] and [toHigh] at [fromHigh].
    There is a result, the truncated quotient, when the four bounds lie
    within plus and minus 2^14; beyond, the product may overflow [long]. *)
Theorem map_stays_in_range (value fromLow fromHigh toLow toHigh : Z) :
  (fromLow < fromHigh)%Z -> (toLow <= toHigh)%Z ->
  (fromLow <= value <= fromHigh)%Z ->
  (forall r, ArduinoCore.map value fromLow fromHigh toLow toHigh = Some r ->
     (toLow <= r <= toHigh)%Z
     /\ (value = fromLow -> r = toLow)
     /\ (value = fromHigh -> r = toHigh))
  /\ ((- 2 ^ 14 <= fromLow)%Z -> (fromHigh <= 2 ^ 14)%Z ->
      (- 2 ^ 14 <= toLow)%Z -> (toHigh <= 2 ^ 14)%Z ->
      ArduinoCore.map value fromLow fromHigh toLow toHigh
      = Some ((value - fromLow) * (toHigh - toLow) / (fromHigh - fromLow) + toLow)%Z).
Proof.
  intros Hfrom Hto Hvalue.
  assert (Hq : Z.quot ((value - fromLow) * (toHigh - toLow)) (fromHigh - fromLow)
               = ((value - fromLow) * (toHigh - toLow) / (fromHigh - fromLow))%Z)
    by (apply Z.quot_div_nonneg; nia).
  assert (Hbound : (0 <= (value - fromLow) * (toHigh - toLow) / (fromHigh - fromLow)
                    <= toHigh - toLow)%Z).
  { split.
    - apply Z.div_pos; nia.
    - apply Z.div_le_upper_bound; nia. }
  split.
  - intros r. unfold ArduinoCore.map. cbv [mbind option_bind].
    destruct (ArduinoCore.long_of (value - fromLow)) as [a |] eqn:Ha; [| discriminate].
    destruct (ArduinoCore.long_of (toHigh - toLow)) as [b |] eqn:Hb; [| discriminate].
    apply long_of_Some in Ha as [-> _]. apply long_of_Some in Hb as [-> _].
    destruct (ArduinoCore.long_of ((value - fromLow) * (toHigh - toLow)))
      as [m |] eqn:Hm; [| discriminate].
    apply long_of_Some in Hm as [-> _].
    destruct (ArduinoCore.long_of (fromHigh - fromLow)) as [d |] eqn:Hd; [| discriminate].
    apply long_of_Some in Hd as [-> _].
    destruct (Z.eqb_spec (fromHigh - fromLow) 0) as [Hz | _]; [lia |].
    rewrite Hq.
    destruct (ArduinoCore.long_of _) as [q |] eqn:Hquot; [| discriminate].
    apply long_of_Some in Hquot as [-> _].
    intros Hr. apply long_of_Some in Hr as [-> _].
    split; [lia |]. split.
    + intros ->. rewrite Z.sub_diag, Z.mul_0_l, Z.div_0_l by lia. lia.
    + intros ->. rewrite Z.mul_comm, Z.div_mul by lia. lia.
  - intros H1 H2 H3 H4. unfold ArduinoCore.map. cbv [mbind option_bind].
    assert (Hpow : (2 ^ 14 = 16384)%Z) by reflexivity.
    assert (Hrange : forall z, (- 2 ^ 31 <= z <= 2 ^ 31 - 1)%Z ->
                       ArduinoCore.long_of z = Some z)
      by (intros z Hz; apply long_of_in_range; exact Hz).
    assert (Hpow31 : (2 ^ 31 = 2147483648)%Z) by reflexivity.
    rewrite (Hrange (value - fromLow)%Z) by lia.
    rewrite (Hrange (toHigh - toLow)%Z) by lia.
    rewrite (Hrange ((value - fromLow) * (toHigh - toLow))%Z) by nia.
    rewrite (Hrange (fromHigh - fromLow)%Z) by lia.
    rewrite (proj2 (Z.eqb_neq _ _)) by lia.
    rewrite Hq. rewrite (Hrange _) by nia.
    apply Hrange. nia.
Qed.

Lemma to_long_to_ulong (a k : Z) :
  (ArduinoCore.LONG_MIN <= a + k <= ArduinoCore.LONG_MAX)%Z ->
  ArduinoCore.to_long (ArduinoCore.to_ulong (ArduinoCore.to_ulong a + k)) = (a + k)%Z.
Proof.
  unfold ArduinoCore.to_long, ArduinoCore.to_ulong,
    ArduinoCore.LONG_MIN, ArduinoCore.LONG_MAX.
  intros H. rewrite Z.add_mod_idemp_l by lia.
  rewrite <- Z.add_assoc, Z.add_mod_idemp_l by lia.
  rewrite Z.mod_small by lia. lia.
Qed.

(** X22. [random(max)] is 0 for [max <= 0] and lies in [0, max)
    otherwise.  [random(min, max)] is [min] for [max <= min]; for
    [min < max] it lies in [min, max) when the difference fits a [long],
    and has no defined result when it does not. *)
Theorem random_in_range (esp_random min max : Z) :
  (0 <= esp_random < 2 ^ 32)%Z ->
  ArduinoCore.in_long min = true -> ArduinoCore.in_long max = true ->
  ((max <= 0)%Z -> ArduinoCore.random_max esp_random max = 0%Z)
  /\ ((0 < max)%Z -> (0 <= ArduinoCore.random_max esp_random max < max)%Z)
  /\ ((max <= min)%Z -> ArduinoCore.random_min_max esp_random min max = Some min)
  /\ ((min < max)%Z -> (max - min <= ArduinoCore.LONG_MAX)%Z ->
      exists r, ArduinoCore.random_min_max esp_random min max = Some r
                /\ (min <= r < max)%Z)
  /\ ((min < max)%Z -> (ArduinoCore.LONG_MAX < max - min)%Z ->
      ArduinoCore.random_min_max esp_random min max = None).
Proof.
  intros Hu Hmin Hmax.
  unfold ArduinoCore.in_long in Hmin, Hmax.
  apply andb_true_iff in Hmin as [Hmin1 Hmin2], Hmax as [Hmax1 Hmax2].
  apply Z.leb_le in Hmin1, Hmin2, Hmax1, Hmax2.
  unfold ArduinoCore.LONG_MIN, ArduinoCore.LONG_MAX in *.
  assert (Hpow31 : (2 ^ 31 = 2147483648)%Z) by reflexivity.
  assert (Hpow32 : (2 ^ 32 = 4294967296)%Z) by reflexivity.
  unfold ArduinoCore.random_max, ArduinoCore.random_min_max.
  split; [| split; [| split; [| split]]].
  - intros H. now destruct (Z.leb_spec max 0); [| lia].
  - intros H. destruct (Z.leb_spec max 0); [lia |].
    unfold ArduinoCore.to_ulong, ArduinoCore.to_long.
    rewrite (Z.mod_small esp_random), (Z.mod_small max) by lia.
    pose proof (Z.mod_pos_bound esp_random max H).
    rewrite Z.mod_small by lia. lia.
  - intros H. now destruct (Z.leb_spec max min); [| lia].
  - intros H Hd. destruct (Z.leb_spec max min); [lia |].
    rewrite long_of_in_range by (unfold ArduinoCore.LONG_MIN, ArduinoCore.LONG_MAX; lia).
    cbn. eexists. split; [reflexivity |].
    assert (Hk : (0 <= ArduinoCore.to_ulong esp_random
                       mod ArduinoCore.to_ulong (max - min) < max - min)%Z).
    { unfold ArduinoCore.to_ulong.
      rewrite (Z.mod_small (max - min)) by lia. apply Z.mod_pos_bound. lia. }
    rewrite to_long_to_ulong
      by (unfold ArduinoCore.LONG_MIN, ArduinoCore.LONG_MAX; lia).
    lia.
  - intros H Hd. destruct (Z.leb_spec max min); [lia |].
    unfold ArduinoCore.long_of, ArduinoCore.in_long, ArduinoCore.LONG_MAX.
    destruct (Z.leb_spec (max - min) (2 ^ 31 - 1)); [lia |].
    now rewrite andb_false_r.
Qed.

(** [bitRead] gives the bit as a number. *)
Lemma bitRead_testbit (value bit : Z) :
  (0 <= bit)%Z ->
  ArduinoCore.bitRead value bit = Z.b2z (Z.testbit value bit).
Proof.
  intros Hbit. unfold ArduinoCore.bitRead.
  change 1%Z with (Z.ones 1) at 1. rewrite Z.land_ones by lia.
  change (2 ^ 1)%Z with 2%Z. rewrite <- Z.bit0_mod, Z.shiftr_spec by lia.
  now rewrite Z.add_0_l.
Qed.

Lemma testbit_bitSet (value bit n : Z) :
  (0 <= bit < 32)%Z -> (0 <= n < 32)%Z ->
  Z.testbit (ArduinoCore.bitSet value bit) n = Z.testbit value n || (n =? bit)%Z.
Proof.
  intros Hbit Hn. unfold ArduinoCore.bitSet, ArduinoCore.to_ulong.
  rewrite Z.mod_pow2_bits_low, Z.lor_spec, Z.mod_pow2_bits_low by lia.
  rewrite Z.shiftl_1_l, Z.pow2_bits_eqb by lia.
  now rewrite Z.eqb_sym.
Qed.

Lemma testbit_bitClear (value bit n : Z) :
  (0 <= bit < 32)%Z -> (0 <= n < 32)%Z ->
  Z.testbit (ArduinoCore.bitClear value bit) n
  = Z.testbit value n && negb (n =? bit)%Z.
Proof.
  intros Hbit Hn. unfold ArduinoCore.bitClear, ArduinoCore.to_ulong.
  rewrite Z.mod_pow2_bits_low, Z.land_spec, Z.mod_pow2_bits_low by lia.
  rewrite Z.lnot_spec, Z.mod_pow2_bits_low by lia.
  rewrite Z.shiftl_1_l, Z.pow2_bits_eqb by lia.
  now rewrite Z.eqb_sym.
Qed.

(** X23. The bit macros on 32-bit values, for bit numbers below 32:
    [bitRead] after [bitSet] is 1, after [bitClear] is 0, after [bitWrite]
    is the bit written; every other bit reads as before; the value written
    back fits 32 bits. *)
Theorem bit_macros (value bit other : Z) (bitvalue : bool) :
  (0 <= bit < 32)%Z -> (0 <= other < 32)%Z -> other <> bit ->
  ArduinoCore.bitRead (ArduinoCore.bitSet value bit) bit = 1%Z
  /\ ArduinoCore.bitRead (ArduinoCore.bitClear value bit) bit = 0%Z
  /\ ArduinoCore.bitRead (ArduinoCore.bitWrite value bit bitvalue) bit = Z.b2z bitvalue
  /\ ArduinoCore.bitRead (ArduinoCore.bitSet value bit) other
     = ArduinoCore.bitRead value other
  /\ ArduinoCore.bitRead (ArduinoCore.bitClear value bit) other
     = ArduinoCore.bitRead value other
  /\ ArduinoCore.bitRead (ArduinoCore.bitWrite value bit bitvalue) other
     = ArduinoCore.bitRead value other
  /\ (0 <= ArduinoCore.bitWrite value bit bitvalue < 2 ^ 32)%Z.
Proof.
  intros Hbit Hother Hne.
  assert (Hset : ArduinoCore.bitRead (ArduinoCore.bitSet value bit) bit = 1%Z).
  { rewrite bitRead_testbit, testbit_bitSet by lia.
    now rewrite Z.eqb_refl, orb_true_r. }
  assert (Hclear : ArduinoCore.bitRead (ArduinoCore.bitClear value bit) bit = 0%Z).
  { rewrite bitRead_testbit, testbit_bitClear by lia.
    now rewrite Z.eqb_refl, andb_false_r. }
  assert (Hset' : ArduinoCore.bitRead (ArduinoCore.bitSet value bit) other
                  = ArduinoCore.bitRead value other).
  { rewrite !bitRead_testbit, testbit_bitSet by lia.
    rewrite (proj2 (Z.eqb_neq other bit)) by exact Hne. now rewrite orb_false_r. }
  assert (Hclear' : ArduinoCore.bitRead (ArduinoCore.bitClear value bit) other
                    = ArduinoCore.bitRead value other).
  { rewrite !bitRead_testbit, testbit_bitClear by lia.
    rewrite (proj2 (Z.eqb_neq other bit)) by exact Hne. now rewrite andb_true_r. }
  repeat split; try assumption.
  - now destruct bitvalue.
  - now destruct bitvalue.
  - destruct bitvalue; cbn; unfold ArduinoCore.bitSet, ArduinoCore.bitClear,
      ArduinoCore.to_ulong; apply Z.mod_pos_bound; lia.
  - destruct bitvalue; cbn; unfold ArduinoCore.bitSet, ArduinoCore.bitClear,
      ArduinoCore.to_ulong; apply Z.mod_pos_bound; lia.
Qed.

(** X24. [constrain] with [low <= high] gives a value within the bounds,
    the argument itself when it is within them already, and is idempotent.
    [lowByte] and [highByte] of a 16-bit word are bytes, and the word is 256
    times the high byte plus the low byte. *)
Theorem constrain_and_bytes (amt low high w : Z) :
  ((low <= high)%Z ->
     (low <= ArduinoCore.constrain amt low high <= high)%Z
     /\ ((low <= amt <= high)%Z -> ArduinoCore.constrain amt low high = amt)
     /\ ArduinoCore.constrain (ArduinoCore.constrain amt low high) low high
        = ArduinoCore.constrain amt low high)
  /\ ((0 <= w < 65536)%Z ->
      (0 <= ArduinoCore.lowByte w < 256)%Z
      /\ (0 <= ArduinoCore.highByte w < 256)%Z
      /\ w = (256 * ArduinoCore.highByte w + ArduinoCore.lowByte w)%Z).
Proof.
  split.
  - intros Hlh. unfold ArduinoCore.constrain.
    repeat match goal with
           | |- context [(?a <? ?b)%Z] => destruct (Z.ltb_spec a b)
           end; repeat split; intros; lia.
  - intros Hw. unfold ArduinoCore.lowByte, ArduinoCore.highByte, DisplayHal.to_uint8.
    change 0xff%Z with (Z.ones 8). rewrite Z.land_ones, Z.shiftr_div_pow2 by lia.
    change (2 ^ 8)%Z with 256%Z. rewrite Z.mod_mod by lia.
    assert (Hhi : (0 <= w / 256 < 256)%Z)
      by (split; [apply Z.div_pos | apply Z.div_lt_upper_bound]; lia).
    rewrite (Z.mod_small (w / 256)) by lia.
    pose proof (Z.mod_pos_bound w 256 ltac:(lia)).
    pose proof (Z.div_mod w 256 ltac:(lia)). lia.
Qed.

(** ** Arduino layer: GPIO *)

(** Unfolds the GPIO monad and runs a call as far as its tests allow. *)
Ltac gpio_run :=
  cbv [mbind mret ArduinoCore.G_MBind ArduinoCore.G_MRet ArduinoCore.gpio_get
       ArduinoCore.gpio_emit ArduinoCore.read_initialized
       ArduinoCore.write_initialized ArduinoCore.write_handler];
  cbn.

(** [pinMode] on a pin of the chip with one of the modes of its [switch]:
    one call of [gpio_config], and the pin counts as initialized when that
    call succeeds. *)
Lemma pinMode_run (p : ArduinoCore.gpio_platform) (pin : nat) (mode : Z)
    (s : ArduinoCore.gpio_state) :
  ArduinoCore.gpio_state_wf p s ->
  pin < ArduinoCore.GPIO_NUM_MAX p ->
  mode = ArduinoCore.GPIO_MODE_INPUT p \/ mode = ArduinoCore.GPIO_MODE_OUTPUT p
    \/ mode = ArduinoCore.GPIO_MODE_OUTPUT_OD p ->
  ArduinoCore.pinMode p pin mode s =
    Some (tt,
          {| ArduinoCore.gpio_initialized :=
               if is_ok (ArduinoCore.gpio_config p (ArduinoCore.history s) pin mode)
               then <[pin := true]> (ArduinoCore.gpio_initialized s)
               else ArduinoCore.gpio_initialized s;
             ArduinoCore.interrupt_handlers := ArduinoCore.interrupt_handlers s;
             ArduinoCore.history :=
               ArduinoCore.history s ++ [ArduinoCore.EvGpioConfig pin mode] |}).
Proof.
  intros [Hwf1 Hwf2] Hpin Hmode. unfold ArduinoCore.pinMode.
  destruct (Nat.leb_spec (ArduinoCore.GPIO_NUM_MAX p) pin) as [Hge | _]; [lia |].
  assert (Hvalid : ((mode =? ArduinoCore.GPIO_MODE_INPUT p)
                    || (mode =? ArduinoCore.GPIO_MODE_OUTPUT p)
                    || (mode =? ArduinoCore.GPIO_MODE_OUTPUT_OD p))%Z = true).
  { destruct Hmode as [-> | [-> | ->]];
      rewrite Z.eqb_refl, ?orb_true_r; reflexivity. }
  rewrite Hvalid.
  cbv [negb mbind mret ArduinoCore.G_MBind ArduinoCore.G_MRet ArduinoCore.gpio_get
       ArduinoCore.gpio_emit ArduinoCore.write_initialized].
  destruct (is_ok (ArduinoCore.gpio_config p (ArduinoCore.history s) pin mode));
    [| reflexivity].
  match goal with
  | |- context [pin <? ?n] =>
      replace (pin <? n) with true by (symmetry; apply Nat.ltb_lt; cbn; lia)
  end.
  reflexivity.
Qed.

(** The state after a call: the arrays keep their lengths. *)
Lemma gpio_state_wf_insert (p : ArduinoCore.gpio_platform) (s : ArduinoCore.gpio_state)
    (b : bool) (pin : nat) (evs : list ArduinoCore.gpio_event) :
  ArduinoCore.gpio_state_wf p s ->
  ArduinoCore.gpio_state_wf p
    {| ArduinoCore.gpio_initialized :=
         if b then <[pin := true]> (ArduinoCore.gpio_initialized s)
         else ArduinoCore.gpio_initialized s;
       ArduinoCore.interrupt_handlers := ArduinoCore.interrupt_handlers s;
       ArduinoCore.history := evs |}.
Proof.
  intros [H1 H2]. split; cbn; [| exact H2].
  destruct b; [now rewrite length_insert | exact H1].
Qed.

(** [digitalWrite] on a pin of the chip: the level is set, after one
    configuration as an output when the pin was not initialized. *)
Lemma digitalWrite_run (p : ArduinoCore.gpio_platform) (pin : nat) (val : Z)
    (s : ArduinoCore.gpio_state) :
  ArduinoCore.gpio_state_wf p s ->
  pin < ArduinoCore.GPIO_NUM_MAX p ->
  exists init,
    ArduinoCore.gpio_initialized s !! pin = Some init
    /\ let mode := ArduinoCore.GPIO_MODE_OUTPUT p in
       let configured :=
         negb init && is_ok (ArduinoCore.gpio_config p (ArduinoCore.history s) pin mode) in
       ArduinoCore.digitalWrite p pin val s =
         Some (tt,
               {| ArduinoCore.gpio_initialized :=
                    if configured then <[pin := true]> (ArduinoCore.gpio_initialized s)
                    else ArduinoCore.gpio_initialized s;
                  ArduinoCore.interrupt_handlers := ArduinoCore.interrupt_handlers s;
                  ArduinoCore.history :=
                    ArduinoCore.history s
                    ++ (if init then [] else [ArduinoCore.EvGpioConfig pin mode])
                    ++ [ArduinoCore.EvGpioSetLevel pin (if (val =? 0)%Z then 0 else 1)%Z]
               |}).
Proof.
  intros Hwf Hpin.
  destruct (lookup_lt_is_Some_2 (ArduinoCore.gpio_initialized s) pin) as [init Hinit];
    [destruct Hwf; lia |].
  exists init. split; [exact Hinit |]. cbv zeta.
  unfold ArduinoCore.digitalWrite.
  destruct (Nat.leb_spec (ArduinoCore.GPIO_NUM_MAX p) pin) as [Hge | _]; [lia |].
  cbv [mbind ArduinoCore.G_MBind ArduinoCore.read_initialized]. rewrite Hinit.
  destruct init; cbn.
  - gpio_run. now destruct s.
  - rewrite (pinMode_run p pin _ s Hwf Hpin) by auto.
    gpio_run. rewrite <- app_assoc. reflexivity.
Qed.

(** [digitalRead] on a pin of the chip: the level the driver answers, after
    one configuration as an input when the pin was not initialized. *)
Lemma digitalRead_run (p : ArduinoCore.gpio_platform) (pin : nat)
    (s : ArduinoCore.gpio_state) :
  ArduinoCore.gpio_state_wf p s ->
  pin < ArduinoCore.GPIO_NUM_MAX p ->
  exists init,
    ArduinoCore.gpio_initialized s !! pin = Some init
    /\ let mode := ArduinoCore.GPIO_MODE_INPUT p in
       let configured :=
         negb init && is_ok (ArduinoCore.gpio_config p (ArduinoCore.history s) pin mode) in
       let before :=
         ArduinoCore.history s
         ++ (if init then [] else [ArduinoCore.EvGpioConfig pin mode]) in
       ArduinoCore.digitalRead p pin s =
         Some (ArduinoCore.gpio_get_level p before pin,
               {| ArduinoCore.gpio_initialized :=
                    if configured then <[pin := true]> (ArduinoCore.gpio_initialized s)
                    else ArduinoCore.gpio_initialized s;
                  ArduinoCore.interrupt_handlers := ArduinoCore.interrupt_handlers s;
                  ArduinoCore.history := before ++ [ArduinoCore.EvGpioGetLevel pin] |}).
Proof.
  intros Hwf Hpin.
  destruct (lookup_lt_is_Some_2 (ArduinoCore.gpio_initialized s) pin) as [init Hinit];
    [destruct Hwf; lia |].
  exists init. split; [exact Hinit |]. cbv zeta.
  unfold ArduinoCore.digitalRead.
  destruct (Nat.leb_spec (ArduinoCore.GPIO_NUM_MAX p) pin) as [Hge | _]; [lia |].
  cbv [mbind ArduinoCore.G_MBind ArduinoCore.read_initialized]. rewrite Hinit.
  destruct init; cbn.
  - gpio_run. rewrite app_nil_r. now destruct s.
  - rewrite (pinMode_run p pin _ s Hwf Hpin) by auto.
    gpio_run. reflexivity.
Qed.

(** Reading the history of a call: histories are read piece by piece, and a
    configuration is neither a write nor a read of a level. *)
Lemma levels_written_app (q : nat) (a b : list ArduinoCore.gpio_event) :
  ArduinoCore.levels_written q (a ++ b)
  = ArduinoCore.levels_written q a ++ ArduinoCore.levels_written q b.
Proof. unfold ArduinoCore.levels_written. apply omap_app. Qed.

Lemma reads_of_app (q : nat) (a b : list ArduinoCore.gpio_event) :
  ArduinoCore.reads_of q (a ++ b)
  = ArduinoCore.reads_of q a + ArduinoCore.reads_of q b.
Proof. unfold ArduinoCore.reads_of. now rewrite List.filter_app, length_app. Qed.

Lemma configurations_app (a b : list ArduinoCore.gpio_event) :
  ArduinoCore.configurations (a ++ b)
  = ArduinoCore.configurations a ++ ArduinoCore.configurations b.
Proof. unfold ArduinoCore.configurations. apply omap_app. Qed.


(** X25. [pinMode], [digitalWrite] and [digitalRead] do nothing for a
    pin number at or above [GPIO_NUM_MAX] ([digitalRead] answers [LOW]), and
    [pinMode] does nothing for a mode outside its [switch].  On a pin of the
    chip, [digitalWrite] sets the level (1 for any non-zero value) and
    [digitalRead] returns what the driver answers; either configures the
    pin first, as an output or as an input, exactly when the pin does not
    count as initialized, and the pin counts as initialized afterwards
    exactly when it did before or the configuration succeeded.  No other
    pin changes. *)
Theorem gpio_lazy_configuration (p : ArduinoCore.gpio_platform) (pin : nat)
    (val mode : Z) (s : ArduinoCore.gpio_state) :
  ArduinoCore.gpio_state_wf p s ->
  (ArduinoCore.GPIO_NUM_MAX p <= pin ->
     ArduinoCore.pinMode p pin mode s = Some (tt, s)
     /\ ArduinoCore.digitalWrite p pin val s = Some (tt, s)
     /\ ArduinoCore.digitalRead p pin s = Some (ArduinoCore.LOW, s))
  /\ (mode <> ArduinoCore.GPIO_MODE_INPUT p ->
      mode <> ArduinoCore.GPIO_MODE_OUTPUT p ->
      mode <> ArduinoCore.GPIO_MODE_OUTPUT_OD p ->
      ArduinoCore.pinMode p pin mode s = Some (tt, s))
  /\ (pin < ArduinoCore.GPIO_NUM_MAX p ->
      exists (init : bool) (w r : ArduinoCore.gpio_state),
        ArduinoCore.gpio_initialized s !! pin = Some init
        /\ ArduinoCore.digitalWrite p pin val s = Some (tt, w)
        /\ ArduinoCore.digitalRead p pin s
           = Some (ArduinoCore.gpio_get_level p
                     (ArduinoCore.history s
                      ++ (if init then []
                          else [ArduinoCore.EvGpioConfig pin (ArduinoCore.GPIO_MODE_INPUT p)]))
                     pin, r)
        /\ ArduinoCore.configurations (ArduinoCore.history w)
           = ArduinoCore.configurations (ArduinoCore.history s)
             ++ (if init then [] else [(pin, ArduinoCore.GPIO_MODE_OUTPUT p)])
        /\ ArduinoCore.configurations (ArduinoCore.history r)
           = ArduinoCore.configurations (ArduinoCore.history s)
             ++ (if init then [] else [(pin, ArduinoCore.GPIO_MODE_INPUT p)])
        /\ ArduinoCore.levels_written pin (ArduinoCore.history w)
           = ArduinoCore.levels_written pin (ArduinoCore.history s)
             ++ [if (val =? 0)%Z then 0 else 1]%Z
        /\ ArduinoCore.gpio_initialized w !! pin
           = Some (init || is_ok (ArduinoCore.gpio_config p (ArduinoCore.history s) pin
                                    (ArduinoCore.GPIO_MODE_OUTPUT p)))
        /\ ArduinoCore.gpio_initialized r !! pin
           = Some (init || is_ok (ArduinoCore.gpio_config p (ArduinoCore.history s) pin
                                    (ArduinoCore.GPIO_MODE_INPUT p)))
        /\ (forall q, q <> pin ->
              ArduinoCore.gpio_initialized w !! q = ArduinoCore.gpio_initialized s !! q
              /\ ArduinoCore.gpio_initialized r !! q = ArduinoCore.gpio_initialized s !! q)).
Proof.
  intros Hwf. split; [| split].
  - intros Hge. unfold ArduinoCore.pinMode, ArduinoCore.digitalWrite,
      ArduinoCore.digitalRead.
    destruct (Nat.leb_spec (ArduinoCore.GPIO_NUM_MAX p) pin) as [_ | Hlt]; [| lia].
    auto.
  - intros H1 H2 H3. unfold ArduinoCore.pinMode.
    destruct (ArduinoCore.GPIO_NUM_MAX p <=? pin); [reflexivity |].
    rewrite (proj2 (Z.eqb_neq _ _) H1), (proj2 (Z.eqb_neq _ _) H2),
      (proj2 (Z.eqb_neq _ _) H3). reflexivity.
  - intros Hpin.
    destruct (digitalWrite_run p pin val s Hwf Hpin) as (init & Hinit & Hw).
    destruct (digitalRead_run p pin s Hwf Hpin) as (init' & Hinit' & Hr).
    assert (init' = init) as -> by congruence.
    cbv zeta in Hw, Hr. eexists init, _, _.
    split; [exact Hinit |]. split; [exact Hw |]. split; [exact Hr |].
    cbn [ArduinoCore.history ArduinoCore.gpio_initialized].
    assert (Hlen : pin < length (ArduinoCore.gpio_initialized s))
      by (destruct Hwf; lia).
    rewrite !configurations_app, !levels_written_app.
    destruct init; cbn [negb andb orb];
      repeat match goal with
             | |- context [is_ok ?x] => destruct (is_ok x)
             end;
      cbn; rewrite ?Nat.eqb_refl, ?app_nil_r;
      repeat split; try reflexivity; try assumption;
      try (apply list_lookup_insert_eq; exact Hlen);
      try (intros; apply list_lookup_insert_ne; congruence).
Qed.

(** What [digitalWrite] on a pin of the chip leaves: one more level written
    to that pin, no read, the handlers untouched. *)
Lemma digitalWrite_effect (p : ArduinoCore.gpio_platform) (pin : nat) (val : Z)
    (s : ArduinoCore.gpio_state) :
  ArduinoCore.gpio_state_wf p s ->
  pin < ArduinoCore.GPIO_NUM_MAX p ->
  exists s',
    ArduinoCore.digitalWrite p pin val s = Some (tt, s')
    /\ ArduinoCore.gpio_state_wf p s'
    /\ ArduinoCore.interrupt_handlers s' = ArduinoCore.interrupt_handlers s
    /\ (forall q, ArduinoCore.levels_written q (ArduinoCore.history s')
                  = ArduinoCore.levels_written q (ArduinoCore.history s)
                    ++ (if pin =? q then [if (val =? 0)%Z then 0 else 1]%Z else []))
    /\ (forall q, ArduinoCore.reads_of q (ArduinoCore.history s')
                  = ArduinoCore.reads_of q (ArduinoCore.history s)).
Proof.
  intros Hwf Hpin.
  destruct (digitalWrite_run p pin val s Hwf Hpin) as (init & Hinit & Hrun).
  cbv zeta in Hrun. eexists. split; [exact Hrun |].
  split; [apply gpio_state_wf_insert; exact Hwf |].
  split; [reflexivity |]. cbn [ArduinoCore.history]. split.
  - intros q. rewrite !levels_written_app. f_equal.
    destruct init; cbn; now destruct (pin =? q).
  - intros q. rewrite !reads_of_app. destruct init; cbn; lia.
Qed.

(** What [digitalRead] on a pin of the chip leaves: one more read of that
    pin, answered by the driver, and no level written. *)
Lemma digitalRead_effect (p : ArduinoCore.gpio_platform) (pin : nat)
    (s : ArduinoCore.gpio_state) :
  ArduinoCore.gpio_state_wf p s ->
  pin < ArduinoCore.GPIO_NUM_MAX p ->
  exists s' before,
    ArduinoCore.digitalRead p pin s
    = Some (ArduinoCore.gpio_get_level p before pin, s')
    /\ ArduinoCore.gpio_state_wf p s'
    /\ ArduinoCore.interrupt_handlers s' = ArduinoCore.interrupt_handlers s
    /\ (forall q, ArduinoCore.reads_of q before
                  = ArduinoCore.reads_of q (ArduinoCore.history s))
    /\ (forall q, ArduinoCore.levels_written q (ArduinoCore.history s')
                  = ArduinoCore.levels_written q (ArduinoCore.history s))
    /\ (forall q, ArduinoCore.reads_of q (ArduinoCore.history s')
                  = ArduinoCore.reads_of q (ArduinoCore.history s)
                    + (if pin =? q then 1 else 0)).
Proof.
  intros Hwf Hpin.
  destruct (digitalRead_run p pin s Hwf Hpin) as (init & Hinit & Hrun).
  cbv zeta in Hrun. eexists. eexists. split; [exact Hrun |].
  split; [apply gpio_state_wf_insert; exact Hwf |].
  split; [reflexivity |]. cbn [ArduinoCore.history].
  split; [| split].
  - intros q. rewrite reads_of_app. destruct init; cbn; lia.
  - intros q. rewrite !levels_written_app. destruct init; cbn;
      now rewrite !app_nil_r.
  - intros q. rewrite !reads_of_app. destruct init; cbn;
      destruct (pin =? q); cbn; lia.
Qed.

#[local] Opaque ArduinoCore.digitalWrite ArduinoCore.digitalRead ArduinoCore.pinMode.

(** The loop of [shiftOut] sends the bits of [val] on the data pin, in the
    order of the iterations, each followed by a pulse on the clock pin. *)
Lemma shiftOut_loop_run (p : ArduinoCore.gpio_platform) (dataPin clockPin : nat)
    (bitOrder val : Z) (n : nat) :
  dataPin < ArduinoCore.GPIO_NUM_MAX p ->
  clockPin < ArduinoCore.GPIO_NUM_MAX p ->
  forall (i : nat) (s : ArduinoCore.gpio_state),
  ArduinoCore.gpio_state_wf p s ->
  exists s',
    ArduinoCore.shiftOut_loop p dataPin clockPin bitOrder val i n s = Some (tt, s')
    /\ ArduinoCore.gpio_state_wf p s'
    /\ (dataPin <> clockPin ->
        ArduinoCore.levels_written dataPin (ArduinoCore.history s')
        = ArduinoCore.levels_written dataPin (ArduinoCore.history s)
          ++ List.map (fun k => ArduinoCore.bit_of val
                                  (ArduinoCore.shift_position bitOrder k))
                      (seq i n)
        /\ ArduinoCore.levels_written clockPin (ArduinoCore.history s')
           = ArduinoCore.levels_written clockPin (ArduinoCore.history s)
             ++ concat (replicate n [ArduinoCore.HIGH; ArduinoCore.LOW])).
Proof.
  intros Hd Hc. induction n as [| n IH]; intros i s Hwf.
  - exists s. cbn. rewrite !app_nil_r. auto.
  - cbn [ArduinoCore.shiftOut_loop]. cbv [mbind ArduinoCore.G_MBind].
    destruct (digitalWrite_effect p dataPin
                (ArduinoCore.bit_of val (ArduinoCore.shift_position bitOrder i)) s Hwf Hd)
      as (s1 & Hw1 & Hwf1 & _ & Hl1 & _).
    rewrite Hw1. cbv beta iota.
    destruct (digitalWrite_effect p clockPin ArduinoCore.HIGH s1 Hwf1 Hc)
      as (s2 & Hw2 & Hwf2 & _ & Hl2 & _).
    rewrite Hw2. cbv beta iota.
    destruct (digitalWrite_effect p clockPin ArduinoCore.LOW s2 Hwf2 Hc)
      as (s3 & Hw3 & Hwf3 & _ & Hl3 & _).
    rewrite Hw3. cbv beta iota.
    destruct (IH (S i) s3 Hwf3) as (s' & Hloop & Hwf' & Hl').
    exists s'. split; [exact Hloop |]. split; [exact Hwf' |].
    intros Hne. destruct (Hl' Hne) as [Hdata Hclock].
    rewrite Hdata, Hclock, !Hl3, !Hl2, !Hl1.
    rewrite !Nat.eqb_refl.
    rewrite (proj2 (Nat.eqb_neq dataPin clockPin)) by exact Hne.
    rewrite (proj2 (Nat.eqb_neq clockPin dataPin)) by (intros ->; now apply Hne).
    cbn [replicate concat seq List.map]. rewrite !app_nil_r, <- !app_assoc.
    split; [| reflexivity].
    f_equal. cbn. f_equal.
    unfold ArduinoCore.bit_of.
    now destruct (Z.land val _ =? 0)%Z.
Qed.

(** The loop of [shiftIn] reads the data pin once per iteration and puts
    the level it gets at the position of the iteration; [level k] is what
    the driver answers to the read of iteration [k]. *)
Lemma shiftIn_loop_run (p : ArduinoCore.gpio_platform) (dataPin clockPin : nat)
    (bitOrder : Z) (level : nat -> Z) (n : nat) :
  dataPin < ArduinoCore.GPIO_NUM_MAX p ->
  clockPin < ArduinoCore.GPIO_NUM_MAX p ->
  forall (i : nat) (value : Z) (s : ArduinoCore.gpio_state),
  ArduinoCore.gpio_state_wf p s ->
  (forall hist k, k < n ->
     ArduinoCore.reads_of dataPin hist
       = ArduinoCore.reads_of dataPin (ArduinoCore.history s) + k ->
     ArduinoCore.gpio_get_level p hist dataPin = level (i + k)) ->
  exists s',
    ArduinoCore.shiftIn_loop p dataPin clockPin bitOrder i n value s
    = Some (foldl (fun v k =>
                     DisplayHal.to_uint8
                       (Z.lor v (Z.shiftl (level k)
                                          (ArduinoCore.shift_position bitOrder k))))
                  value (seq i n), s')
    /\ ArduinoCore.gpio_state_wf p s'.
Proof.
  intros Hd Hc. induction n as [| n IH]; intros i value s Hwf Hdev.
  - exists s. cbn. auto.
  - cbn [ArduinoCore.shiftIn_loop]. cbv [mbind ArduinoCore.G_MBind].
    destruct (digitalWrite_effect p clockPin ArduinoCore.HIGH s Hwf Hc)
      as (s1 & Hw1 & Hwf1 & _ & _ & Hr1).
    rewrite Hw1. cbv beta iota.
    destruct (digitalRead_effect p dataPin s1 Hwf1 Hd)
      as (s2 & before & Hw2 & Hwf2 & _ & Hb & _ & Hr2).
    rewrite Hw2. cbv beta iota.
    destruct (digitalWrite_effect p clockPin ArduinoCore.LOW s2 Hwf2 Hc)
      as (s3 & Hw3 & Hwf3 & _ & _ & Hr3).
    rewrite Hw3. cbv beta iota.
    rewrite (Hdev before 0) by (rewrite ?Hb, ?Hr1; lia).
    rewrite Nat.add_0_r.
    destruct (IH (S i) (DisplayHal.to_uint8
                          (Z.lor value
                             (Z.shiftl (level i)
                                       (ArduinoCore.shift_position bitOrder i)))) s3 Hwf3)
      as (s' & Hloop & Hwf').
    { intros hist k Hk Hreads. rewrite Hr3, Hr2, Hr1, Nat.eqb_refl in Hreads.
      rewrite (Hdev hist (S k)) by lia. f_equal. lia. }
    exists s'. split; [| exact Hwf']. exact Hloop.
Qed.

(** The pin is configured first when it does not count as initialized:
    that writes and reads no level. *)
Lemma pinMode_if_needed (p : ArduinoCore.gpio_platform) (pin : nat) (mode : Z)
    (init : bool) (s : ArduinoCore.gpio_state) :
  ArduinoCore.gpio_state_wf p s ->
  pin < ArduinoCore.GPIO_NUM_MAX p ->
  mode = ArduinoCore.GPIO_MODE_INPUT p \/ mode = ArduinoCore.GPIO_MODE_OUTPUT p
    \/ mode = ArduinoCore.GPIO_MODE_OUTPUT_OD p ->
  exists s1,
    (if negb init then ArduinoCore.pinMode p pin mode else mret tt) s = Some (tt, s1)
    /\ ArduinoCore.gpio_state_wf p s1
    /\ ArduinoCore.interrupt_handlers s1 = ArduinoCore.interrupt_handlers s
    /\ (forall q, ArduinoCore.levels_written q (ArduinoCore.history s1)
                  = ArduinoCore.levels_written q (ArduinoCore.history s))
    /\ (forall q, ArduinoCore.reads_of q (ArduinoCore.history s1)
                  = ArduinoCore.reads_of q (ArduinoCore.history s)).
Proof.
  intros Hwf Hpin Hmode. destruct init; cbn [negb].
  - exists s. auto.
  - rewrite (pinMode_run p pin mode s Hwf Hpin Hmode). eexists.
    split; [reflexivity |]. split; [apply gpio_state_wf_insert; exact Hwf |].
    split; [reflexivity |]. cbn [ArduinoCore.history]. split; intros q.
    + rewrite levels_written_app. cbn. now rewrite app_nil_r.
    + rewrite reads_of_app. cbn. lia.
Qed.

(** The byte assembled from the bits of [val], each put back at its
    position, is [val]. *)
Lemma assemble_bits (bitOrder val : Z) :
  (0 <= val < 256)%Z ->
  foldl (fun v k =>
           DisplayHal.to_uint8
             (Z.lor v (Z.shiftl (ArduinoCore.bits_in_order bitOrder val !!! k)
                                (ArduinoCore.shift_position bitOrder k))))
        0%Z (seq 0 8) = val.
Proof.
  intros Hval.
  cbv [ArduinoCore.bits_in_order ArduinoCore.shift_position].
  destruct (bitOrder =? ArduinoCore.LSBFIRST)%Z.
  - check_below 256%Z
      (fun val =>
         (foldl (fun v k =>
                   DisplayHal.to_uint8
                     (Z.lor v (Z.shiftl
                                 (List.map (fun i => ArduinoCore.bit_of val (Z.of_nat i))
                                           (seq 0 8) !!! k)
                                 (Z.of_nat k))))
                0 (seq 0 8) =? val)%Z) val Hval H.
    now apply Z.eqb_eq.
  - check_below 256%Z
      (fun val =>
         (foldl (fun v k =>
                   DisplayHal.to_uint8
                     (Z.lor v (Z.shiftl
                                 (List.map (fun i => ArduinoCore.bit_of val (7 - Z.of_nat i))
                                           (seq 0 8) !!! k)
                                 (7 - Z.of_nat k))))
                0 (seq 0 8) =? val)%Z) val Hval H.
    now apply Z.eqb_eq.
Qed.

(** X26. [shiftOut] and [shiftIn] are inverse to each other, in either
    bit order: on two different pins of the chip, [shiftOut] writes to the
    data pin the eight bits of the byte, in the order asked, and eight
    pulses (HIGH then LOW) to the clock pin; and [shiftIn] returns the byte
    when the data pin presents these eight bits to its eight reads. *)
Theorem shift_round_trip (p : ArduinoCore.gpio_platform) (dataPin clockPin : nat)
    (bitOrder val : Z) (s : ArduinoCore.gpio_state) :
  ArduinoCore.gpio_state_wf p s ->
  dataPin < ArduinoCore.GPIO_NUM_MAX p ->
  clockPin < ArduinoCore.GPIO_NUM_MAX p ->
  dataPin <> clockPin ->
  (0 <= val < 256)%Z ->
  (exists s',
     ArduinoCore.shiftOut p dataPin clockPin bitOrder val s = Some (tt, s')
     /\ ArduinoCore.levels_written dataPin (ArduinoCore.history s')
        = ArduinoCore.levels_written dataPin (ArduinoCore.history s)
          ++ ArduinoCore.bits_in_order bitOrder val
     /\ ArduinoCore.levels_written clockPin (ArduinoCore.history s')
        = ArduinoCore.levels_written clockPin (ArduinoCore.history s)
          ++ concat (replicate 8 [ArduinoCore.HIGH; ArduinoCore.LOW]))
  /\ ((forall hist k, k < 8 ->
         ArduinoCore.reads_of dataPin hist
           = ArduinoCore.reads_of dataPin (ArduinoCore.history s) + k ->
         ArduinoCore.gpio_get_level p hist dataPin
           = ArduinoCore.bits_in_order bitOrder val !!! k) ->
      exists s', ArduinoCore.shiftIn p dataPin clockPin bitOrder s = Some (val, s')).
Proof.
  intros Hwf Hd Hc Hne Hval.
  destruct (lookup_lt_is_Some_2 (ArduinoCore.gpio_initialized s) dataPin)
    as [init_d Hinit_d]; [destruct Hwf; lia |].
  split.
  - unfold ArduinoCore.shiftOut.
    cbv [mbind ArduinoCore.G_MBind ArduinoCore.read_initialized]. rewrite Hinit_d.
    destruct (pinMode_if_needed p dataPin (ArduinoCore.GPIO_MODE_OUTPUT p) init_d s
                Hwf Hd) as (s1 & Hm1 & Hwf1 & _ & Hl1 & _); [auto |].
    rewrite Hm1. cbv beta iota.
    destruct (lookup_lt_is_Some_2 (ArduinoCore.gpio_initialized s1) clockPin)
      as [init_c Hinit_c]; [destruct Hwf1; lia |].
    rewrite Hinit_c.
    destruct (pinMode_if_needed p clockPin (ArduinoCore.GPIO_MODE_OUTPUT p) init_c s1
                Hwf1 Hc) as (s2 & Hm2 & Hwf2 & _ & Hl2 & _); [auto |].
    rewrite Hm2. cbv beta iota.
    destruct (shiftOut_loop_run p dataPin clockPin bitOrder val 8 Hd Hc 0 s2 Hwf2)
      as (s' & Hloop & _ & Hl').
    exists s'. split; [exact Hloop |].
    destruct (Hl' Hne) as [Hdata Hclock].
    now rewrite Hdata, Hclock, !Hl2, !Hl1.
  - intros Hdev. unfold ArduinoCore.shiftIn.
    cbv [mbind ArduinoCore.G_MBind ArduinoCore.read_initialized]. rewrite Hinit_d.
    destruct (pinMode_if_needed p dataPin (ArduinoCore.GPIO_MODE_INPUT p) init_d s
                Hwf Hd) as (s1 & Hm1 & Hwf1 & _ & _ & Hr1); [auto |].
    rewrite Hm1. cbv beta iota.
    destruct (lookup_lt_is_Some_2 (ArduinoCore.gpio_initialized s1) clockPin)
      as [init_c Hinit_c]; [destruct Hwf1; lia |].
    rewrite Hinit_c.
    destruct (pinMode_if_needed p clockPin (ArduinoCore.GPIO_MODE_OUTPUT p) init_c s1
                Hwf1 Hc) as (s2 & Hm2 & Hwf2 & _ & _ & Hr2); [auto |].
    rewrite Hm2. cbv beta iota.
    destruct (shiftIn_loop_run p dataPin clockPin bitOrder
                (fun k => ArduinoCore.bits_in_order bitOrder val !!! k) 8 Hd Hc
                0 0%Z s2 Hwf2) as (s' & Hloop & _).
    { intros hist k Hk Hreads. apply Hdev; [exact Hk |].
      now rewrite Hreads, Hr2, Hr1. }
    exists s'. rewrite Hloop. now rewrite assemble_bits.
Qed.

(** Whatever the driver answers, the loop of [shiftIn] on pins of the chip
    stays within the arrays. *)
Lemma shiftIn_loop_defined (p : ArduinoCore.gpio_platform) (dataPin clockPin : nat)
    (bitOrder : Z) (n : nat) :
  dataPin < ArduinoCore.GPIO_NUM_MAX p ->
  clockPin < ArduinoCore.GPIO_NUM_MAX p ->
  forall (i : nat) (value : Z) (s : ArduinoCore.gpio_state),
  ArduinoCore.gpio_state_wf p s ->
  ArduinoCore.shiftIn_loop p dataPin clockPin bitOrder i n value s <> None.
Proof.
  intros Hd Hc. induction n as [| n IH]; intros i value s Hwf; [discriminate |].
  cbn [ArduinoCore.shiftIn_loop]. cbv [mbind ArduinoCore.G_MBind].
  destruct (digitalWrite_effect p clockPin ArduinoCore.HIGH s Hwf Hc)
    as (s1 & -> & Hwf1 & _).
  destruct (digitalRead_effect p dataPin s1 Hwf1 Hd)
    as (s2 & before & -> & Hwf2 & _).
  destruct (digitalWrite_effect p clockPin ArduinoCore.LOW s2 Hwf2 Hc)
    as (s3 & -> & Hwf3 & _).
  apply IH. exact Hwf3.
Qed.

(** X27. [shiftOut] and [shiftIn] index [gpio_initialized] before any
    check of the pin numbers: they stay within the array exactly when both
    pins are below [GPIO_NUM_MAX], whatever the driver answers. *)
Theorem shift_needs_pins_of_the_chip (p : ArduinoCore.gpio_platform)
    (dataPin clockPin : nat) (bitOrder val : Z) (s : ArduinoCore.gpio_state) :
  ArduinoCore.gpio_state_wf p s ->
  (ArduinoCore.shiftOut p dataPin clockPin bitOrder val s = None
   <-> ArduinoCore.GPIO_NUM_MAX p <= dataPin \/ ArduinoCore.GPIO_NUM_MAX p <= clockPin)
  /\ (ArduinoCore.shiftIn p dataPin clockPin bitOrder s = None
      <-> ArduinoCore.GPIO_NUM_MAX p <= dataPin \/ ArduinoCore.GPIO_NUM_MAX p <= clockPin).
Proof.
  intros Hwf.
  assert (Hmodes : forall mode_d value0 (loop : ArduinoCore.G value0),
            (mode_d = ArduinoCore.GPIO_MODE_INPUT p
             \/ mode_d = ArduinoCore.GPIO_MODE_OUTPUT p
             \/ mode_d = ArduinoCore.GPIO_MODE_OUTPUT_OD p) ->
            (forall s2, ArduinoCore.gpio_state_wf p s2 ->
               dataPin < ArduinoCore.GPIO_NUM_MAX p ->
               clockPin < ArduinoCore.GPIO_NUM_MAX p -> loop s2 <> None) ->
            (init ← ArduinoCore.read_initialized dataPin;
             (if negb init then ArduinoCore.pinMode p dataPin mode_d else mret tt);;
             init ← ArduinoCore.read_initialized clockPin;
             (if negb init then ArduinoCore.pinMode p clockPin (ArduinoCore.GPIO_MODE_OUTPUT p)
              else mret tt);;
             loop) s = None
            <-> ArduinoCore.GPIO_NUM_MAX p <= dataPin
                \/ ArduinoCore.GPIO_NUM_MAX p <= clockPin).
  { intros mode_d value0 loop Hmode Hloop.
    cbv [mbind ArduinoCore.G_MBind ArduinoCore.read_initialized].
    destruct (decide (dataPin < ArduinoCore.GPIO_NUM_MAX p)) as [Hd | Hd].
    - destruct (lookup_lt_is_Some_2 (ArduinoCore.gpio_initialized s) dataPin)
        as [init_d Hinit_d]; [destruct Hwf; lia |].
      rewrite Hinit_d.
      destruct (pinMode_if_needed p dataPin mode_d init_d s Hwf Hd Hmode)
        as (s1 & Hm1 & Hwf1 & _).
      rewrite Hm1. cbv beta iota.
      destruct (decide (clockPin < ArduinoCore.GPIO_NUM_MAX p)) as [Hc | Hc].
      + destruct (lookup_lt_is_Some_2 (ArduinoCore.gpio_initialized s1) clockPin)
          as [init_c Hinit_c]; [destruct Hwf1; lia |].
        rewrite Hinit_c.
        destruct (pinMode_if_needed p clockPin (ArduinoCore.GPIO_MODE_OUTPUT p) init_c s1
                    Hwf1 Hc) as (s2 & Hm2 & Hwf2 & _); [auto |].
        rewrite Hm2. cbv beta iota.
        split; [| lia]. intros Hnone. now apply Hloop in Hnone.
      + rewrite (lookup_ge_None_2 (ArduinoCore.gpio_initialized s1) clockPin)
          by (destruct Hwf1; lia).
        split; [intros _; right; lia | reflexivity].
    - rewrite (lookup_ge_None_2 (ArduinoCore.gpio_initialized s) dataPin)
        by (destruct Hwf; lia).
      split; [intros _; left; lia | reflexivity]. }
  split.
  - apply Hmodes; [auto |]. intros s2 Hwf2 Hd Hc.
    destruct (shiftOut_loop_run p dataPin clockPin bitOrder val 8 Hd Hc 0 s2 Hwf2)
      as (s' & -> & _). discriminate.
  - apply Hmodes; [auto |]. intros s2 Hwf2 Hd Hc.
    now apply shiftIn_loop_defined.
Qed.

(** X28. [attachInterrupt], [detachInterrupt] and the interrupt of a pin
    do nothing for a pin number at or above [GPIO_NUM_MAX].  On a pin of the
    chip, after [attachInterrupt] the interrupt of the pin calls the handler
    given, once (and nothing for a null handler); after [detachInterrupt] it
    calls nothing; the handlers of the other pins are as before, and the
    detach leaves the pin configured. *)
Theorem interrupt_dispatch (p : ArduinoCore.gpio_platform) (pin other : nat)
    (handler : option nat) (mode : Z) (s : ArduinoCore.gpio_state) :
  ArduinoCore.gpio_state_wf p s ->
  (ArduinoCore.GPIO_NUM_MAX p <= pin ->
     ArduinoCore.attachInterrupt p pin handler mode s = Some (tt, s)
     /\ ArduinoCore.detachInterrupt p pin s = Some (tt, s)
     /\ ArduinoCore.gpio_interrupt_handler p pin s = Some (tt, s))
  /\ (pin < ArduinoCore.GPIO_NUM_MAX p ->
      exists a d,
        ArduinoCore.attachInterrupt p pin handler mode s = Some (tt, a)
        /\ ArduinoCore.detachInterrupt p pin a = Some (tt, d)
        /\ ArduinoCore.gpio_state_wf p a /\ ArduinoCore.gpio_state_wf p d
        (* the interrupt of the pin calls the handler, once, when there is one *)
        /\ (exists a', ArduinoCore.gpio_interrupt_handler p pin a = Some (tt, a')
                       /\ ArduinoCore.history a'
                          = ArduinoCore.history a
                            ++ match handler with
                               | Some h => [ArduinoCore.EvHandlerCall h]
                               | None => []
                               end)
        (* after the detach it calls nothing *)
        /\ ArduinoCore.gpio_interrupt_handler p pin d = Some (tt, d)
        (* the other pins keep their handlers *)
        /\ (other <> pin ->
            ArduinoCore.interrupt_handlers a !! other
              = ArduinoCore.interrupt_handlers s !! other
            /\ ArduinoCore.interrupt_handlers d !! other
               = ArduinoCore.interrupt_handlers s !! other)
        (* a detach leaves the pin configured *)
        /\ ArduinoCore.gpio_initialized d = ArduinoCore.gpio_initialized a).
Proof.
  intros Hwf. split.
  - intros Hge. unfold ArduinoCore.attachInterrupt, ArduinoCore.detachInterrupt,
      ArduinoCore.gpio_interrupt_handler.
    destruct (Nat.leb_spec (ArduinoCore.GPIO_NUM_MAX p) pin) as [_ | Hlt]; [| lia].
    auto.
  - intros Hpin.
    destruct (lookup_lt_is_Some_2 (ArduinoCore.gpio_initialized s) pin)
      as [init Hinit]; [destruct Hwf; lia |].
    destruct (pinMode_if_needed p pin (ArduinoCore.GPIO_MODE_INPUT p) init s Hwf Hpin)
      as (s1 & Hm & Hwf1 & Hh1 & _); [auto |].
    assert (Hlen1 : pin < length (ArduinoCore.interrupt_handlers s1))
      by (destruct Hwf1; lia).
    assert (Hlt1 : (pin <? length (ArduinoCore.interrupt_handlers s1)) = true)
      by (apply Nat.ltb_lt; exact Hlen1).
    unfold ArduinoCore.attachInterrupt, ArduinoCore.detachInterrupt,
      ArduinoCore.gpio_interrupt_handler.
    destruct (Nat.leb_spec (ArduinoCore.GPIO_NUM_MAX p) pin) as [Hge | _]; [lia |].
    cbv [mbind ArduinoCore.G_MBind ArduinoCore.read_initialized]. rewrite Hinit.
    rewrite Hm.
    cbv [mret ArduinoCore.G_MRet ArduinoCore.gpio_emit ArduinoCore.write_handler].
    cbn [ArduinoCore.interrupt_handlers ArduinoCore.gpio_initialized
         ArduinoCore.history].
    rewrite Hlt1.
    eexists _, _. split; [reflexivity |].
    cbn [ArduinoCore.interrupt_handlers ArduinoCore.gpio_initialized
         ArduinoCore.history].
    rewrite length_insert, Hlt1.
    split; [reflexivity |].
    cbn [ArduinoCore.interrupt_handlers ArduinoCore.gpio_initialized
         ArduinoCore.history].
    rewrite !list_lookup_insert_eq by (rewrite ?length_insert; exact Hlen1).
    split; [| split; [| split; [| split; [| split]]]].
    + destruct Hwf1 as [H1 H2]. split; cbn; [exact H1 | now rewrite length_insert].
    + destruct Hwf1 as [H1 H2]. split; cbn; [exact H1 | now rewrite !length_insert].
    + destruct handler as [h |]; eexists; (split; [reflexivity |]); cbn;
        now rewrite ?app_nil_r.
    + reflexivity.
    + intros Hne. rewrite !list_lookup_insert_ne by congruence.
      now rewrite Hh1.
    + reflexivity.
Qed.

(** ** The further theorems at concrete inputs *)

Lemma tab5duino_init_subsystem_guards_witness :
  TAB5_SUBSYSTEM_COUNT <= 9
  /\ tab5duino_init_subsystem platform_ok 9 world_boot
     = (ESP_ERR_INVALID_ARG, world_boot, [])
  /\ TAB5_SUBSYSTEM_LVGL < TAB5_SUBSYSTEM_COUNT
  /\ subsystem_states (g_tab5duino_instance world_lvgl_error)
       !! TAB5_SUBSYSTEM_LVGL = Some TAB5_SUBSYSTEM_ERROR
  /\ TAB5_SUBSYSTEM_ERROR <> TAB5_SUBSYSTEM_UNINITIALIZED
  /\ tab5duino_init_subsystem platform_ok TAB5_SUBSYSTEM_LVGL world_lvgl_error
     = (ESP_OK, world_lvgl_error, []).
Proof.
  assert (Hge : TAB5_SUBSYSTEM_COUNT <= 9) by (vm_compute; lia).
  assert (Hlt : TAB5_SUBSYSTEM_LVGL < TAB5_SUBSYSTEM_COUNT) by (vm_compute; lia).
  assert (Hst : subsystem_states (g_tab5duino_instance world_lvgl_error)
                  !! TAB5_SUBSYSTEM_LVGL = Some TAB5_SUBSYSTEM_ERROR)
    by (vm_compute; reflexivity).
  assert (Hne : TAB5_SUBSYSTEM_ERROR <> TAB5_SUBSYSTEM_UNINITIALIZED) by discriminate.
  split; [exact Hge |]. split.
  - exact (proj1 (tab5duino_init_subsystem_guards platform_ok 9 world_boot) Hge).
  - split; [exact Hlt |]. split; [exact Hst |]. split; [exact Hne |].
    exact (proj1 (proj2 (tab5duino_init_subsystem_guards platform_ok
                           TAB5_SUBSYSTEM_LVGL world_lvgl_error)
                    Hlt _ Hst Hne)).
Defined.

Lemma states_settled_preserved_witness :
  states_settled (g_tab5duino_instance world_boot)
  /\ states_settled
       (g_tab5duino_instance
          (final (tab5duino_init platform_lvgl_fails (Some config_all_auto)
                    world_boot))).
Proof.
  assert (Hset : states_settled (g_tab5duino_instance world_boot)).
  { split; [reflexivity |]. vm_compute. repeat constructor; discriminate. }
  split; [exact Hset |].
  exact (proj1 (states_settled_preserved platform_lvgl_fails
                  (Some config_all_auto) 0 world_boot Hset)).
Defined.

Lemma tab5duino_init_success_witness :
  instance_wf (g_tab5duino_instance world_boot)
  /\ framework_initialized (g_tab5duino_instance world_boot) = false
  /\ result (tab5duino_init platform_ok None world_boot) = ESP_OK
  /\ init_order (events (tab5duino_init platform_ok None world_boot))
     = plan (default TAB5DUINO_CONFIG_DEFAULT None)
  /\ tab5duino_get_boot_time_us (final (tab5duino_init platform_ok None world_boot))
     = esp_timer_get_time platform_ok.
Proof.
  assert (Hwf : instance_wf (g_tab5duino_instance world_boot)) by reflexivity.
  assert (Hinit : framework_initialized (g_tab5duino_instance world_boot) = false)
    by reflexivity.
  assert (Hok : result (tab5duino_init platform_ok None world_boot) = ESP_OK)
    by (vm_compute; reflexivity).
  repeat (split; [assumption |]).
  destruct (tab5duino_init_success platform_ok None world_boot Hwf Hinit)
    as (_ & _ & Hboot & Hsuccess).
  split; [exact (proj1 (Hsuccess Hok)) | exact Hboot].
Defined.

Lemma tab5duino_start_stop_round_trip_witness :
  framework_initialized (g_tab5duino_instance world_initialized) = true
  /\ loop_task_handle (g_tab5duino_instance world_initialized) = None
  /\ xTaskCreatePinnedToCore platform_ok = Some 11
  /\ 2 <= 5
  /\ tab5duino_stop
       (final (loop_task 5 (final (tab5duino_start platform_ok world_initialized))))
     = (ESP_OK,
        {| g_tab5duino_instance :=
             set_user_setup_called true (g_tab5duino_instance world_initialized);
           lvgl_handle := lvgl_handle world_initialized;
           lvgl_tick_timer := lvgl_tick_timer world_initialized |},
        [EvTaskDelete 11]).
Proof.
  assert (Hinit : framework_initialized (g_tab5duino_instance world_initialized) = true)
    by (vm_compute; reflexivity).
  assert (Hnull : loop_task_handle (g_tab5duino_instance world_initialized) = None)
    by (vm_compute; reflexivity).
  assert (Htask : xTaskCreatePinnedToCore platform_ok = Some 11) by reflexivity.
  assert (Hn : 2 <= 5) by lia.
  split; [exact Hinit |]. split; [exact Hnull |]. split; [exact Htask |].
  split; [exact Hn |].
  pose proof (tab5duino_start_stop_round_trip platform_ok world_initialized 11 5
                Hinit Hnull Htask) as H.
  cbv zeta in H. destruct H as (_ & _ & _ & _ & _ & Hstop & _). exact (Hstop Hn).
Defined.

Lemma tab5duino_is_ready_needs_setup_witness :
  tab5duino_is_ready world_running = true
  /\ tab5duino_start platform_ok world_running = (ESP_OK, world_running, [])
  /\ instance_wf (g_tab5duino_instance world_boot)
  /\ user_setup_called (g_tab5duino_instance world_boot) = false
  /\ loop_task_handle (g_tab5duino_instance world_boot) = None
  /\ tab5duino_is_ready (final (tab5duino_init platform_ok None world_boot)) = false
  /\ result (tab5duino_start platform_ok
               (final (tab5duino_init platform_ok None world_boot))) = ESP_OK
  /\ tab5duino_is_ready
       (final (loop_task 1
                 (final (tab5duino_start platform_ok
                           (final (tab5duino_init platform_ok None world_boot))))))
     = (2 <=? 1)
  /\ tab5duino_is_ready
       (final (loop_task 2
                 (final (tab5duino_start platform_ok
                           (final (tab5duino_init platform_ok None world_boot))))))
     = (2 <=? 2).
Proof.
  assert (Hready : tab5duino_is_ready world_running = true)
    by (vm_compute; reflexivity).
  assert (Hwf : instance_wf (g_tab5duino_instance world_boot)) by reflexivity.
  assert (Hus : user_setup_called (g_tab5duino_instance world_boot) = false)
    by reflexivity.
  assert (Hnull : loop_task_handle (g_tab5duino_instance world_boot) = None)
    by reflexivity.
  assert (Hok : result (tab5duino_start platform_ok
                          (final (tab5duino_init platform_ok None world_boot)))
                = ESP_OK) by (vm_compute; reflexivity).
  split; [exact Hready |]. split.
  - exact (proj2 (proj1 (tab5duino_is_ready_needs_setup platform_ok None world_running)
                    Hready)).
  - split; [exact Hwf |]. split; [exact Hus |]. split; [exact Hnull |].
    pose proof (tab5duino_is_ready_needs_setup platform_ok None world_boot) as H.
    destruct H as (_ & _ & _ & Hfresh & _).
    specialize (Hfresh Hwf Hus Hnull). cbv zeta in Hfresh.
    destruct Hfresh as (Hinit & _ & Htask).
    split; [exact Hinit |]. split; [exact Hok |].
    split; [exact (Htask Hok 1) | exact (Htask Hok 2)].
Defined.

Lemma Tab5duinoFramework_begin_end_witness :
  let b := Tab5duinoFramework_begin platform_lvgl_fails (Some config_all_auto)
             (world_boot, Tab5duinoFramework_new) in
  instance_wf (g_tab5duino_instance world_boot)
  /\ initialized Tab5duinoFramework_new
     = framework_initialized (g_tab5duino_instance world_boot)
  /\ result b <> ESP_OK
  /\ Tab5duinoFramework_end (final b) = (tt, final b, []).
Proof.
  intros b.
  assert (Hwf : instance_wf (g_tab5duino_instance world_boot)) by reflexivity.
  assert (Hflag : initialized Tab5duinoFramework_new
                  = framework_initialized (g_tab5duino_instance world_boot))
    by reflexivity.
  assert (Hfail : result b <> ESP_OK) by (vm_compute; discriminate).
  split; [exact Hwf |]. split; [exact Hflag |]. split; [exact Hfail |].
  pose proof (Tab5duinoFramework_begin_end platform_lvgl_fails (Some config_all_auto)
                world_boot Tab5duinoFramework_new Hwf Hflag) as H.
  cbv zeta in H. destruct H as (_ & _ & Hend & _). exact (Hend Hfail).
Defined.

Lemma main_status_witness :
  instance_wf (g_tab5duino_instance world_boot)
  /\ loop_task_handle (g_tab5duino_instance world_boot) = None
  /\ result (tab5duino_init platform_ok None world_boot) = ESP_OK
  /\ xTaskCreatePinnedToCore platform_ok <> None
  /\ result (main platform_ok world_boot) = 0%Z.
Proof.
  assert (Hwf : instance_wf (g_tab5duino_instance world_boot)) by reflexivity.
  assert (Hnull : loop_task_handle (g_tab5duino_instance world_boot) = None)
    by reflexivity.
  assert (Hok : result (tab5duino_init platform_ok None world_boot) = ESP_OK)
    by (vm_compute; reflexivity).
  assert (Htask : xTaskCreatePinnedToCore platform_ok <> None) by discriminate.
  repeat (split; [assumption |]).
  exact (proj2 (proj1 (proj2 (main_status platform_ok world_boot Hwf Hnull)))
           (conj Hok Htask)).
Defined.

Lemma framework_calls_once_and_paired_witness :
  instance_wf (g_tab5duino_instance world_boot)
  /\ framework_initialized (g_tab5duino_instance world_boot) = false
  /\ loop_task_handle (g_tab5duino_instance world_boot) = None
  /\ framework_calls (events (tab5duino_init platform_ok None world_boot))
     = (if enable_usb_serial (default TAB5DUINO_CONFIG_DEFAULT None)
        then [EvUsbSerialInstall] else [])
       ++ (if is_ok (result (tab5duino_init platform_ok None world_boot))
              && on_framework_init platform_ok
           then [EvOnFrameworkInit] else []).
Proof.
  assert (Hwf : instance_wf (g_tab5duino_instance world_boot)) by reflexivity.
  assert (Hinit : framework_initialized (g_tab5duino_instance world_boot) = false)
    by reflexivity.
  assert (Hnull : loop_task_handle (g_tab5duino_instance world_boot) = None)
    by reflexivity.
  repeat (split; [assumption |]).
  exact (proj1 (framework_calls_once_and_paired platform_ok None world_boot
                  Hwf Hinit Hnull)).
Defined.

Lemma lvgl_tab5_init_success_witness :
  result (Lvgl.lvgl_tab5_init lvgl_platform_ok None true None)
  = (ESP_OK, lvgl_handle_initialized)
  /\ (fun h => Lvgl.initialized (Lvgl.context h)) <$> lvgl_handle_initialized
     = Some true
  /\ events (Lvgl.lvgl_tab5_init lvgl_platform_ok None true None)
     = [EvLvInit; EvDisplayHalInit; EvTouchHalInit; EvTimerCreate].
Proof.
  assert (Hsome : exists h, lvgl_handle_initialized = Some h)
    by (vm_compute; eexists; reflexivity).
  destruct Hsome as [h Hh].
  assert (Hrun : result (Lvgl.lvgl_tab5_init lvgl_platform_ok None true None)
                 = (ESP_OK, lvgl_handle_initialized))
    by (vm_compute; reflexivity).
  split; [exact Hrun |].
  rewrite Hh in Hrun |- *.
  pose proof (lvgl_tab5_init_success lvgl_platform_ok None None ESP_OK h Hrun) as H.
  cbv zeta in H. destruct H as (_ & _ & Hinit & H). split.
  - cbn. now rewrite Hinit.
  - destruct H as (_ & _ & _ & _ & _ & _ & _ & _ & _ & _ & _ & _ & _ & Hev).
    exact Hev.
Defined.

Lemma lvgl_tab5_init_failure_witness :
  Lvgl.calloc_handle lvgl_platform_touch_init_fails = true
  /\ result (Lvgl.lvgl_tab5_init lvgl_platform_touch_init_fails None true None)
     = (ESP_FAIL, None)
  /\ final (Lvgl.lvgl_tab5_init lvgl_platform_touch_init_fails None true None) = None
  /\ calls EvTouchHalDeinit
       (events (Lvgl.lvgl_tab5_init lvgl_platform_touch_init_fails None true None))
     = 1.
Proof.
  assert (Hc : Lvgl.calloc_handle lvgl_platform_touch_init_fails = true)
    by reflexivity.
  assert (Hrun : result (Lvgl.lvgl_tab5_init lvgl_platform_touch_init_fails
                           None true None) = (ESP_FAIL, None))
    by (vm_compute; reflexivity).
  split; [exact Hc |]. split; [exact Hrun |].
  pose proof (proj2 (proj2 (lvgl_tab5_init_failure lvgl_platform_touch_init_fails
                              None None)) Hc ESP_FAIL Hrun) as H.
  cbv zeta in H. destruct H as (_ & Hfinal & _ & Htouch & _).
  split; [exact Hfinal |]. rewrite Htouch. vm_compute. reflexivity.
Defined.

Lemma lvgl_tab5_start_outcome_witness :
  Lvgl.initialized (Lvgl.context sample_handle) = true
  /\ Lvgl.started sample_handle = false
  /\ final (Lvgl.lvgl_tab5_start lvgl_platform_ok (Some sample_handle) (Some 9))
     = Some 9.
Proof.
  assert (Hinit : Lvgl.initialized (Lvgl.context sample_handle) = true) by reflexivity.
  assert (Hs : Lvgl.started sample_handle = false) by reflexivity.
  split; [exact Hinit |]. split; [exact Hs |].
  pose proof (lvgl_tab5_start_outcome lvgl_platform_ok sample_handle (Some 9) Hinit Hs)
    as H.
  cbv zeta in H. destruct H as (Hfinal & _). exact Hfinal.
Defined.

Lemma lvgl_tab5_stop_outcome_witness :
  Lvgl.started sample_handle_started = true
  /\ events (Lvgl.lvgl_tab5_stop (Some sample_handle_started) (Some 9))
     = (if non_null (Lvgl.lvgl_task (Lvgl.context sample_handle_started))
        then [EvLvglTaskDelete] else [])
       ++ (if non_null (Some 9) then [EvTimerStop] else [])
       ++ [EvDisplayHalStop; EvTouchHalStop]
  /\ Lvgl.initialized (Lvgl.context sample_handle) = true
  /\ Lvgl.started sample_handle = false
  /\ Lvgl.lvgl_task (Lvgl.context sample_handle) = None
  /\ fst (result (Lvgl.lvgl_tab5_start lvgl_platform_ok (Some sample_handle) (Some 9)))
     = ESP_OK
  /\ exists h1,
       snd (result (Lvgl.lvgl_tab5_start lvgl_platform_ok (Some sample_handle) (Some 9)))
       = Some h1
       /\ fst (result (Lvgl.lvgl_tab5_stop
                         (Some (fst (Lvgl.lvgl_task_turns sample_turns h1)))
                         (Some 9)))
          = ESP_OK
       /\ snd (result (Lvgl.lvgl_tab5_stop
                         (Some (fst (Lvgl.lvgl_task_turns sample_turns h1)))
                         (Some 9)))
          = Some (Lvgl.set_frame_count 1
                    (Lvgl.set_fps_average 1
                       (Lvgl.set_last_perf_time 1002000 sample_handle))).
Proof.
  assert (Hs : Lvgl.started sample_handle_started = true) by reflexivity.
  assert (Hi : Lvgl.initialized (Lvgl.context sample_handle) = true) by reflexivity.
  assert (Hn : Lvgl.started sample_handle = false) by reflexivity.
  assert (Ht : Lvgl.lvgl_task (Lvgl.context sample_handle) = None) by reflexivity.
  assert (Hok : fst (result (Lvgl.lvgl_tab5_start lvgl_platform_ok (Some sample_handle)
                               (Some 9))) = ESP_OK) by (vm_compute; reflexivity).
  split; [exact Hs |].
  pose proof (lvgl_tab5_stop_outcome sample_handle_started (Some 9)) as H.
  destruct H as (_ & _ & Hstarted & _).
  specialize (Hstarted Hs). cbv zeta in Hstarted.
  destruct Hstarted as (_ & _ & Hev & _).
  split; [exact Hev |].
  split; [exact Hi |]. split; [exact Hn |]. split; [exact Ht |]. split; [exact Hok |].
  pose proof (lvgl_tab5_stop_outcome sample_handle (Some 9)) as H.
  destruct H as (_ & _ & _ & Hround).
  destruct (Hround lvgl_platform_ok sample_turns Hi Hn Ht Hok) as (h1 & Hh1 & Hstop).
  exists h1. split; [exact Hh1 |].
  cbv zeta in Hstop.
  assert (Hfinal : final (Lvgl.lvgl_tab5_start lvgl_platform_ok (Some sample_handle)
                            (Some 9)) = Some 9) by (vm_compute; reflexivity).
  rewrite Hfinal in Hstop. rewrite Hstop.
  split; [reflexivity |].
  cbn [result fst snd]. f_equal.
  assert (Hh : h1 = Lvgl.set_last_perf_time 2000
                      (Lvgl.set_started true
                         (Lvgl.set_context (Lvgl.set_lvgl_task (Some 10))
                            sample_handle))).
  { assert (Hrun : snd (result (Lvgl.lvgl_tab5_start lvgl_platform_ok
                                   (Some sample_handle) (Some 9)))
                   = Some (Lvgl.set_last_perf_time 2000
                             (Lvgl.set_started true
                                (Lvgl.set_context (Lvgl.set_lvgl_task (Some 10))
                                   sample_handle))))
      by (vm_compute; reflexivity).
    rewrite Hrun in Hh1. now injection Hh1 as <-. }
  rewrite Hh. vm_compute. reflexivity.
Defined.

Lemma LVGLTab5duino_lifecycle_witness :
  LVGLTab5duino_wf Lvgl.LVGLTab5duino_new
  /\ Lvgl.initialized_ Lvgl.LVGLTab5duino_new = false
  /\ Lvgl.LVGLTab5duino_start lvgl_platform_ok (Lvgl.LVGLTab5duino_new, None)
     = (ESP_ERR_INVALID_STATE, (Lvgl.LVGLTab5duino_new, None), []).
Proof.
  assert (Hwf : LVGLTab5duino_wf Lvgl.LVGLTab5duino_new) by reflexivity.
  assert (Hno : Lvgl.initialized_ Lvgl.LVGLTab5duino_new = false) by reflexivity.
  split; [exact Hwf |]. split; [exact Hno |].
  pose proof (LVGLTab5duino_lifecycle lvgl_platform_ok None Lvgl.LVGLTab5duino_new
                None Hwf) as H.
  cbv zeta in H. destruct H as (_ & _ & _ & _ & _ & _ & Hguard & _).
  exact (proj1 (Hguard Hno)).
Defined.

Lemma lvgl_calls_hold_the_mutex_witness :
  fst (Lvgl.lvgl_tab5_refresh_display false lvgl_handle_initialized) <> ESP_OK
  /\ Lvgl.lvgl_calls (snd (Lvgl.lvgl_tab5_refresh_display false lvgl_handle_initialized))
     = [].
Proof.
  assert (Hne : fst (Lvgl.lvgl_tab5_refresh_display false lvgl_handle_initialized)
                <> ESP_OK) by (vm_compute; discriminate).
  split; [exact Hne |].
  pose proof (lvgl_calls_hold_the_mutex false None lvgl_handle_initialized None) as H.
  cbv zeta in H. destruct H as (_ & _ & _ & _ & Hnone & _). exact (Hnone Hne).
Defined.

Lemma tab5duino_lvgl_realloc_keeps_or_moves_witness :
  (64 <> 0)%Z
  /\ fst (Lvgl.tab5duino_lvgl_realloc heap_psram_full (Some 3) 64) = Some 7
  /\ snd (Lvgl.tab5duino_lvgl_realloc heap_psram_full (Some 3) 64)
     = snd (Lvgl.tab5duino_lvgl_malloc heap_psram_full 64)
       ++ [Lvgl.EvMemcpy 7 3 64; Lvgl.EvFree 3].
Proof.
  assert (Hsize : (64 <> 0)%Z) by discriminate.
  assert (Hnew : fst (Lvgl.tab5duino_lvgl_realloc heap_psram_full (Some 3) 64) = Some 7)
    by reflexivity.
  split; [exact Hsize |]. split; [exact Hnew |].
  pose proof (tab5duino_lvgl_realloc_keeps_or_moves heap_psram_full (Some 3) 64) as H.
  cbv zeta in H. destruct H as (_ & _ & _ & _ & Hold).
  destruct (Hold 3 eq_refl) as [_ Hmove].
  destruct (Hmove Hsize) as (_ & _ & Hcopy). exact (Hcopy 7 Hnew).
Defined.

Lemma touchpad_read_cb_bounds_witness :
  Lvgl.touch_hal (Lvgl.context sample_handle) = Some 3
  /\ length (snd (fst (Lvgl.touch_hal_read_points lvgl_platform_touch_overrun)))
     = TouchHal.TOUCH_MAX_POINTS
  /\ Lvgl.touchpad_read_cb lvgl_platform_touch_overrun (Some sample_handle) sample_data
     = None.
Proof.
  assert (Hhal : Lvgl.touch_hal (Lvgl.context sample_handle) = Some 3) by reflexivity.
  assert (Hlen : length (snd (fst (Lvgl.touch_hal_read_points
                                     lvgl_platform_touch_overrun)))
                 = TouchHal.TOUCH_MAX_POINTS) by reflexivity.
  split; [exact Hhal |]. split; [exact Hlen |].
  apply (proj1 (touchpad_read_cb_bounds lvgl_platform_touch_overrun sample_handle 3
                  sample_data ESP_OK _ 12 Hhal eq_refl Hlen)).
  split; [reflexivity |]. split; [vm_compute; lia |].
  intros pt Hpt.
  repeat (apply elem_of_cons in Hpt as [-> | Hpt]; [reflexivity |]).
  now apply elem_of_nil in Hpt.
Defined.

Lemma display_flush_cb_region_witness :
  Lvgl.display_hal (Lvgl.context sample_handle) = Some 2
  /\ (0 <= Lvgl.x1 sample_area <= Lvgl.x2 sample_area)%Z
  /\ (Lvgl.x2 sample_area < 65535)%Z
  /\ (0 <= Lvgl.y1 sample_area <= Lvgl.y2 sample_area)%Z
  /\ (Lvgl.y2 sample_area < 65535)%Z
  /\ events (Lvgl.display_flush_cb lvgl_platform_ok (Some sample_handle) sample_area tt)
     = [EvPpaBlend 128 96 64 32; EvFlushReady].
Proof.
  assert (Hhal : Lvgl.display_hal (Lvgl.context sample_handle) = Some 2) by reflexivity.
  assert (Hx : (0 <= Lvgl.x1 sample_area <= Lvgl.x2 sample_area)%Z) by (cbn; lia).
  assert (Hx2 : (Lvgl.x2 sample_area < 65535)%Z) by (cbn; lia).
  assert (Hy : (0 <= Lvgl.y1 sample_area <= Lvgl.y2 sample_area)%Z) by (cbn; lia).
  assert (Hy2 : (Lvgl.y2 sample_area < 65535)%Z) by (cbn; lia).
  split; [exact Hhal |]. split; [exact Hx |]. split; [exact Hx2 |].
  split; [exact Hy |]. split; [exact Hy2 |].
  exact (display_flush_cb_region lvgl_platform_ok sample_handle 2 sample_area tt
           Hhal Hx Hx2 Hy Hy2).
Defined.

Lemma display_rgb565_round_trip_witness :
  (0 <= 0xF81F < 65536)%Z
  /\ DisplayHal.display_rgb565_to_rgb 0xF81F = (0xF8, 0, 0xF8)%Z
  /\ DisplayHal.display_rgb_to_rgb565 0xF8 0 0xF8 = 0xF81F%Z.
Proof.
  assert (Hc : (0 <= 0xF81F < 65536)%Z) by lia.
  split; [exact Hc |]. split; [reflexivity |].
  exact (proj1 display_rgb565_round_trip 0xF81F%Z Hc).
Defined.

Lemma map_stays_in_range_witness :
  (0 < 1023)%Z /\ (0 <= 255)%Z /\ (0 <= 512 <= 1023)%Z
  /\ ArduinoCore.map 512 0 1023 0 255 = Some 127%Z
  /\ (0 <= 127 <= 255)%Z.
Proof.
  assert (Hfrom : (0 < 1023)%Z) by lia.
  assert (Hto : (0 <= 255)%Z) by lia.
  assert (Hvalue : (0 <= 512 <= 1023)%Z) by lia.
  assert (Hmap : ArduinoCore.map 512 0 1023 0 255 = Some 127%Z) by reflexivity.
  split; [exact Hfrom |]. split; [exact Hto |]. split; [exact Hvalue |].
  split; [exact Hmap |].
  exact (proj1 (proj1 (map_stays_in_range 512 0 1023 0 255 Hfrom Hto Hvalue) 127%Z Hmap)).
Defined.

Lemma random_in_range_witness :
  (0 <= 4000000000 < 2 ^ 32)%Z
  /\ ArduinoCore.in_long (-5) = true /\ ArduinoCore.in_long 5 = true
  /\ (-5 < 5)%Z /\ (5 - -5 <= ArduinoCore.LONG_MAX)%Z
  /\ exists r, ArduinoCore.random_min_max 4000000000 (-5) 5 = Some r
               /\ (-5 <= r < 5)%Z.
Proof.
  assert (Hu : (0 <= 4000000000 < 2 ^ 32)%Z) by (cbn; lia).
  assert (Hmin : ArduinoCore.in_long (-5) = true) by reflexivity.
  assert (Hmax : ArduinoCore.in_long 5 = true) by reflexivity.
  assert (Hlt : (-5 < 5)%Z) by lia.
  assert (Hd : (5 - -5 <= ArduinoCore.LONG_MAX)%Z) by (vm_compute; discriminate).
  split; [exact Hu |]. split; [exact Hmin |]. split; [exact Hmax |].
  split; [exact Hlt |]. split; [exact Hd |].
  exact (proj1 (proj2 (proj2 (proj2
           (random_in_range 4000000000 (-5) 5 Hu Hmin Hmax)))) Hlt Hd).
Defined.

Lemma bit_macros_witness :
  (0 <= 5 < 32)%Z /\ (0 <= 0 < 32)%Z /\ 0%Z <> 5%Z
  /\ ArduinoCore.bitRead (ArduinoCore.bitSet 0x81 5) 5 = 1%Z
  /\ ArduinoCore.bitRead (ArduinoCore.bitSet 0x81 5) 0 = ArduinoCore.bitRead 0x81 0.
Proof.
  assert (Hbit : (0 <= 5 < 32)%Z) by lia.
  assert (Hother : (0 <= 0 < 32)%Z) by lia.
  assert (Hne : 0%Z <> 5%Z) by discriminate.
  split; [exact Hbit |]. split; [exact Hother |]. split; [exact Hne |].
  destruct (bit_macros 0x81 5 0 true Hbit Hother Hne) as (Hset & _ & _ & Hkeep & _).
  split; [exact Hset | exact Hkeep].
Defined.

Lemma constrain_and_bytes_witness :
  (0 <= 255)%Z /\ (0 <= ArduinoCore.constrain 300 0 255 <= 255)%Z
  /\ (0 <= 0xABCD < 65536)%Z
  /\ 0xABCD%Z = (256 * ArduinoCore.highByte 0xABCD + ArduinoCore.lowByte 0xABCD)%Z.
Proof.
  assert (Hlh : (0 <= 255)%Z) by lia.
  assert (Hw : (0 <= 0xABCD < 65536)%Z) by lia.
  destruct (constrain_and_bytes 300 0 255 0xABCD) as [Hc Hb].
  split; [exact Hlh |]. split; [exact (proj1 (Hc Hlh)) |].
  split; [exact Hw |]. exact (proj2 (proj2 (Hb Hw))).
Defined.

Lemma gpio_lazy_configuration_witness :
  ArduinoCore.gpio_state_wf gpio_platform_ok (ArduinoCore.gpio_boot gpio_platform_ok)
  /\ ArduinoCore.GPIO_NUM_MAX gpio_platform_ok <= 200
  /\ ArduinoCore.digitalWrite gpio_platform_ok 200 1
       (ArduinoCore.gpio_boot gpio_platform_ok)
     = Some (tt, ArduinoCore.gpio_boot gpio_platform_ok)
  /\ 2 < ArduinoCore.GPIO_NUM_MAX gpio_platform_ok
  /\ exists w,
       ArduinoCore.digitalWrite gpio_platform_ok 2 1
         (ArduinoCore.gpio_boot gpio_platform_ok) = Some (tt, w)
       /\ ArduinoCore.configurations (ArduinoCore.history w) = [(2, 2%Z)]
       /\ ArduinoCore.levels_written 2 (ArduinoCore.history w) = [1%Z].
Proof.
  assert (Hwf : ArduinoCore.gpio_state_wf gpio_platform_ok
                  (ArduinoCore.gpio_boot gpio_platform_ok))
    by (split; reflexivity).
  assert (Hge : ArduinoCore.GPIO_NUM_MAX gpio_platform_ok <= 200) by (cbn; lia).
  assert (Hlt : 2 < ArduinoCore.GPIO_NUM_MAX gpio_platform_ok) by (cbn; lia).
  split; [exact Hwf |]. split; [exact Hge |]. split.
  - exact (proj1 (proj2 (proj1 (gpio_lazy_configuration gpio_platform_ok 200 1 0
                                  (ArduinoCore.gpio_boot gpio_platform_ok) Hwf) Hge))).
  - split; [exact Hlt |].
    destruct (proj2 (proj2 (gpio_lazy_configuration gpio_platform_ok 2 1 0
                              (ArduinoCore.gpio_boot gpio_platform_ok) Hwf)) Hlt)
      as (init & w & r & Hinit & Hw & _ & Hcfg & _ & Hlv & _).
    exists w. split; [exact Hw |].
    assert (init = false) as -> by (vm_compute in Hinit; congruence).
    split; [exact Hcfg | exact Hlv].
Defined.

Lemma shift_round_trip_witness :
  let s := ArduinoCore.gpio_boot gpio_platform_ok in
  ArduinoCore.gpio_state_wf gpio_platform_ok s
  /\ 4 < ArduinoCore.GPIO_NUM_MAX gpio_platform_ok
  /\ 5 < ArduinoCore.GPIO_NUM_MAX gpio_platform_ok
  /\ 4 <> 5
  /\ (0 <= 0xA5 < 256)%Z
  /\ (exists s', ArduinoCore.shiftOut gpio_platform_ok 4 5 ArduinoCore.MSBFIRST 0xA5 s
                 = Some (tt, s')
                 /\ ArduinoCore.levels_written 4 (ArduinoCore.history s')
                    = [1; 0; 1; 0; 0; 1; 0; 1]%Z)
  /\ exists s', ArduinoCore.shiftIn gpio_platform_ok 4 5 ArduinoCore.MSBFIRST s
                = Some (0xA5%Z, s').
Proof.
  intros s.
  assert (Hwf : ArduinoCore.gpio_state_wf gpio_platform_ok s) by (split; reflexivity).
  assert (Hd : 4 < ArduinoCore.GPIO_NUM_MAX gpio_platform_ok) by (cbn; lia).
  assert (Hc : 5 < ArduinoCore.GPIO_NUM_MAX gpio_platform_ok) by (cbn; lia).
  assert (Hne : 4 <> 5) by discriminate.
  assert (Hval : (0 <= 0xA5 < 256)%Z) by lia.
  split; [exact Hwf |]. split; [exact Hd |]. split; [exact Hc |].
  split; [exact Hne |]. split; [exact Hval |].
  destruct (shift_round_trip gpio_platform_ok 4 5 ArduinoCore.MSBFIRST 0xA5 s
              Hwf Hd Hc Hne Hval) as [Hout Hin].
  split.
  - destruct Hout as (s' & Hrun & Hdata & _). exists s'. split; [exact Hrun |].
    rewrite Hdata. reflexivity.
  - apply Hin. intros hist k Hk Hreads. cbn [ArduinoCore.gpio_get_level gpio_platform_ok].
    cbn [Nat.eqb]. rewrite Hreads. reflexivity.
Defined.

Lemma shift_needs_pins_of_the_chip_witness :
  ArduinoCore.gpio_state_wf gpio_platform_ok (ArduinoCore.gpio_boot gpio_platform_ok)
  /\ ArduinoCore.GPIO_NUM_MAX gpio_platform_ok <= 60
  /\ ArduinoCore.shiftIn gpio_platform_ok 60 5 ArduinoCore.LSBFIRST
       (ArduinoCore.gpio_boot gpio_platform_ok) = None.
Proof.
  assert (Hwf : ArduinoCore.gpio_state_wf gpio_platform_ok
                  (ArduinoCore.gpio_boot gpio_platform_ok))
    by (split; reflexivity).
  assert (Hge : ArduinoCore.GPIO_NUM_MAX gpio_platform_ok <= 60) by (cbn; lia).
  split; [exact Hwf |]. split; [exact Hge |].
  exact (proj2 (proj2 (shift_needs_pins_of_the_chip gpio_platform_ok 60 5
                         ArduinoCore.LSBFIRST 0
                         (ArduinoCore.gpio_boot gpio_platform_ok) Hwf))
           (or_introl Hge)).
Defined.

Lemma interrupt_dispatch_witness :
  ArduinoCore.gpio_state_wf gpio_platform_ok (ArduinoCore.gpio_boot gpio_platform_ok)
  /\ 8 < ArduinoCore.GPIO_NUM_MAX gpio_platform_ok
  /\ exists a a',
       ArduinoCore.attachInterrupt gpio_platform_ok 8 (Some 42) 1
         (ArduinoCore.gpio_boot gpio_platform_ok) = Some (tt, a)
       /\ ArduinoCore.gpio_interrupt_handler gpio_platform_ok 8 a = Some (tt, a')
       /\ ArduinoCore.history a' = ArduinoCore.history a ++ [ArduinoCore.EvHandlerCall 42].
Proof.
  assert (Hwf : ArduinoCore.gpio_state_wf gpio_platform_ok
                  (ArduinoCore.gpio_boot gpio_platform_ok))
    by (split; reflexivity).
  assert (Hlt : 8 < ArduinoCore.GPIO_NUM_MAX gpio_platform_ok) by (cbn; lia).
  split; [exact Hwf |]. split; [exact Hlt |].
  destruct (proj2 (interrupt_dispatch gpio_platform_ok 8 0 (Some 42) 1
                     (ArduinoCore.gpio_boot gpio_platform_ok) Hwf) Hlt)
    as (a & d & Ha & _ & _ & _ & (a' & Hcall & Hhist) & _).
  exists a, a'. split; [exact Ha |]. split; [exact Hcall | exact Hhist].
Defined.
